(** * Structured-text extractors of task-to-code

    A shallow embedding of the pure functions of the repository:
    - [ClaudeCodeGenerator._parse_code_response],
      [ClaudeCodeGenerator._parse_test_response],
      [ClaudeCodeGenerator._detect_language_from_path] and
      [ClaudeCodeGenerator._format_directory_structure]  (src/claude_generator.py),
    - [ConfluenceJiraClient._extract_acceptance_criteria] and
      [ConfluenceJiraClient._extract_text_from_atlas_doc]  (src/confluence_client.py),
    - [TaskToCodePipeline._extract_requirements_from_content]  (src/pipeline.py),
    - [Config._validate_config] and [Config.get]  (src/config.py),
    - [ProjectAnalyzer._get_simplified_tree]  (src/project_analyzer.py).

    A Python [str] is a sequence of Unicode code points, so a character is a
    number and a string a list of them.  The string methods whose result is
    fixed by a small rule ([split], [strip], [startswith], [replace], [join],
    [in], [lstrip(chars)], slicing) are written out; the three that consult the
    Unicode character database ([lower], [isdigit], [isalnum]) are an interface,
    [Unicode], with the facts about them that the proofs use.

    The extractors are written twice: over strings, where every operation
    is defined, and over untyped values, where an operation raises what
    Python raises; the second form is shown to return what the first
    computes.  Code that can raise by design (the configuration, the text of
    a page) returns an outcome: a value or an exception. *)

From Stdlib Require Import String Ascii.
From Stdlib Require Import List NArith ZArith Bool Lia.
Import ListNotations.

(** ** Python strings *)

Definition char := N.
Definition str := list char.

(** A string literal of the source, as its code points (ASCII literals only). *)
Definition lit (s : string) : str := map N_of_ascii (list_ascii_of_string s).
Arguments lit s%_string.

Module Py.

Fixpoint str_eqb (a b : str) : bool :=
  match a, b with
  | [], [] => true
  | x :: a', y :: b' => (x =? y)%N && str_eqb a' b'
  | _, _ => false
  end.

(** [bool(s)] for a string or a list: non-empty. *)
Definition truthy {A} (l : list A) : bool :=
  match l with [] => false | _ :: _ => true end.

(** [str.isspace] of one character: the white-space set of CPython
    ([_PyUnicode_IsWhitespace]), which is what [str.strip()] removes. *)
Definition isspace (c : char) : bool :=
  ((9 <=? c) && (c <=? 13) || (28 <=? c) && (c <=? 32)
   || (c =? 133) || (c =? 160) || (c =? 5760)
   || (8192 <=? c) && (c <=? 8202)
   || (c =? 8232) || (c =? 8233) || (c =? 8239) || (c =? 8287)
   || (c =? 12288))%N.

Fixpoint lstrip (s : str) : str :=
  match s with
  | c :: s' => if isspace c then lstrip s' else s
  | [] => []
  end.

Definition rstrip (s : str) : str := rev (lstrip (rev s)).

(** [s.strip()] *)
Definition strip (s : str) : str := rstrip (lstrip s).

(** [s.startswith(prefix)] *)
Fixpoint startswith (s prefix : str) {struct prefix} : bool :=
  match prefix with
  | [] => true
  | a :: p' =>
      match s with
      | [] => false
      | b :: s' => (a =? b)%N && startswith s' p'
      end
  end.

Arguments startswith : simpl never.

(** [s.split('\n')]: never empty, one more piece than there are newlines. *)
Fixpoint split_lines (s : str) : list str :=
  match s with
  | [] => [[]]
  | c :: s' =>
      if (c =? 10)%N then [] :: split_lines s'
      else match split_lines s' with
           | l :: ls => (c :: l) :: ls
           | [] => [[c]]
           end
  end.

(** ['\n'.join(parts)] *)
Fixpoint join_lines (parts : list str) : str :=
  match parts with
  | [] => []
  | [p] => p
  | p :: rest => p ++ 10%N :: join_lines rest
  end.

(** [s.replace(old, '')] for a non-empty [old]: the occurrences of [old]
    are found from the left and do not overlap; [skip] counts the characters
    of the occurrence being removed that are still to be dropped. *)
Fixpoint remove_from (old : str) (skip : nat) (s : str) : str :=
  match s with
  | [] => []
  | c :: s' =>
      match skip with
      | S k => remove_from old k s'
      | O => if startswith s old
             then remove_from old (pred (length old)) s'
             else c :: remove_from old 0 s'
      end
  end.

Definition remove (s old : str) : str := remove_from old 0 s.

(** [sub in s] *)
Fixpoint contains (s sub : str) : bool :=
  startswith s sub ||
  match s with
  | [] => false
  | _ :: s' => contains s' sub
  end.

(** [s.lstrip(chars)] *)
Fixpoint lstrip_chars (s chars : str) : str :=
  match s with
  | c :: s' => if existsb (N.eqb c) chars then lstrip_chars s' chars else s
  | [] => []
  end.

(** [s.rfind(c)] for a one-character [c]: the last index, or -1. *)
Fixpoint rfind_from (c : char) (s : str) (i last : Z) : Z :=
  match s with
  | [] => last
  | x :: s' => rfind_from c s' (i + 1) (if (x =? c)%N then i else last)
  end.

Definition rfind (s : str) (c : char) : Z := rfind_from c s 0 (-1).

(** [s[i:j]] for [0 <= i]. *)
Definition slice (s : str) (i j : Z) : str :=
  firstn (Z.to_nat (j - i)) (skipn (Z.to_nat i) s).

(** [os.path.splitext] of [posixpath]: the extension starts at the last dot
    of the last path component, unless that component has only dots before
    it. *)
Definition splitext (p : str) : str * str :=
  let sepIndex := rfind p 47%N in
  let dotIndex := rfind p 46%N in
  if (sepIndex <? dotIndex)%Z then
    let filenameIndex := (sepIndex + 1)%Z in
    if existsb (fun c => negb (c =? 46)%N) (slice p filenameIndex dotIndex)
    then (firstn (Z.to_nat dotIndex) p, skipn (Z.to_nat dotIndex) p)
    else (p, [])
  else (p, []).

(** [d.get(key, default)] on a table written as a dict display. *)
Fixpoint dict_get (d : list (str * str)) (key default : str) : str :=
  match d with
  | [] => default
  | (k, v) :: d' => if str_eqb k key then v else dict_get d' key default
  end.

End Py.

(** ** The Unicode character database

    [str.lower], [str.isdigit] and [str.isalnum] read tables of the Unicode
    character database.  The extractors are parametric in them; the four
    laws are the properties of the tables that the proofs rely on. *)

Definition is_ascii (c : char) : bool := (c <? 128)%N.

Definition ascii_lower (c : char) : char :=
  if ((65 <=? c) && (c <=? 90))%N then (c + 32)%N else c.

Class Unicode := {
  (** [s.lower()] *)
  lower : str -> str;
  (** [c.isdigit()] and [c.isalnum()] for one character *)
  isdigit : char -> bool;
  isalnum : char -> bool;
  (** on ASCII text, lowering acts letter by letter on A-Z *)
  lower_ascii : forall s, forallb is_ascii s = true -> lower s = map ascii_lower s;
  (** the result of lowering has no ASCII capital *)
  lower_no_capital : forall s c, In c (lower s) -> ~ (65 <= c <= 90)%N;
  (** an ASCII small letter in the result of lowering comes from a letter *)
  lower_letter_alnum : forall s,
    (exists c, In c (lower s) /\ (97 <= c <= 122)%N) ->
    exists c, In c s /\ isalnum c = true;
  (** digits are alphanumeric *)
  isdigit_isalnum : forall c, isdigit c = true -> isalnum c = true
}.

(** [s.isdigit()] of a string: non-empty and all digits. *)
Definition str_isdigit `{Unicode} (s : str) : bool :=
  Py.truthy s && forallb isdigit s.

(** The tables restricted to ASCII: every other character is taken as
    uncased, not a digit and not alphanumeric.  On ASCII input this is what
    CPython computes; it is the instance the concrete runs below use. *)
Module AsciiTables.

Definition lower (s : str) : str := map ascii_lower s.

Definition isdigit (c : char) : bool := ((48 <=? c) && (c <=? 57))%N.

Definition isalpha (c : char) : bool :=
  ((65 <=? c) && (c <=? 90) || (97 <=? c) && (c <=? 122))%N.

Definition isalnum (c : char) : bool := isalpha c || isdigit c.

End AsciiTables.

(** ** src/claude_generator.py *)

Module ClaudeGenerator.

(** The literal markers of the two response formats. *)
Definition FILE_MARKER : str := Eval cbv in lit "### File:".
Definition FENCE : str := Eval cbv in lit "```".
Definition HASH : str := Eval cbv in lit "#".
Definition NEWLINE : str := [10%N].

(** One entry of [result['files']]: the keys 'path', 'content', 'language'. *)
Record file_artifact := mk_file { path : str; content : str; language : str }.

(** [extension_map] of [_detect_language_from_path], in the order of the
    source. *)
Definition extension_map : list (str * str) := Eval cbv in
  [ (lit ".py", lit "python"); (lit ".js", lit "javascript");
    (lit ".ts", lit "typescript"); (lit ".java", lit "java");
    (lit ".cpp", lit "cpp"); (lit ".c", lit "c"); (lit ".cs", lit "csharp");
    (lit ".php", lit "php"); (lit ".rb", lit "ruby"); (lit ".go", lit "go");
    (lit ".rs", lit "rust"); (lit ".swift", lit "swift");
    (lit ".kt", lit "kotlin"); (lit ".scala", lit "scala");
    (lit ".R", lit "r"); (lit ".sh", lit "bash"); (lit ".sql", lit "sql");
    (lit ".html", lit "html"); (lit ".css", lit "css");
    (lit ".scss", lit "scss"); (lit ".yaml", lit "yaml");
    (lit ".yml", lit "yaml"); (lit ".json", lit "json");
    (lit ".xml", lit "xml"); (lit ".md", lit "markdown") ].

Definition TEXT : str := Eval cbv in lit "text".

Definition _detect_language_from_path `{Unicode} (file_path : str) : str :=
  let ext := snd (Py.splitext file_path) in
  Py.dict_get extension_map (lower ext) TEXT.

(** [if current_file:] on a variable that is [None] or a string. *)
Definition is_set (current_file : option str) : bool :=
  match current_file with
  | Some p => Py.truthy p
  | None => false
  end.

(** The dict appended to the file list for the file in progress. *)
Definition artifact `{Unicode} (current_file : str) (current_content : list str)
  : file_artifact :=
  {| path := current_file;
     content := Py.join_lines current_content;
     language := _detect_language_from_path current_file |}.

(** *** [_parse_code_response] *)

Module ParseCode.

Definition H_ANALYSIS : str := Eval cbv in lit "## Analysis".
Definition H_FILES : str := Eval cbv in lit "## Files to Create/Modify".
Definition H_NOTES : str := Eval cbv in lit "## Implementation Notes".
Definition H_DEPENDENCIES : str := Eval cbv in lit "## Dependencies".

(** The values [current_section] takes besides [None]. *)
Inductive section := s_analysis | s_files | s_notes | s_dependencies.

Definition section_eqb (a b : section) : bool :=
  match a, b with
  | s_analysis, s_analysis | s_files, s_files
  | s_notes, s_notes | s_dependencies, s_dependencies => true
  | _, _ => false
  end.

Definition in_section (cur : option section) (s : section) : bool :=
  match cur with Some c => section_eqb c s | None => false end.

(** The returned dict. *)
Record result := mk_result {
  task_key : str;
  files : list file_artifact;
  analysis : str;
  notes : str;
  dependencies : list str
}.

(** The locals of the loop, with the result under construction. *)
Record state := mk_state {
  res : result;
  current_section : option section;
  current_file : option str;
  current_content : list str
}.

Definition set_section (st : state) (s : section) : state :=
  mk_state (res st) (Some s) (current_file st) (current_content st).

Definition add_file (r : result) (f : file_artifact) : result :=
  mk_result (task_key r) (files r ++ [f]) (analysis r) (notes r) (dependencies r).

Definition add_analysis (r : result) (text : str) : result :=
  mk_result (task_key r) (files r) (analysis r ++ text) (notes r) (dependencies r).

Definition add_notes (r : result) (text : str) : result :=
  mk_result (task_key r) (files r) (analysis r) (notes r ++ text) (dependencies r).

Definition add_dependency (r : result) (d : str) : result :=
  mk_result (task_key r) (files r) (analysis r) (notes r) (dependencies r ++ [d]).

Section Loop.
Context {U : Unicode}.

(** "Save previous file if exists": the test is [if current_file:] alone. *)
Definition save_previous (st : state) : result :=
  match current_file st with
  | Some p =>
      if Py.truthy p then add_file (res st) (artifact p (current_content st))
      else res st
  | None => res st
  end.

(** One iteration of [for line in lines]. *)
Definition step (st : state) (line : str) : state :=
  let line_stripped := Py.strip line in
  if Py.startswith line_stripped H_ANALYSIS then set_section st s_analysis
  else if Py.startswith line_stripped H_FILES then set_section st s_files
  else if Py.startswith line_stripped H_NOTES then set_section st s_notes
  else if Py.startswith line_stripped H_DEPENDENCIES then
    set_section st s_dependencies
  else if in_section (current_section st) s_files
          && Py.startswith line_stripped FILE_MARKER then
    mk_state (save_previous st) (current_section st)
             (Some (Py.strip (Py.remove line_stripped FILE_MARKER))) []
  else if in_section (current_section st) s_files && is_set (current_file st) then
    if Py.startswith line_stripped FENCE
       && (length (current_content st) =? 0) then st
    else if Py.startswith line_stripped FENCE
            && (0 <? length (current_content st)) then st
    else mk_state (res st) (current_section st) (current_file st)
                  (current_content st ++ [line])
  else
    match current_section st with
    | Some s_analysis =>
        mk_state (add_analysis (res st) (line ++ NEWLINE)) (current_section st)
                 (current_file st) (current_content st)
    | Some s_notes =>
        mk_state (add_notes (res st) (line ++ NEWLINE)) (current_section st)
                 (current_file st) (current_content st)
    | Some s_dependencies =>
        if Py.truthy line_stripped && negb (Py.startswith line_stripped HASH)
        then mk_state (add_dependency (res st) line_stripped)
                      (current_section st) (current_file st) (current_content st)
        else st
    | _ => st
    end.

(** "Don't forget the last file": [if current_file and current_content:]. *)
Definition finish (st : state) : result :=
  match current_file st with
  | Some p =>
      if Py.truthy p && Py.truthy (current_content st)
      then add_file (res st) (artifact p (current_content st))
      else res st
  | None => res st
  end.

Definition UNKNOWN : str := Eval cbv in lit "unknown".
Definition KEY : str := Eval cbv in lit "key".

Definition init (task_data : list (str * str)) : state :=
  mk_state (mk_result (Py.dict_get task_data KEY UNKNOWN) [] [] [] [])
           None None [].

Definition run (lines : list str) (st : state) : state :=
  fold_left step lines st.

Definition _parse_code_response (response_content : str)
  (task_data : list (str * str)) : result :=
  finish (run (Py.split_lines response_content) (init task_data)).

End Loop.
End ParseCode.

(** *** [_parse_test_response] *)

Module ParseTest.

Definition H_STRATEGY : str := Eval cbv in lit "## Test Strategy".
Definition H_FILES : str := Eval cbv in lit "## Test Files".
Definition H_DEPENDENCIES : str := Eval cbv in lit "## Test Dependencies".
Definition H_RUNNING : str := Eval cbv in lit "## Running the Tests".

Inductive section := s_strategy | s_files | s_dependencies | s_instructions.

Definition section_eqb (a b : section) : bool :=
  match a, b with
  | s_strategy, s_strategy | s_files, s_files
  | s_dependencies, s_dependencies | s_instructions, s_instructions => true
  | _, _ => false
  end.

Definition in_section (cur : option section) (s : section) : bool :=
  match cur with Some c => section_eqb c s | None => false end.

Record result := mk_result {
  test_files : list file_artifact;
  strategy : str;
  dependencies : list str;
  run_instructions : str
}.

Record state := mk_state {
  res : result;
  current_section : option section;
  current_file : option str;
  current_content : list str
}.

Definition set_section (st : state) (s : section) : state :=
  mk_state (res st) (Some s) (current_file st) (current_content st).

Definition add_file (r : result) (f : file_artifact) : result :=
  mk_result (test_files r ++ [f]) (strategy r) (dependencies r) (run_instructions r).

Definition add_strategy (r : result) (text : str) : result :=
  mk_result (test_files r) (strategy r ++ text) (dependencies r) (run_instructions r).

Definition add_dependency (r : result) (d : str) : result :=
  mk_result (test_files r) (strategy r) (dependencies r ++ [d]) (run_instructions r).

Definition add_instructions (r : result) (text : str) : result :=
  mk_result (test_files r) (strategy r) (dependencies r) (run_instructions r ++ text).

Section Loop.
Context {U : Unicode}.

Definition save_previous (st : state) : result :=
  match current_file st with
  | Some p =>
      if Py.truthy p then add_file (res st) (artifact p (current_content st))
      else res st
  | None => res st
  end.

Definition step (st : state) (line : str) : state :=
  let line_stripped := Py.strip line in
  if Py.startswith line_stripped H_STRATEGY then set_section st s_strategy
  else if Py.startswith line_stripped H_FILES then set_section st s_files
  else if Py.startswith line_stripped H_DEPENDENCIES then
    set_section st s_dependencies
  else if Py.startswith line_stripped H_RUNNING then
    set_section st s_instructions
  else if in_section (current_section st) s_files
          && Py.startswith line_stripped FILE_MARKER then
    mk_state (save_previous st) (current_section st)
             (Some (Py.strip (Py.remove line_stripped FILE_MARKER))) []
  else if in_section (current_section st) s_files && is_set (current_file st) then
    if Py.startswith line_stripped FENCE
       && (length (current_content st) =? 0) then st
    else if Py.startswith line_stripped FENCE
            && (0 <? length (current_content st)) then st
    else mk_state (res st) (current_section st) (current_file st)
                  (current_content st ++ [line])
  else
    match current_section st with
    | Some s_strategy =>
        mk_state (add_strategy (res st) (line ++ NEWLINE)) (current_section st)
                 (current_file st) (current_content st)
    | Some s_dependencies =>
        if Py.truthy line_stripped && negb (Py.startswith line_stripped HASH)
        then mk_state (add_dependency (res st) line_stripped)
                      (current_section st) (current_file st) (current_content st)
        else st
    | Some s_instructions =>
        mk_state (add_instructions (res st) (line ++ NEWLINE))
                 (current_section st) (current_file st) (current_content st)
    | _ => st
    end.

Definition finish (st : state) : result :=
  match current_file st with
  | Some p =>
      if Py.truthy p && Py.truthy (current_content st)
      then add_file (res st) (artifact p (current_content st))
      else res st
  | None => res st
  end.

Definition init : state := mk_state (mk_result [] [] [] []) None None [].

Definition run (lines : list str) (st : state) : state :=
  fold_left step lines st.

Definition _parse_test_response (response_content : str) : result :=
  finish (run (Py.split_lines response_content) init).

End Loop.
End ParseTest.

End ClaudeGenerator.

(** ** The list-item harvesters *)

(** The one-character strings ['-'], ['*'], ['•'] (U+2022) and ['.']. *)
Definition DASH : str := [45%N].
Definition STAR : str := [42%N].
Definition BULLET : str := [8226%N].
Definition DOT : str := [46%N].

(** The argument of [lstrip]: ['- *•0123456789. ']. *)
Definition STRIP_CHARS : str :=
  [45; 32; 42; 8226; 48; 49; 50; 51; 52; 53; 54; 55; 56; 57; 46; 32]%N.

(** [line.startswith(('-', '*', '•')) or line[0:2].replace('.', '').isdigit()],
    the test both harvesters apply to a stripped line. *)
Definition looks_like_item `{Unicode} (line : str) : bool :=
  (Py.startswith line DASH || Py.startswith line STAR || Py.startswith line BULLET)
  || str_isdigit (Py.remove (Py.slice line 0 2) DOT).

(** ** src/confluence_client.py *)

Module ConfluenceClient.

Definition ACCEPTANCE_CRITERIA : str := Eval cbv in lit "acceptance criteria".
Definition HASH : str := Eval cbv in lit "#".
Definition BOLD : str := Eval cbv in lit "**".

Section Loop.
Context {U : Unicode}.

(** The loop of [_extract_acceptance_criteria] from a given point on:
    [lines] are the lines still to read, [in_acceptance_section] and
    [criteria] the locals.  [break] returns the list as it stands. *)
Fixpoint scan (lines : list str) (in_acceptance_section : bool)
  (criteria : list str) : list str :=
  match lines with
  | [] => criteria
  | raw :: rest =>
      let line := Py.strip raw in
      if Py.contains (lower line) ACCEPTANCE_CRITERIA then scan rest true criteria
      else if in_acceptance_section then
        if Py.startswith line HASH || Py.startswith line BOLD then criteria
        else if (Py.startswith line DASH || Py.startswith line STAR
                 || Py.startswith line BULLET)
                || str_isdigit (Py.remove (Py.slice line 0 2) DOT)
        then scan rest true (criteria ++ [Py.lstrip_chars line STRIP_CHARS])
        else scan rest true criteria
      else scan rest false criteria
  end.

Definition _extract_acceptance_criteria (description : str) : list str :=
  scan (Py.split_lines description) false [].

End Loop.
End ConfluenceClient.

(** ** src/pipeline.py *)

Module Pipeline.

(** ['requirements', 'acceptance criteria', 'should', 'must'] *)
Definition KEYWORDS : list str := Eval cbv in
  [lit "requirements"; lit "acceptance criteria"; lit "should"; lit "must"].

Section Loop.
Context {U : Unicode}.

(** [any(keyword in line.lower() for keyword in [...])] *)
Definition has_keyword (line : str) : bool :=
  existsb (fun keyword => Py.contains (lower line) keyword) KEYWORDS.

(** The loop of [_extract_requirements_from_content] from a given point on. *)
Fixpoint scan (lines : list str) (in_requirements : bool)
  (requirements : list str) : list str :=
  match lines with
  | [] => requirements
  | raw :: rest =>
      let line := Py.strip raw in
      if has_keyword line then scan rest true requirements
      else if in_requirements then
        if (Py.startswith line DASH || Py.startswith line STAR
            || Py.startswith line BULLET)
           || str_isdigit (Py.remove (Py.slice line 0 2) DOT)
        then scan rest true (requirements ++ [Py.lstrip_chars line STRIP_CHARS])
        else if Py.truthy line && negb (existsb isalnum line) then requirements
        else scan rest true requirements
      else scan rest false requirements
  end.

Definition _extract_requirements_from_content (content : str) : list str :=
  scan (Py.split_lines content) false [].

End Loop.
End Pipeline.

(** ** Concrete inputs *)

Module Inputs.

(** Lines joined by newlines, as a response text is. *)
Definition text (lines : list string) : str := Py.join_lines (map lit lines).

(** The scenario of section 8 of the specification. *)
Definition scenario : str := Eval cbv in text
  [ "## Files to Create/Modify"; "";
    "### File: src/a.py"; "```python"; "x = 1"; "```"; "";
    "### File: src/b.py"; "```python"; "y = 2"; "```"; "";
    "## Dependencies"; "- requests>=2.0.0"; "- pyyaml" ]%string.

(** The same without the blank line after the section header. *)
Definition scenario_compact : str := Eval cbv in text
  [ "## Files to Create/Modify";
    "### File: src/a.py"; "```python"; "x = 1"; "```"; "";
    "### File: src/b.py"; "```python"; "y = 2"; "```"; "";
    "## Dependencies"; "- requests>=2.0.0"; "- pyyaml" ]%string.

(** Two file headers with nothing between them. *)
Definition adjacent_headers : str := Eval cbv in text
  [ "## Files to Create/Modify"; "### File: a.py"; "### File: b.py"; "x = 1" ]%string.

Definition adjacent_test_headers : str := Eval cbv in text
  [ "## Test Files"; "### File: test_a.py"; "### File: test_b.py"; "x = 1" ]%string.

End Inputs.

(** ** Vocabulary of the statements

    What a raw line is to the parsers, read off the tests of their loops. *)

(** The trimmed line starts with the file marker, resp. the fence token. *)
Definition is_file_header (line : str) : bool :=
  Py.startswith (Py.strip line) ClaudeGenerator.FILE_MARKER.

Definition is_fence (line : str) : bool :=
  Py.startswith (Py.strip line) ClaudeGenerator.FENCE.

(** The path a file header line names: what the loop stores in
    [current_file]. *)
Definition header_path (line : str) : str :=
  Py.strip (Py.remove (Py.strip line) ClaudeGenerator.FILE_MARKER).

(** The lines of a file body that are kept: all but the fence lines. *)
Definition kept (body : list str) : list str :=
  filter (fun l => negb (is_fence l)) body.

(** How many lines are file headers. *)
Definition count_file_headers (lines : list str) : nat :=
  length (filter is_file_header lines).

Module CodeLines.
Import ClaudeGenerator ClaudeGenerator.ParseCode.

(** The trimmed line starts with one of the four section headers. *)
Definition is_section_header (line : str) : bool :=
  let s := Py.strip line in
  Py.startswith s H_ANALYSIS || Py.startswith s H_FILES
  || Py.startswith s H_NOTES || Py.startswith s H_DEPENDENCIES.

(** A line of a file body: neither a section header nor a file header. *)
Definition plain (line : str) : Prop :=
  is_section_header line = false /\ is_file_header line = false.

(** One when a file is in progress, zero otherwise. *)
Definition pending (st : state) : nat :=
  if is_set (current_file st) then 1 else 0.

End CodeLines.

Module TestLines.
Import ClaudeGenerator ClaudeGenerator.ParseTest.

Definition is_section_header (line : str) : bool :=
  let s := Py.strip line in
  Py.startswith s H_STRATEGY || Py.startswith s H_FILES
  || Py.startswith s H_DEPENDENCIES || Py.startswith s H_RUNNING.

Definition plain (line : str) : Prop :=
  is_section_header line = false /\ is_file_header line = false.

Definition pending (st : state) : nat :=
  if is_set (current_file st) then 1 else 0.

End TestLines.

(** A raw line whose trimmed form passes the item test of the harvesters. *)
Definition item_line `{Unicode} (raw : str) : bool :=
  looks_like_item (Py.strip raw).

(** The item forms in the words of the specification: the trimmed line
    starts with '-', '*' or the bullet glyph, or its first two characters
    without the dots are digits, at least one. *)
Definition starts_with_char (c : char) (line : str) : Prop :=
  exists rest, line = c :: rest.

Definition item_form `{Unicode} (line : str) : Prop :=
  starts_with_char 45%N line \/ starts_with_char 42%N line
  \/ starts_with_char 8226%N line
  \/ (let digits := filter (fun c => negb (c =? 46)%N) (firstn 2 line) in
      digits <> [] /\ Forall (fun c => isdigit c = true) digits).

(** ** The specification's reading of a file block

    Two definitions that follow the words of the specification, not the
    source: the body of a file as "the lines strictly between its first fence
    line and its next fence line, or all its lines when it has no fence"
    (section 4.3), and a content string "rendered as a single file block"
    (section 8): the Files section header, a file header line, an opening
    fence, the content, a closing fence. *)

Module Spec.

Fixpoint until_fence (body : list str) : list str :=
  match body with
  | [] => []
  | l :: rest => if is_fence l then [] else l :: until_fence rest
  end.

Fixpoint after_first_fence (body : list str) : option (list str) :=
  match body with
  | [] => None
  | l :: rest => if is_fence l then Some rest else after_first_fence rest
  end.

Definition between_fences (body : list str) : list str :=
  match after_first_fence body with
  | Some rest => until_fence rest
  | None => body
  end.

Definition render_block (file_header content : str) : str :=
  ClaudeGenerator.ParseCode.H_FILES ++ 10%N ::
  file_header ++ 10%N ::
  ClaudeGenerator.FENCE ++ 10%N ::
  content ++ 10%N ::
  ClaudeGenerator.FENCE.

End Spec.

(** ** What the parsers promise about their results *)

(** A file of a result: its path is not empty, has no blank at either end
    and no newline, its language is the lookup of its path, and its content is
    the newline-join of lines none of which is a fence line. *)
Definition well_formed_file `{Unicode} (f : ClaudeGenerator.file_artifact) : Prop :=
  ClaudeGenerator.path f <> []
  /\ Py.strip (ClaudeGenerator.path f) = ClaudeGenerator.path f
  /\ ~ In 10%N (ClaudeGenerator.path f)
  /\ ClaudeGenerator.language f =
     ClaudeGenerator._detect_language_from_path (ClaudeGenerator.path f)
  /\ exists lines,
       ClaudeGenerator.content f = Py.join_lines lines
       /\ Forall (fun l => is_fence l = false /\ ~ In 10%N l) lines.

(** A dependency of a result: a trimmed input line that is not empty and
    does not start with '#'. *)
Definition well_formed_dependency (lines : list str) (d : str) : Prop :=
  d <> [] /\ Py.strip d = d
  /\ Py.startswith d ClaudeGenerator.HASH = false
  /\ In d (map Py.strip lines).

(** The prose of a section: each of its lines followed by a newline. *)
Definition prose (body : list str) : str :=
  concat (map (fun l => l ++ ClaudeGenerator.NEWLINE) body).

(** What each step of a parser keeps true of its state, [lines] being the
    lines of the input. *)
Module CodeState.
Import ClaudeGenerator ClaudeGenerator.ParseCode.

Definition good_state `{Unicode} (lines : list str) (st : state) : Prop :=
  Forall well_formed_file (files (res st))
  /\ Forall (well_formed_dependency lines) (dependencies (res st))
  /\ (forall p, current_file st = Some p -> Py.strip p = p /\ ~ In 10%N p)
  /\ Forall (fun l => is_fence l = false /\ ~ In 10%N l) (current_content st).

End CodeState.

Module TestState.
Import ClaudeGenerator ClaudeGenerator.ParseTest.

Definition good_state `{Unicode} (lines : list str) (st : state) : Prop :=
  Forall well_formed_file (test_files (res st))
  /\ Forall (well_formed_dependency lines) (dependencies (res st))
  /\ (forall p, current_file st = Some p -> Py.strip p = p /\ ~ In 10%N p)
  /\ Forall (fun l => is_fence l = false /\ ~ In 10%N l) (current_content st).

End TestState.

(** A content string rendered as a single file block of a test response:
    the Test Files header, a file header line, an opening fence, the content,
    a closing fence. *)
Definition render_test_block (file_header content : str) : str :=
  ClaudeGenerator.ParseTest.H_FILES ++ 10%N ::
  file_header ++ 10%N ::
  ClaudeGenerator.FENCE ++ 10%N ::
  content ++ 10%N ::
  ClaudeGenerator.FENCE.

(** A directory prefix: empty, or ending in a slash. *)
Definition is_dir_prefix (dir : str) : Prop :=
  dir = [] \/ exists d, dir = d ++ [47%N].

(** What the harvesters promise about an item of their result: it is what
    is left of an item line of the input once trimmed and stripped of its
    markers, so it starts with none of the stripped characters and ends with
    no blank. *)
Definition harvested `{Unicode} (lines : list str) (item : str) : Prop :=
  (exists raw, In raw lines /\ item_line raw = true
               /\ item = Py.lstrip_chars (Py.strip raw) STRIP_CHARS)
  /\ (forall c t, item = c :: t -> ~ In c STRIP_CHARS)
  /\ Py.rstrip item = item.

(** An item written as a list line, as the prompt and the report write the
    acceptance criteria: ["- " + item]. *)
Definition bullet (item : str) : str := 45%N :: 32%N :: item.

(** An item that can be written as a list line and read back: it holds no
    newline, ends with no blank and starts with none of the stripped
    characters. *)
Definition plain_item (item : str) : Prop :=
  ~ In 10%N item /\ Py.rstrip item = item
  /\ (forall c t, item = c :: t -> ~ In c STRIP_CHARS).

(** The lines that count for the harvesters: each line trimmed, the empty
    ones left out. *)
Definition essential (lines : list str) : list str :=
  filter Py.truthy (map Py.strip lines).

(** A text of white space only. *)
Definition blank (w : str) : Prop := Forall (fun c => Py.isspace c = true) w.

(** ** Exceptions

    What a call does: it returns a value, or it raises an exception.  The
    exceptions are the classes that the modelled code can meet. *)

Module Exc.

Inductive exn :=
| AttributeError
| IndexError
| JSONDecodeError
| KeyError
| RecursionError
| TypeError
| ValueError (message : str).

Inductive outcome (A : Type) :=
| Ok (a : A)
| Raise (e : exn).

Arguments Ok {A} a.
Arguments Raise {A} e.

Definition bind {A B} (m : outcome A) (f : A -> outcome B) : outcome B :=
  match m with
  | Ok a => f a
  | Raise e => Raise e
  end.

End Exc.

Notation "x <- m ;; f" := (Exc.bind m (fun x => f))
  (at level 61, m at next level, right associativity).

(** ** src/confluence_client.py: [_extract_text_from_atlas_doc] *)

Module AtlasDoc.
Import Exc.

Set Warnings "-register-all".

(** A value built by [json.loads].  A dict lists its members in order, with
    distinct keys; of a number only the text is kept, the code never reads
    it. *)
Inductive json :=
| JNull
| JBool (b : bool)
| JNumber (text : str)
| JString (s : str)
| JArray (items : list json)
| JObject (members : list (str * json)).

(** [node.get(key)]: [None] when the key is absent. *)
Fixpoint get (members : list (str * json)) (key : str) : option json :=
  match members with
  | [] => None
  | (k, v) :: rest => if Py.str_eqb k key then Some v else get rest key
  end.

Definition K_TYPE : str := Eval cbv in lit "type".
Definition K_TEXT : str := Eval cbv in lit "text".
Definition K_CONTENT : str := Eval cbv in lit "content".

(** ['paragraph', 'heading', 'listItem'] *)
Definition BLOCKS : list str := Eval cbv in
  [lit "paragraph"; lit "heading"; lit "listItem"].

(** [node.get('type') == name] *)
Definition type_is (members : list (str * json)) (name : str) : bool :=
  match get members K_TYPE with
  | Some (JString s) => Py.str_eqb s name
  | _ => false
  end.

(** [node.get('type') in ['paragraph', 'heading', 'listItem']] *)
Definition is_block (members : list (str * json)) : bool :=
  existsb (type_is members) BLOCKS.

(** [text += node.get('text', '')]: adding anything but a string to a
    string raises TypeError, here [None]. *)
Definition text_member (members : list (str * json)) : option str :=
  match get members K_TEXT with
  | None => Some []
  | Some (JString s) => Some s
  | Some _ => None
  end.

(** The nested function [extract_text_recursive], without the recursion
    limit of the interpreter ([extract_text_within] below has it).  [None] is
    the TypeError that the function raises, the only exception it can raise
    then: from a 'text'
    that is no string, or from a 'content' that cannot be iterated (a number,
    a boolean, null).  A 'content' that is a dict or a string is iterated by
    keys or by characters, all strings, which give no text.
    [texts] is the loop [for child in ...: text += extract_text_recursive(child)],
    [content_text] the test ['content' in node] with the loop over
    [node['content']]. *)
Fixpoint extract_text_recursive (node : json) : option str :=
  let fix texts (l : list json) : option str :=
    match l with
    | [] => Some []
    | child :: rest =>
        match extract_text_recursive child with
        | None => None
        | Some t =>
            match texts rest with
            | None => None
            | Some u => Some (t ++ u)
            end
        end
    end in
  let fix content_text (members : list (str * json)) : option str :=
    match members with
    | [] => Some []
    | (k, v) :: rest =>
        if Py.str_eqb k K_CONTENT then
          match v with
          | JArray children => texts children
          | JObject _ | JString _ => Some []
          | JNull | JBool _ | JNumber _ => None
          end
        else content_text rest
    end in
  match node with
  | JObject members =>
      match (if type_is members K_TEXT then text_member members else Some []) with
      | None => None
      | Some t =>
          match content_text members with
          | None => None
          | Some u =>
              Some (t ++ u ++ (if is_block members
                               then ClaudeGenerator.NEWLINE else []))
          end
      end
  | JArray items => texts items
  | JNull | JBool _ | JNumber _ | JString _ => Some []
  end.

(** The loop over a list of nodes, on its own. *)
Fixpoint texts (l : list json) : option str :=
  match l with
  | [] => Some []
  | child :: rest =>
      match extract_text_recursive child with
      | None => None
      | Some t =>
          match texts rest with
          | None => None
          | Some u => Some (t ++ u)
          end
      end
  end.

(** The test ['content' in node] with the loop over [node['content']], on
    its own. *)
Definition content_text (members : list (str * json)) : option str :=
  match get members K_CONTENT with
  | None => Some []
  | Some (JArray children) => texts children
  | Some (JObject _) | Some (JString _) => Some []
  | Some JNull | Some (JBool _) | Some (JNumber _) => None
  end.


(** [text += node.get('text', '')] *)
Definition add_text (members : list (str * json)) : outcome str :=
  match text_member members with
  | Some s => Ok s
  | None => Raise TypeError
  end.

(** What [for child in node['content']] iterates over: the items of a
    list, the keys of a dict, the characters of a string; anything else is
    not iterable. *)
Definition children_of (content : json) : outcome (list json) :=
  match content with
  | JArray children => Ok children
  | JObject members => Ok (map (fun kv => JString (fst kv)) members)
  | JString s => Ok (map (fun c => JString [c]) s)
  | JNull | JBool _ | JNumber _ => Raise TypeError
  end.

(** The nested function [extract_text_recursive] as the interpreter runs
    it: [frames] is the number of nested calls that the recursion limit still
    allows when the function is called, and a call beyond it raises
    RecursionError.  The exception raised is the first one met. *)
Fixpoint extract_text_within (frames : nat) (node : json) : outcome str :=
  match frames with
  | O => Raise RecursionError
  | S frames' =>
      let fix texts_within (l : list json) : outcome str :=
        match l with
        | [] => Ok []
        | child :: rest =>
            t <- extract_text_within frames' child ;;
            u <- texts_within rest ;;
            Ok (t ++ u)
        end in
      match node with
      | JObject members =>
          t <- (if type_is members K_TEXT then add_text members else Ok []) ;;
          u <- match get members K_CONTENT with
               | Some content =>
                   children <- children_of content ;; texts_within children
               | None => Ok []
               end ;;
          Ok (t ++ u ++ (if is_block members
                         then ClaudeGenerator.NEWLINE else []))
      | JArray items => texts_within items
      | JNull | JBool _ | JNumber _ | JString _ => Ok []
      end
  end.

(** The loop over a list of nodes, on its own. *)
Definition texts_within (frames : nat) : list json -> outcome str :=
  fix texts_within (l : list json) : outcome str :=
    match l with
    | [] => Ok []
    | child :: rest =>
        t <- extract_text_within frames child ;;
        u <- texts_within rest ;;
        Ok (t ++ u)
    end.

(** What the unlimited function gives, as an outcome. *)
Definition unlimited (node : json) : outcome str :=
  match extract_text_recursive node with
  | Some t => Ok t
  | None => Raise TypeError
  end.

Definition unlimited_texts (l : list json) : outcome str :=
  match texts l with
  | Some t => Ok t
  | None => Raise TypeError
  end.

(** How deep the calls of [extract_text_recursive] nest on a value. *)
Fixpoint call_depth (node : json) : nat :=
  let fix deepest (l : list json) : nat :=
    match l with
    | [] => 0
    | x :: rest => Nat.max (call_depth x) (deepest rest)
    end in
  let fix content_depth (members : list (str * json)) : nat :=
    match members with
    | [] => 0
    | (k, v) :: rest =>
        if Py.str_eqb k K_CONTENT then
          match v with
          | JArray children => deepest children
          | JObject (_ :: _) | JString (_ :: _) => 1
          | JObject [] | JString [] | JNull | JBool _ | JNumber _ => 0
          end
        else content_depth rest
    end in
  match node with
  | JObject members => S (content_depth members)
  | JArray items => S (deepest items)
  | JNull | JBool _ | JNumber _ | JString _ => 1
  end.

Fixpoint deepest (l : list json) : nat :=
  match l with
  | [] => 0
  | x :: rest => Nat.max (call_depth x) (deepest rest)
  end.

Definition content_depth (members : list (str * json)) : nat :=
  match get members K_CONTENT with
  | Some (JArray children) => deepest children
  | Some (JObject (_ :: _)) | Some (JString (_ :: _)) => 1
  | _ => 0
  end.

(** The exceptions of the clause
    [except (json.JSONDecodeError, TypeError, KeyError)]. *)
Definition caught (e : exn) : bool :=
  match e with
  | JSONDecodeError | TypeError | KeyError => true
  | AttributeError | IndexError | RecursionError | ValueError _ => false
  end.

Section Call.
(** [json.loads] on a string: the value it returns or the exception it
    raises (JSONDecodeError for a text that is no JSON; RecursionError or a
    plain ValueError for some others). *)
Variable loads : str -> outcome json.
(** The nested calls that the recursion limit allows to
    [extract_text_recursive]. *)
Variable frames : nat.

(** [_extract_text_from_atlas_doc] on a string.  The clause catches
    JSONDecodeError, TypeError and KeyError, and returns
    [str(atlas_content) if atlas_content else ""]; any other exception goes
    through. *)
Definition _extract_text_from_atlas_doc (atlas_content : str) : outcome str :=
  let attempt :=
    doc <- loads atlas_content ;;
    text <- extract_text_within frames doc ;;
    Ok (Py.strip text) in
  match attempt with
  | Ok text => Ok text
  | Raise e =>
      if caught e
      then Ok (if Py.truthy atlas_content then atlas_content else [])
      else Raise e
  end.

End Call.


(** Documents as the editor writes them: a text node, and a node of some
    type with children. *)
Definition text_node (t : str) : json :=
  JObject [ (K_TYPE, JString K_TEXT); (K_TEXT, JString t) ].

Definition node (type : str) (children : list json) : json :=
  JObject [ (K_TYPE, JString type); (K_CONTENT, JArray children) ].

Definition T_DOC : str := Eval cbv in lit "doc".
Definition T_PARAGRAPH : str := Eval cbv in lit "paragraph".
Definition T_HEADING : str := Eval cbv in lit "heading".
Definition T_LIST_ITEM : str := Eval cbv in lit "listItem".
Definition T_BULLET_LIST : str := Eval cbv in lit "bulletList".

(** A paragraph of plain text, a heading, and a bullet list of such
    paragraphs. *)
Definition paragraph (t : str) : json := node T_PARAGRAPH [text_node t].
Definition heading (t : str) : json := node T_HEADING [text_node t].
Definition bullet_list (items : list str) : json :=
  node T_BULLET_LIST (map (fun t => node T_LIST_ITEM [paragraph t]) items).

(** Each item of a bullet list: its text and two newlines, the one of the
    paragraph and the one of the list item. *)
Definition spaced (items : list str) : str :=
  concat (map (fun t => t ++ [10%N; 10%N]) items).

(** A document without type error: wherever a node of type 'text' has a
    'text', it is a string, and wherever a node has a 'content', it is a list,
    a dict or a string. *)
Inductive well_typed : json -> Prop :=
| wt_null : well_typed JNull
| wt_bool b : well_typed (JBool b)
| wt_number t : well_typed (JNumber t)
| wt_string s : well_typed (JString s)
| wt_array items : Forall well_typed items -> well_typed (JArray items)
| wt_object members :
    (type_is members K_TEXT = true ->
     forall v, get members K_TEXT = Some v -> exists s, v = JString s) ->
    (forall v, get members K_CONTENT = Some v ->
       (exists children, v = JArray children /\ Forall well_typed children)
       \/ (exists ms, v = JObject ms) \/ (exists s, v = JString s)) ->
    well_typed (JObject members).

End AtlasDoc.

(** ** src/config.py *)

Module Config.
Import Exc.

Set Warnings "-register-all".

(** A value built by [yaml.safe_load]: null, a boolean, an integer, a
    string, a sequence, or a mapping with string keys, listed in order with
    distinct keys.  (A float behaves here as an integer does.) *)
Inductive yaml :=
| YNull
| YBool (b : bool)
| YInt (n : Z)
| YStr (s : str)
| YList (items : list yaml)
| YDict (members : list (str * yaml)).

(** The member of a mapping under a key. *)
Fixpoint lookup (members : list (str * yaml)) (key : str) : option yaml :=
  match members with
  | [] => None
  | (k, v) :: rest => if Py.str_eqb k key then Some v else lookup rest key
  end.

(** [current[key]] for a string [key]: KeyError on a mapping without the
    key, TypeError on anything that is not a mapping (a string and a sequence
    take integer indices, the others take none). *)
Definition subscript (current : yaml) (key : str) : outcome yaml :=
  match current with
  | YDict members =>
      match lookup members key with
      | Some v => Ok v
      | None => Raise KeyError
      end
  | YNull | YBool _ | YInt _ | YStr _ | YList _ => Raise TypeError
  end.

(** [bool(current)] *)
Definition truthy (current : yaml) : bool :=
  match current with
  | YNull => false
  | YBool b => b
  | YInt n => negb (n =? 0)%Z
  | YStr s => Py.truthy s
  | YList items => Py.truthy items
  | YDict members => Py.truthy members
  end.

(** [s.split(sep)] for a one-character [sep]. *)
Fixpoint split (s : str) (sep : char) : list str :=
  match s with
  | [] => [[]]
  | c :: s' =>
      if (c =? sep)%N then [] :: split s' sep
      else match split s' sep with
           | l :: ls => (c :: l) :: ls
           | [] => [[c]]
           end
  end.

Definition DOT : char := 46%N.

(** [for key in keys: current = current[key]] *)
Fixpoint walk (current : yaml) (keys : list str) : outcome yaml :=
  match keys with
  | [] => Ok current
  | key :: rest => next <- subscript current key ;; walk next rest
  end.

Definition required_fields : list str := Eval cbv in
  [ lit "confluence.base_url";
    lit "confluence.username";
    lit "confluence.api_token";
    lit "project.repository_path";
    lit "anthropic.api_key" ].

Definition YOUR : str := Eval cbv in lit "your-".
Definition PLEASE_SET : str := Eval cbv in lit "Please set a valid value for ".
Definition MISSING : str := Eval cbv in
  lit "Missing required configuration field: ".

(** [current.startswith('your-')]: only a string has the method. *)
Definition startswith_your (current : yaml) : outcome bool :=
  match current with
  | YStr s => Ok (Py.startswith s YOUR)
  | YNull | YBool _ | YInt _ | YList _ | YDict _ => Raise AttributeError
  end.

(** The body of the loop of [_validate_config] for one field: the [try]
    block, and the handler that turns a KeyError into a ValueError. *)
Definition check_field (config : yaml) (field : str) : outcome unit :=
  let attempt :=
    current <- walk config (split field DOT) ;;
    if negb (truthy current) then Raise (ValueError (PLEASE_SET ++ field))
    else
      placeholder <- startswith_your current ;;
      if placeholder then Raise (ValueError (PLEASE_SET ++ field))
      else Ok tt in
  match attempt with
  | Raise KeyError => Raise (ValueError (MISSING ++ field))
  | other => other
  end.

Fixpoint check_fields (config : yaml) (fields : list str) : outcome unit :=
  match fields with
  | [] => Ok tt
  | field :: rest => _ <- check_field config field ;; check_fields config rest
  end.

Definition _validate_config (config : yaml) : outcome unit :=
  check_fields config required_fields.

(** [Config.get(key, default)] on the configuration [_config]. *)
Definition get (_config : yaml) (key : str) (default : yaml) : outcome yaml :=
  match walk _config (split key DOT) with
  | Raise KeyError => Ok default
  | other => other
  end.

(** The properties [confluence_config], [project_config] and
    [anthropic_config]: [self._config[name]]. *)
Definition CONFLUENCE : str := Eval cbv in lit "confluence".
Definition PROJECT : str := Eval cbv in lit "project".
Definition ANTHROPIC : str := Eval cbv in lit "anthropic".


(** A setting of a file: the string under [name] in the mapping under
    [section]. *)
Definition setting (config : yaml) (section name s : str) : Prop :=
  exists members sec,
    config = YDict members
    /\ lookup members section = Some (YDict sec)
    /\ lookup sec name = Some (YStr s).

(** A setting that has been filled in: not empty, and not the placeholder
    of the template. *)
Definition configured (config : yaml) (section name : str) : Prop :=
  exists s, setting config section name s
            /\ s <> [] /\ Py.startswith s YOUR = false.

Definition BASE_URL : str := Eval cbv in lit "base_url".
Definition USERNAME : str := Eval cbv in lit "username".
Definition API_TOKEN : str := Eval cbv in lit "api_token".
Definition REPOSITORY_PATH : str := Eval cbv in lit "repository_path".
Definition API_KEY : str := Eval cbv in lit "api_key".

End Config.

(** ** src/project_analyzer.py and src/claude_generator.py: the directory tree *)

Module ProjectTree.

Set Warnings "-register-all".

(** A value of the nested dict of a file tree: [None] for a file, a dict
    for a directory, listed in order with distinct keys; and a string, for
    the mark that [_get_simplified_tree] leaves where it cuts. *)
Inductive node :=
| NNone
| NStr (s : str)
| NDict (entries : list (str * node)).

Definition SLASH : str := [47%N].
Definition ELLIPSIS : str := Eval cbv in lit "...".
Definition TRUNCATED : str := Eval cbv in lit "truncated".

(** [d[key] = value]: a key that is there keeps its place and gets the
    value, a new key goes to the end. *)
Fixpoint dict_set (d : list (str * node)) (key : str) (value : node)
  : list (str * node) :=
  match d with
  | [] => [(key, value)]
  | (k, v) :: rest =>
      if Py.str_eqb k key then (k, value) :: rest
      else (k, v) :: dict_set rest key value
  end.

(** [_get_simplified_tree(tree, max_depth, current_depth)], [tree] being
    the entries of [value]; the inner function is the loop over
    [tree.items()], with the dict [simplified] built so far.  This is the
    dict that the call returns: the calls nest no deeper than the tree and
    than [max_depth - current_depth], and a call beyond the recursion limit
    of the interpreter, which raises RecursionError, is left out. *)
Fixpoint simplified_of (value : node) (max_depth current_depth : Z)
  {struct value} : list (str * node) :=
  match value with
  | NDict tree =>
      if (current_depth >=? max_depth)%Z then [(ELLIPSIS, NStr TRUNCATED)]
      else
        (fix loop (items simplified : list (str * node)) {struct items}
           : list (str * node) :=
           match items with
           | [] => simplified
           | (key, value) :: rest =>
               loop rest
                 match value with
                 | NDict [] => dict_set simplified (key ++ SLASH) (NDict [])
                 | NDict (_ :: _) =>
                     dict_set simplified (key ++ SLASH)
                       (NDict (simplified_of value max_depth
                                 (current_depth + 1)))
                 | NNone | NStr _ => dict_set simplified key NNone
                 end
           end) tree []
  | NNone | NStr _ => []
  end.

Definition _get_simplified_tree (tree : list (str * node))
  (max_depth current_depth : Z) : list (str * node) :=
  simplified_of (NDict tree) max_depth current_depth.

(** The loop of [_get_simplified_tree] on its own. *)
Fixpoint simplify_items (max_depth current_depth : Z)
  (items simplified : list (str * node)) : list (str * node) :=
  match items with
  | [] => simplified
  | (key, value) :: rest =>
      simplify_items max_depth current_depth rest
        match value with
        | NDict [] => dict_set simplified (key ++ SLASH) (NDict [])
        | NDict (e :: es) =>
            dict_set simplified (key ++ SLASH)
              (NDict (_get_simplified_tree (e :: es) max_depth
                        (current_depth + 1)))
        | NNone | NStr _ => dict_set simplified key NNone
        end
  end.

(** ["  " * indent + f"- {key}\n"] *)
Definition INDENT : str := Eval cbv in lit "  ".
Definition ITEM : str := Eval cbv in lit "- ".

Definition line (indent : Z) (key : str) : str :=
  concat (repeat INDENT (Z.to_nat indent)) ++ ITEM ++ key
  ++ ClaudeGenerator.NEWLINE.

(** [_format_directory_structure(structure, indent)], [structure] being
    the entries of [value]: the string that the call returns (the calls nest
    as deep as the dicts; beyond the recursion limit of the interpreter the
    call raises RecursionError, which is left out). *)
Fixpoint format_of (value : node) (indent : Z) {struct value} : str :=
  match value with
  | NDict structure =>
      (fix loop (items : list (str * node)) : str :=
         match items with
         | [] => []
         | (key, value) :: rest =>
             (line indent key
              ++ match value with
                 | NDict (_ :: _) => format_of value (indent + 1)
                 | NDict [] | NNone | NStr _ => []
                 end)
             ++ loop rest
         end) structure
  | NNone | NStr _ => []
  end.

Definition _format_directory_structure (structure : list (str * node))
  (indent : Z) : str :=
  format_of (NDict structure) indent.

(** How deep the dicts of a value are nested. *)
Fixpoint depth (value : node) : nat :=
  match value with
  | NDict entries =>
      S ((fix deepest (l : list (str * node)) : nat :=
            match l with
            | [] => 0
            | (_, v) :: rest => Nat.max (depth v) (deepest rest)
            end) entries)
  | NNone | NStr _ => 0
  end.

Fixpoint deepest (l : list (str * node)) : nat :=
  match l with
  | [] => 0
  | (_, v) :: rest => Nat.max (depth v) (deepest rest)
  end.

(** The entries that [_get_simplified_tree] writes: a directory under its
    name with a slash, a file under its name, and the mark of a cut. *)
Inductive simplified_entry : str * node -> Prop :=
| se_dir key entries :
    Forall simplified_entry entries ->
    simplified_entry (key ++ SLASH, NDict entries)
| se_file key : simplified_entry (key, NNone)
| se_cut : simplified_entry (ELLIPSIS, NStr TRUNCATED).

(** What [_get_simplified_tree] makes of one entry when no two names
    meet. *)
Definition simplify_entry (max_depth current_depth : Z) (kv : str * node)
  : str * node :=
  match snd kv with
  | NDict [] => (fst kv ++ SLASH, NDict [])
  | NDict (e :: es) =>
      (fst kv ++ SLASH,
       NDict (_get_simplified_tree (e :: es) max_depth (current_depth + 1)))
  | NNone | NStr _ => (fst kv, NNone)
  end.

(** The lines that [_format_directory_structure] writes for one entry of a
    tree that [_get_simplified_tree] has simplified. *)
Definition list_entry (max_depth current_depth indent : Z) (kv : str * node)
  : str :=
  match snd kv with
  | NDict [] => line indent (fst kv ++ SLASH)
  | NDict (e :: es) =>
      line indent (fst kv ++ SLASH)
      ++ _format_directory_structure
           (_get_simplified_tree (e :: es) max_depth (current_depth + 1))
           (indent + 1)
  | NNone | NStr _ => line indent (fst kv)
  end.

End ProjectTree.

(** ** The extractors on untyped values

    Python checks no type before it runs: a method that a value does not
    have, an operand of the wrong type, a key that a dict does not hold raise
    at the call.  Here the four extractors are written once more over
    untyped values, operation by operation in the order of the source, each
    operation raising what Python raises; that they raise nothing on a string
    is then a theorem. *)

Module PyObj.
Import Exc.

Set Warnings "-register-all".

(** The values that the extractors handle. *)
Inductive value :=
| VNone
| VBool (b : bool)
| VInt (n : Z)
| VStr (s : str)
| VList (items : list value)
| VDict (members : list (str * value)).

(** [bool(v)] *)
Definition truthy (v : value) : bool :=
  match v with
  | VNone => false
  | VBool b => b
  | VInt n => negb (n =? 0)%Z
  | VStr s => Py.truthy s
  | VList items => Py.truthy items
  | VDict members => Py.truthy members
  end.

(** [v == s] for a string [s] *)
Definition eq_str (v : value) (s : str) : bool :=
  match v with
  | VStr t => Py.str_eqb t s
  | VNone | VBool _ | VInt _ | VList _ | VDict _ => false
  end.

(** A method of [str] called on a value: only a string has it. *)
Definition str_method {A} (v : value) (f : str -> A) : outcome A :=
  match v with
  | VStr s => Ok (f s)
  | VNone | VBool _ | VInt _ | VList _ | VDict _ => Raise AttributeError
  end.

(** [v.split('\n')], [v.strip()], [v.startswith(prefix)],
    [v.startswith((p1, p2, ...))], [v.replace(old, '')], [v.lstrip(chars)] *)
Definition split (v : value) : outcome value :=
  str_method v (fun s => VList (map VStr (Py.split_lines s))).
Definition strip (v : value) : outcome value :=
  str_method v (fun s => VStr (Py.strip s)).
Definition startswith (v : value) (prefix : str) : outcome bool :=
  str_method v (fun s => Py.startswith s prefix).
Definition startswith_any (v : value) (prefixes : list str) : outcome bool :=
  str_method v (fun s => existsb (Py.startswith s) prefixes).
Definition replace (v : value) (old : str) : outcome value :=
  str_method v (fun s => VStr (Py.remove s old)).
Definition lstrip (v : value) (chars : str) : outcome value :=
  str_method v (fun s => VStr (Py.lstrip_chars s chars)).

Section Tables.
Context {U : Unicode}.

(** [v.lower()], [v.isdigit()], [v.isalnum()] *)
Definition lower_ (v : value) : outcome value :=
  str_method v (fun s => VStr (lower s)).
Definition isdigit_ (v : value) : outcome bool :=
  str_method v str_isdigit.
Definition isalnum_ (v : value) : outcome bool :=
  str_method v (fun s => Py.truthy s && forallb isalnum s).

End Tables.

(** What [for x in v] iterates over: the items of a list, the characters
    of a string, the keys of a dict; nothing else is iterable. *)
Definition iterate (v : value) : outcome (list value) :=
  match v with
  | VList items => Ok items
  | VStr s => Ok (map (fun c => VStr [c]) s)
  | VDict members => Ok (map (fun kv => VStr (fst kv)) members)
  | VNone | VBool _ | VInt _ => Raise TypeError
  end.

(** [any(f(x) for x in l)]: the first true stops the search. *)
Fixpoint any_ (f : value -> outcome bool) (l : list value) : outcome bool :=
  match l with
  | [] => Ok false
  | x :: rest => b <- f x ;; if b then Ok true else any_ f rest
  end.

(** [any(f(k) for k in [k1, k2, ...])] over string literals *)
Fixpoint any_of (f : str -> outcome bool) (l : list str) : outcome bool :=
  match l with
  | [] => Ok false
  | k :: rest => b <- f k ;; if b then Ok true else any_of f rest
  end.

(** [sub in v] for a string [sub] *)
Definition contains (v : value) (sub : str) : outcome bool :=
  match v with
  | VStr s => Ok (Py.contains s sub)
  | VList items => Ok (existsb (fun x => eq_str x sub) items)
  | VDict members => Ok (existsb (fun kv => Py.str_eqb (fst kv) sub) members)
  | VNone | VBool _ | VInt _ => Raise TypeError
  end.

(** [v[0:2]]: a string and a list can be sliced. *)
Definition slice (v : value) (i j : Z) : outcome value :=
  match v with
  | VStr s => Ok (VStr (Py.slice s i j))
  | VList items =>
      Ok (VList (firstn (Z.to_nat (j - i)) (skipn (Z.to_nat i) items)))
  | VNone | VBool _ | VInt _ | VDict _ => Raise TypeError
  end.

(** [len(v)] *)
Definition len (v : value) : outcome nat :=
  match v with
  | VStr s => Ok (length s)
  | VList items => Ok (length items)
  | VDict members => Ok (length members)
  | VNone | VBool _ | VInt _ => Raise TypeError
  end.

(** A boolean counts as the integer 0 or 1. *)
Definition as_int (v : value) : option Z :=
  match v with
  | VInt n => Some n
  | VBool b => Some (if b then 1 else 0)%Z
  | VNone | VStr _ | VList _ | VDict _ => None
  end.

(** [a + b] *)
Definition add (a b : value) : outcome value :=
  match a, b with
  | VStr s, VStr t => Ok (VStr (s ++ t))
  | VList l, VList m => Ok (VList (l ++ m))
  | _, _ =>
      match as_int a, as_int b with
      | Some n, Some m => Ok (VInt (n + m))
      | _, _ => Raise TypeError
      end
  end.

(** [a += b]: as [a + b], but a list takes anything iterable. *)
Definition iadd (a b : value) : outcome value :=
  match a with
  | VList l => m <- iterate b ;; Ok (VList (l ++ m))
  | _ => add a b
  end.

(** [v.append]: the bound method of a list. *)
Definition append (v : value) : outcome (value -> value) :=
  match v with
  | VList items => Ok (fun x => VList (items ++ [x]))
  | VNone | VBool _ | VInt _ | VStr _ | VDict _ => Raise AttributeError
  end.

(** [sep.join(v)]: every item has to be a string. *)
Fixpoint strings (l : list value) : outcome (list str) :=
  match l with
  | [] => Ok []
  | VStr s :: rest => ss <- strings rest ;; Ok (s :: ss)
  | _ :: _ => Raise TypeError
  end.

Fixpoint join_with (sep : str) (parts : list str) : str :=
  match parts with
  | [] => []
  | [p] => p
  | p :: rest => p ++ sep ++ join_with sep rest
  end.

Definition join (sep : str) (v : value) : outcome value :=
  items <- iterate v ;;
  parts <- strings items ;;
  Ok (VStr (join_with sep parts)).

(** The member of a dict under a key. *)
Fixpoint lookup (members : list (str * value)) (key : str) : option value :=
  match members with
  | [] => None
  | (k, v) :: rest => if Py.str_eqb k key then Some v else lookup rest key
  end.

(** [d[key]] for a string [key] *)
Definition subscript (d : value) (key : str) : outcome value :=
  match d with
  | VDict members =>
      match lookup members key with
      | Some v => Ok v
      | None => Raise KeyError
      end
  | VNone | VBool _ | VInt _ | VStr _ | VList _ => Raise TypeError
  end.

(** [d[key] = v] on a dict: a key that is there keeps its place. *)
Fixpoint set_member (members : list (str * value)) (key : str) (v : value)
  : list (str * value) :=
  match members with
  | [] => [(key, v)]
  | (k, w) :: rest =>
      if Py.str_eqb k key then (k, v) :: rest
      else (k, w) :: set_member rest key v
  end.

Definition store (d : value) (key : str) (v : value) : outcome value :=
  match d with
  | VDict members => Ok (VDict (set_member members key v))
  | VNone | VBool _ | VInt _ | VStr _ | VList _ => Raise TypeError
  end.

(** [d.get(key, default)]: only a dict has the method, and a list or a
    dict cannot be a key. *)
Definition get (d key default : value) : outcome value :=
  match d with
  | VDict members =>
      match key with
      | VStr k =>
          Ok (match lookup members k with Some v => v | None => default end)
      | VNone | VBool _ | VInt _ => Ok default
      | VList _ | VDict _ => Raise TypeError
      end
  | VNone | VBool _ | VInt _ | VStr _ | VList _ => Raise AttributeError
  end.

(** [_, ext = os.path.splitext(p)]: the path has to be a string. *)
Definition splitext_ext (p : value) : outcome value :=
  match p with
  | VStr s => Ok (VStr (snd (Py.splitext s)))
  | VNone | VBool _ | VInt _ | VList _ | VDict _ => Raise TypeError
  end.

(** [for x in items: st = body(st, x)] *)
Fixpoint for_each {S} (body : S -> value -> outcome S) (items : list value)
  (st : S) : outcome S :=
  match items with
  | [] => Ok st
  | x :: rest => st' <- body st x ;; for_each body rest st'
  end.

End PyObj.

Module Untyped.
Import Exc PyObj.

Definition K_PATH : str := Eval cbv in lit "path".
Definition K_CONTENT : str := Eval cbv in lit "content".
Definition K_LANGUAGE : str := Eval cbv in lit "language".
Definition K_TASK_KEY : str := Eval cbv in lit "task_key".
Definition K_FILES : str := Eval cbv in lit "files".
Definition K_ANALYSIS : str := Eval cbv in lit "analysis".
Definition K_NOTES : str := Eval cbv in lit "notes".
Definition K_DEPENDENCIES : str := Eval cbv in lit "dependencies".
Definition K_TEST_FILES : str := Eval cbv in lit "test_files".
Definition K_STRATEGY : str := Eval cbv in lit "strategy".
Definition K_RUN_INSTRUCTIONS : str := Eval cbv in lit "run_instructions".
Definition K_INSTRUCTIONS : str := Eval cbv in lit "instructions".

(** The dict [extension_map] as a value. *)
Definition extension_map : value :=
  VDict (map (fun kv => (fst kv, VStr (snd kv))) ClaudeGenerator.extension_map).

(** The locals of the two parsers. *)
Record locals := mk_locals {
  result : value;
  current_section : value;
  current_file : value;
  current_content : value
}.

Section Functions.
Context {U : Unicode}.

Definition _detect_language_from_path (file_path : value) : outcome value :=
  ext <- splitext_ext file_path ;;
  lowered <- lower_ ext ;;
  get extension_map lowered (VStr ClaudeGenerator.TEXT).

(** [result[key].append({'path': ..., 'content': ..., 'language': ...})] *)
Definition append_file (key : str) (st : locals) : outcome value :=
  files <- subscript (result st) key ;;
  append_to_files <- append files ;;
  content <- join ClaudeGenerator.NEWLINE (current_content st) ;;
  language <- _detect_language_from_path (current_file st) ;;
  store (result st) key
        (append_to_files (VDict [ (K_PATH, current_file st);
                                  (K_CONTENT, content);
                                  (K_LANGUAGE, language) ])).

(** [result[key] += line + '\n'] *)
Definition add_line (key : str) (st : locals) (line : value) : outcome value :=
  text <- subscript (result st) key ;;
  added <- add line (VStr ClaudeGenerator.NEWLINE) ;;
  text' <- iadd text added ;;
  store (result st) key text'.

(** [result[key].append(line_stripped)] *)
Definition append_item (key : str) (st : locals) (item : value)
  : outcome value :=
  items <- subscript (result st) key ;;
  append_to_items <- append items ;;
  store (result st) key (append_to_items item).

Definition with_section (st : locals) (name : str) : locals :=
  mk_locals (result st) (VStr name) (current_file st) (current_content st).

Definition with_result (st : locals) (r : value) : locals :=
  mk_locals r (current_section st) (current_file st) (current_content st).

(** The part of the loop body that the two parsers share: the file
    definitions and the code blocks.  [None] when the line belongs to
    neither, and the other sections are to be looked at. *)
Definition file_lines (files_key : str) (st : locals)
  (line line_stripped : value) : outcome (option locals) :=
  is_header <- (if eq_str (current_section st) K_FILES
                then startswith line_stripped ClaudeGenerator.FILE_MARKER
                else Ok false) ;;
  if is_header then
    result' <- (if truthy (current_file st) then append_file files_key st
                else Ok (result st)) ;;
    replaced <- replace line_stripped ClaudeGenerator.FILE_MARKER ;;
    path <- strip replaced ;;
    Ok (Some (mk_locals result' (current_section st) path (VList [])))
  else if eq_str (current_section st) K_FILES && truthy (current_file st) then
    opening <- (fence <- startswith line_stripped ClaudeGenerator.FENCE ;;
                if fence then n <- len (current_content st) ;; Ok (n =? 0)
                else Ok false) ;;
    if opening then Ok (Some st)
    else
      closing <- (fence <- startswith line_stripped ClaudeGenerator.FENCE ;;
                  if fence then n <- len (current_content st) ;; Ok (0 <? n)
                  else Ok false) ;;
      if closing then Ok (Some st)
      else
        append_to_content <- append (current_content st) ;;
        Ok (Some (mk_locals (result st) (current_section st) (current_file st)
                            (append_to_content line)))
  else Ok None.

(** [if line_stripped and not line_stripped.startswith('#')] *)
Definition is_dependency (line_stripped : value) : outcome bool :=
  if truthy line_stripped then
    comment <- startswith line_stripped ClaudeGenerator.HASH ;;
    Ok (negb comment)
  else Ok false.

(** "Don't forget the last file" *)
Definition last_file (files_key : str) (st : locals) : outcome value :=
  if truthy (current_file st) && truthy (current_content st)
  then append_file files_key st
  else Ok (result st).

(** One iteration of the loop of [_parse_code_response]. *)
Definition code_step (st : locals) (line : value) : outcome locals :=
  line_stripped <- strip line ;;
  h1 <- startswith line_stripped ClaudeGenerator.ParseCode.H_ANALYSIS ;;
  if h1 then Ok (with_section st K_ANALYSIS) else
  h2 <- startswith line_stripped ClaudeGenerator.ParseCode.H_FILES ;;
  if h2 then Ok (with_section st K_FILES) else
  h3 <- startswith line_stripped ClaudeGenerator.ParseCode.H_NOTES ;;
  if h3 then Ok (with_section st K_NOTES) else
  h4 <- startswith line_stripped ClaudeGenerator.ParseCode.H_DEPENDENCIES ;;
  if h4 then Ok (with_section st K_DEPENDENCIES) else
  handled <- file_lines K_FILES st line line_stripped ;;
  match handled with
  | Some st' => Ok st'
  | None =>
      if eq_str (current_section st) K_ANALYSIS then
        r <- add_line K_ANALYSIS st line ;; Ok (with_result st r)
      else if eq_str (current_section st) K_NOTES then
        r <- add_line K_NOTES st line ;; Ok (with_result st r)
      else if eq_str (current_section st) K_DEPENDENCIES then
        keep <- is_dependency line_stripped ;;
        if keep then
          r <- append_item K_DEPENDENCIES st line_stripped ;;
          Ok (with_result st r)
        else Ok st
      else Ok st
  end.

Definition _parse_code_response (response_content task_data : value)
  : outcome value :=
  task_key <- get task_data (VStr ClaudeGenerator.ParseCode.KEY)
                  (VStr ClaudeGenerator.ParseCode.UNKNOWN) ;;
  let result := VDict [ (K_TASK_KEY, task_key); (K_FILES, VList []);
                        (K_ANALYSIS, VStr []); (K_NOTES, VStr []);
                        (K_DEPENDENCIES, VList []) ] in
  lines <- split response_content ;;
  items <- iterate lines ;;
  st <- for_each code_step items (mk_locals result VNone VNone (VList [])) ;;
  last_file K_FILES st.

(** One iteration of the loop of [_parse_test_response]. *)
Definition test_step (st : locals) (line : value) : outcome locals :=
  line_stripped <- strip line ;;
  h1 <- startswith line_stripped ClaudeGenerator.ParseTest.H_STRATEGY ;;
  if h1 then Ok (with_section st K_STRATEGY) else
  h2 <- startswith line_stripped ClaudeGenerator.ParseTest.H_FILES ;;
  if h2 then Ok (with_section st K_FILES) else
  h3 <- startswith line_stripped ClaudeGenerator.ParseTest.H_DEPENDENCIES ;;
  if h3 then Ok (with_section st K_DEPENDENCIES) else
  h4 <- startswith line_stripped ClaudeGenerator.ParseTest.H_RUNNING ;;
  if h4 then Ok (with_section st K_INSTRUCTIONS) else
  handled <- file_lines K_TEST_FILES st line line_stripped ;;
  match handled with
  | Some st' => Ok st'
  | None =>
      if eq_str (current_section st) K_STRATEGY then
        r <- add_line K_STRATEGY st line ;; Ok (with_result st r)
      else if eq_str (current_section st) K_DEPENDENCIES then
        keep <- is_dependency line_stripped ;;
        if keep then
          r <- append_item K_DEPENDENCIES st line_stripped ;;
          Ok (with_result st r)
        else Ok st
      else if eq_str (current_section st) K_INSTRUCTIONS then
        r <- add_line K_RUN_INSTRUCTIONS st line ;; Ok (with_result st r)
      else Ok st
  end.

Definition _parse_test_response (response_content : value) : outcome value :=
  let result := VDict [ (K_TEST_FILES, VList []); (K_STRATEGY, VStr []);
                        (K_DEPENDENCIES, VList []);
                        (K_RUN_INSTRUCTIONS, VStr []) ] in
  lines <- split response_content ;;
  items <- iterate lines ;;
  st <- for_each test_step items (mk_locals result VNone VNone (VList [])) ;;
  last_file K_TEST_FILES st.

(** [line.startswith(('-', '*', '•')) or line[0:2].replace('.', '').isdigit()] *)
Definition is_item (line : value) : outcome bool :=
  marked <- startswith_any line [DASH; STAR; BULLET] ;;
  if marked then Ok true
  else
    head <- slice line 0 2 ;;
    digits <- replace head DOT ;;
    isdigit_ digits.

(** [criteria.append(line.lstrip('- *•0123456789. '))] *)
Definition append_stripped (items line : value) : outcome value :=
  append_to_items <- append items ;;
  item <- lstrip line STRIP_CHARS ;;
  Ok (append_to_items item).

(** The loop of [_extract_acceptance_criteria]; [break] returns the list as
    it stands. *)
Fixpoint acceptance_scan (lines : list value)
  (in_acceptance_section criteria : value) : outcome value :=
  match lines with
  | [] => Ok criteria
  | line :: rest =>
      line <- strip line ;;
      lowered <- lower_ line ;;
      trigger <- contains lowered ConfluenceClient.ACCEPTANCE_CRITERIA ;;
      if trigger then acceptance_scan rest (VBool true) criteria
      else if truthy in_acceptance_section then
        heading <- startswith line ConfluenceClient.HASH ;;
        stop <- (if heading then Ok true
                 else startswith line ConfluenceClient.BOLD) ;;
        if stop then Ok criteria
        else
          item <- is_item line ;;
          if item then
            criteria' <- append_stripped criteria line ;;
            acceptance_scan rest in_acceptance_section criteria'
          else acceptance_scan rest in_acceptance_section criteria
      else acceptance_scan rest in_acceptance_section criteria
  end.

Definition _extract_acceptance_criteria (description : value) : outcome value :=
  lines <- split description ;;
  items <- iterate lines ;;
  acceptance_scan items (VBool false) (VList []).

(** [any(keyword in line.lower() for keyword in [...])] *)
Definition has_keyword (line : value) : outcome bool :=
  any_of (fun keyword => lowered <- lower_ line ;; contains lowered keyword)
         Pipeline.KEYWORDS.

(** [line and not any(c.isalnum() for c in line)] *)
Definition is_separator (line : value) : outcome bool :=
  if truthy line then
    chars <- iterate line ;;
    alnum <- any_ isalnum_ chars ;;
    Ok (negb alnum)
  else Ok false.

(** The loop of [_extract_requirements_from_content]. *)
Fixpoint requirements_scan (lines : list value)
  (in_requirements requirements : value) : outcome value :=
  match lines with
  | [] => Ok requirements
  | line :: rest =>
      line <- strip line ;;
      trigger <- has_keyword line ;;
      if trigger then requirements_scan rest (VBool true) requirements
      else if truthy in_requirements then
        item <- is_item line ;;
        if item then
          requirements' <- append_stripped requirements line ;;
          requirements_scan rest in_requirements requirements'
        else
          separator <- is_separator line ;;
          if separator then Ok requirements
          else requirements_scan rest in_requirements requirements
      else requirements_scan rest in_requirements requirements
  end.

Definition _extract_requirements_from_content (content : value)
  : outcome value :=
  lines <- split content ;;
  items <- iterate lines ;;
  requirements_scan items (VBool false) (VList []).

End Functions.

(** The typed results as values. *)
Definition strings_value (l : list str) : value := VList (map VStr l).

Definition file_value (f : ClaudeGenerator.file_artifact) : value :=
  VDict [ (K_PATH, VStr (ClaudeGenerator.path f));
          (K_CONTENT, VStr (ClaudeGenerator.content f));
          (K_LANGUAGE, VStr (ClaudeGenerator.language f)) ].

Definition code_result_value (r : ClaudeGenerator.ParseCode.result) : value :=
  VDict [ (K_TASK_KEY, VStr (ClaudeGenerator.ParseCode.task_key r));
          (K_FILES, VList (map file_value (ClaudeGenerator.ParseCode.files r)));
          (K_ANALYSIS, VStr (ClaudeGenerator.ParseCode.analysis r));
          (K_NOTES, VStr (ClaudeGenerator.ParseCode.notes r));
          (K_DEPENDENCIES,
           strings_value (ClaudeGenerator.ParseCode.dependencies r)) ].

Definition test_result_value (r : ClaudeGenerator.ParseTest.result) : value :=
  VDict [ (K_TEST_FILES,
           VList (map file_value (ClaudeGenerator.ParseTest.test_files r)));
          (K_STRATEGY, VStr (ClaudeGenerator.ParseTest.strategy r));
          (K_DEPENDENCIES,
           strings_value (ClaudeGenerator.ParseTest.dependencies r));
          (K_RUN_INSTRUCTIONS,
           VStr (ClaudeGenerator.ParseTest.run_instructions r)) ].

(** A dict of strings, as [task_data] is read here. *)
Definition dict_value (d : list (str * str)) : value :=
  VDict (map (fun kv => (fst kv, VStr (snd kv))) d).

Definition option_value (o : option str) : value :=
  match o with Some s => VStr s | None => VNone end.

Definition code_section_value (s : ClaudeGenerator.ParseCode.section) : str :=
  match s with
  | ClaudeGenerator.ParseCode.s_analysis => K_ANALYSIS
  | ClaudeGenerator.ParseCode.s_files => K_FILES
  | ClaudeGenerator.ParseCode.s_notes => K_NOTES
  | ClaudeGenerator.ParseCode.s_dependencies => K_DEPENDENCIES
  end.

Definition test_section_value (s : ClaudeGenerator.ParseTest.section) : str :=
  match s with
  | ClaudeGenerator.ParseTest.s_strategy => K_STRATEGY
  | ClaudeGenerator.ParseTest.s_files => K_FILES
  | ClaudeGenerator.ParseTest.s_dependencies => K_DEPENDENCIES
  | ClaudeGenerator.ParseTest.s_instructions => K_INSTRUCTIONS
  end.

Definition code_locals (st : ClaudeGenerator.ParseCode.state) : locals :=
  mk_locals (code_result_value (ClaudeGenerator.ParseCode.res st))
            (option_value
               (option_map code_section_value
                  (ClaudeGenerator.ParseCode.current_section st)))
            (option_value (ClaudeGenerator.ParseCode.current_file st))
            (strings_value (ClaudeGenerator.ParseCode.current_content st)).

Definition test_locals (st : ClaudeGenerator.ParseTest.state) : locals :=
  mk_locals (test_result_value (ClaudeGenerator.ParseTest.res st))
            (option_value
               (option_map test_section_value
                  (ClaudeGenerator.ParseTest.current_section st)))
            (option_value (ClaudeGenerator.ParseTest.current_file st))
            (strings_value (ClaudeGenerator.ParseTest.current_content st)).

End Untyped.

(** * Properties *)

(** Case analysis on the tests of a loop body. *)
Ltac break_if :=
  match goal with
  | |- context [if ?b then _ else _] => destruct b eqn:?
  end.

Ltac header_case :=
  match goal with
  | H : (_ && Py.startswith _ ClaudeGenerator.FILE_MARKER) = true |- _ =>
      apply andb_true_iff in H; destruct H as [_ H]
  end.

(** ** The ASCII tables satisfy the laws of [Unicode] *)

Lemma ascii_lower_ascii s :
  forallb is_ascii s = true -> AsciiTables.lower s = map ascii_lower s.
Proof. reflexivity. Qed.

Lemma ascii_lower_no_capital s c :
  In c (AsciiTables.lower s) -> ~ (65 <= c <= 90)%N.
Proof.
  unfold AsciiTables.lower. rewrite in_map_iff. intros [d [Hd _]] Hc.
  unfold ascii_lower in Hd.
  destruct ((65 <=? d) && (d <=? 90))%N eqn:E.
  - apply andb_true_iff in E. destruct E as [E1 E2].
    apply N.leb_le in E1. lia.
  - subst d. apply andb_false_iff in E.
    destruct E as [E|E]; apply N.leb_gt in E; lia.
Qed.

Lemma ascii_lower_letter_alnum s :
  (exists c, In c (AsciiTables.lower s) /\ (97 <= c <= 122)%N) ->
  exists c, In c s /\ AsciiTables.isalnum c = true.
Proof.
  intros [c [Hin Hc]]. unfold AsciiTables.lower in Hin.
  apply in_map_iff in Hin. destruct Hin as [d [Hd Hin]].
  exists d. split; [exact Hin|].
  unfold AsciiTables.isalnum, AsciiTables.isalpha, ascii_lower in *.
  destruct ((65 <=? d) && (d <=? 90))%N eqn:E; [reflexivity|].
  subst d. simpl.
  replace (97 <=? c)%N with true by (symmetry; apply N.leb_le; lia).
  replace (c <=? 122)%N with true by (symmetry; apply N.leb_le; lia).
  reflexivity.
Qed.

Lemma ascii_isdigit_isalnum c :
  AsciiTables.isdigit c = true -> AsciiTables.isalnum c = true.
Proof. unfold AsciiTables.isalnum. intros ->. apply orb_true_r. Qed.

#[global] Instance ascii_tables : Unicode := {|
  lower := AsciiTables.lower;
  isdigit := AsciiTables.isdigit;
  isalnum := AsciiTables.isalnum;
  lower_ascii := ascii_lower_ascii;
  lower_no_capital := ascii_lower_no_capital;
  lower_letter_alnum := ascii_lower_letter_alnum;
  isdigit_isalnum := ascii_isdigit_isalnum
|}.

(** ** The loop of [_parse_code_response] *)

Module CodeFacts.
Import ClaudeGenerator ClaudeGenerator.ParseCode CodeLines.

Section Facts.
Context {U : Unicode}.

Lemma not_header_inv line :
  is_section_header line = false ->
  Py.startswith (Py.strip line) H_ANALYSIS = false /\
  Py.startswith (Py.strip line) H_FILES = false /\
  Py.startswith (Py.strip line) H_NOTES = false /\
  Py.startswith (Py.strip line) H_DEPENDENCIES = false.
Proof.
  unfold is_section_header. cbv zeta. intros H.
  repeat (apply orb_false_iff in H; destruct H as [H ?]). auto.
Qed.

(** A file header line in the Files section saves the file in progress
    and opens the next one. *)
Lemma step_file_header st line :
  is_section_header line = false ->
  in_section (current_section st) s_files = true ->
  is_file_header line = true ->
  step st line =
  mk_state (save_previous st) (current_section st) (Some (header_path line)) [].
Proof.
  intros Hh Hs Hf. apply not_header_inv in Hh.
  destruct Hh as (H1 & H2 & H3 & H4).
  unfold step, is_file_header in *. cbv zeta.
  rewrite H1, H2, H3, H4, Hs, Hf. reflexivity.
Qed.

(** With a file in progress in the Files section, any other line is dropped
    if it is a fence line and appended otherwise. *)
Lemma step_body st line :
  is_section_header line = false ->
  in_section (current_section st) s_files = true ->
  is_file_header line = false ->
  is_set (current_file st) = true ->
  step st line =
  if is_fence line then st
  else mk_state (res st) (current_section st) (current_file st)
                (current_content st ++ [line]).
Proof.
  intros Hh Hs Hf Hc. apply not_header_inv in Hh.
  destruct Hh as (H1 & H2 & H3 & H4).
  unfold step, is_file_header, is_fence in *. cbv zeta.
  rewrite H1, H2, H3, H4, Hs, Hf, Hc. simpl.
  destruct (Py.startswith (Py.strip line) FENCE); simpl; [|reflexivity].
  destruct (current_content st); reflexivity.
Qed.

(** Before any section header nothing is recorded. *)
Lemma step_idle st line :
  is_section_header line = false ->
  current_section st = None ->
  step st line = st.
Proof.
  intros Hh Hs. apply not_header_inv in Hh.
  destruct Hh as (H1 & H2 & H3 & H4).
  unfold step. cbv zeta. rewrite H1, H2, H3, H4, Hs. reflexivity.
Qed.

Lemma run_app l1 l2 st : run (l1 ++ l2) st = run l2 (run l1 st).
Proof. apply fold_left_app. Qed.

Lemma run_idle lines st :
  Forall (fun l => is_section_header l = false) lines ->
  current_section st = None ->
  run lines st = st.
Proof.
  intros H. revert st. induction H as [|l ls Hl _ IH]; intros st Hs.
  - reflexivity.
  - simpl. rewrite (step_idle st l Hl Hs). apply IH, Hs.
Qed.

Lemma run_body body : forall st,
  Forall plain body ->
  in_section (current_section st) s_files = true ->
  is_set (current_file st) = true ->
  run body st =
  mk_state (res st) (current_section st) (current_file st)
           (current_content st ++ kept body).
Proof.
  induction body as [|l body IH]; intros st Hp Hs Hc.
  - simpl. rewrite app_nil_r. destruct st; reflexivity.
  - inversion Hp as [|? ? [Hl1 Hl2] Hp']; subst.
    simpl. rewrite (step_body st l Hl1 Hs Hl2 Hc).
    unfold kept in *. simpl. destruct (is_fence l); simpl.
    + apply IH; assumption.
    + rewrite IH by assumption. simpl. rewrite <- app_assoc. reflexivity.
Qed.

(** Where [current_file] comes from: a step keeps it, or stores the path
    of the file header line it reads. *)
Lemma step_current_file st line :
  current_file (step st line) = current_file st \/
  (is_file_header line = true /\
   current_file (step st line) = Some (header_path line)).
Proof.
  unfold step, is_file_header. cbv zeta.
  repeat break_if; try (left; reflexivity);
    try (right; header_case; split; [assumption | reflexivity]).
  all: destruct (current_section st) as [[]|]; left; reflexivity.
Qed.

Lemma run_current_file lines : forall st p,
  current_file (run lines st) = Some p ->
  current_file st = Some p \/
  exists line, In line lines /\ is_file_header line = true
               /\ p = header_path line.
Proof.
  induction lines as [|l lines IH]; intros st p H.
  - left. exact H.
  - simpl in H. destruct (IH _ _ H) as [H1 | (line & Hin & Hh & Hp)].
    + destruct (step_current_file st l) as [E | [Hh E]].
      * left. congruence.
      * right. exists l. split; [left; reflexivity|].
        split; [exact Hh | congruence].
    + right. exists line. split; [right; exact Hin | auto].
Qed.

Lemma save_previous_length st :
  length (files (save_previous st)) = length (files (res st)) + pending st.
Proof.
  unfold save_previous, pending, is_set.
  destruct (current_file st) as [p|]; simpl; [|lia].
  destruct (Py.truthy p); simpl; rewrite ?length_app; simpl; lia.
Qed.

(** A step adds at most one file, and only at a file header. *)
Lemma step_files_bound st line :
  length (files (res (step st line))) + pending (step st line) <=
  length (files (res st)) + pending st
  + (if is_file_header line then 1 else 0).
Proof.
  unfold step. cbv zeta.
  destruct (Py.startswith (Py.strip line) H_ANALYSIS);
    [unfold pending; simpl; lia|].
  destruct (Py.startswith (Py.strip line) H_FILES);
    [unfold pending; simpl; lia|].
  destruct (Py.startswith (Py.strip line) H_NOTES);
    [unfold pending; simpl; lia|].
  destruct (Py.startswith (Py.strip line) H_DEPENDENCIES);
    [unfold pending; simpl; lia|].
  destruct (in_section (current_section st) s_files
            && Py.startswith (Py.strip line) FILE_MARKER) eqn:E.
  - header_case. unfold is_file_header. rewrite E.
    unfold pending at 1. simpl. rewrite save_previous_length.
    destruct (Py.truthy _); lia.
  - destruct (in_section (current_section st) s_files
              && is_set (current_file st)).
    + repeat break_if; unfold pending; simpl; lia.
    + destruct (current_section st) as [[]|]; repeat break_if;
        unfold pending; simpl; lia.
Qed.

Lemma run_files_bound lines : forall st,
  length (files (res (run lines st))) + pending (run lines st) <=
  length (files (res st)) + pending st + count_file_headers lines.
Proof.
  induction lines as [|l lines IH]; intros st.
  - simpl. unfold count_file_headers. simpl. lia.
  - simpl. specialize (IH (step st l)).
    pose proof (step_files_bound st l) as Hs.
    unfold count_file_headers in *. simpl.
    destruct (is_file_header l); simpl; lia.
Qed.

Lemma finish_files_bound st :
  length (files (finish st)) <= length (files (res st)) + pending st.
Proof.
  unfold finish, pending, is_set.
  destruct (current_file st) as [p|]; simpl; [|lia].
  destruct (Py.truthy p); simpl; [|lia].
  destruct (Py.truthy (current_content st)); simpl;
    rewrite ?length_app; simpl; lia.
Qed.

(** Without the Files header no file is ever in progress. *)
Lemma step_outside_files st line :
  Py.startswith (Py.strip line) H_FILES = false ->
  in_section (current_section st) s_files = false ->
  in_section (current_section (step st line)) s_files = false /\
  current_file (step st line) = current_file st /\
  files (res (step st line)) = files (res st).
Proof.
  intros Hf Hs. unfold step. cbv zeta. rewrite Hf, Hs. simpl.
  destruct st as [r cs cf cc]. simpl in *.
  destruct cs as [[]|]; simpl in *; try discriminate;
    repeat break_if; simpl; auto.
Qed.

Lemma run_outside_files lines : forall st,
  Forall (fun l => Py.startswith (Py.strip l) H_FILES = false) lines ->
  in_section (current_section st) s_files = false ->
  current_file (run lines st) = current_file st /\
  files (res (run lines st)) = files (res st).
Proof.
  induction lines as [|l lines IH]; intros st Hl Hs.
  - split; reflexivity.
  - inversion Hl as [|? ? H1 H2]; subst. simpl.
    destruct (step_outside_files st l H1 Hs) as (Ha & Hb & Hc).
    destruct (IH (step st l) H2 Ha) as [Hd He].
    split; congruence.
Qed.

(** No fence line ever enters [current_content]. *)
Lemma step_content_no_fence st line :
  Forall (fun l => is_fence l = false) (current_content st) ->
  Forall (fun l => is_fence l = false) (current_content (step st line)).
Proof.
  intros H. unfold step. cbv zeta.
  destruct (Py.startswith (Py.strip line) H_ANALYSIS); [exact H|].
  destruct (Py.startswith (Py.strip line) H_FILES); [exact H|].
  destruct (Py.startswith (Py.strip line) H_NOTES); [exact H|].
  destruct (Py.startswith (Py.strip line) H_DEPENDENCIES); [exact H|].
  destruct (in_section (current_section st) s_files
            && Py.startswith (Py.strip line) FILE_MARKER); [constructor|].
  destruct (in_section (current_section st) s_files
            && is_set (current_file st)).
  - destruct (Py.startswith (Py.strip line) FENCE) eqn:E.
    + destruct (length (current_content st)); simpl; exact H.
    + simpl. apply Forall_app. split; [exact H|].
      constructor; [exact E | constructor].
  - destruct (current_section st) as [[]|]; try exact H.
    break_if; exact H.
Qed.

Lemma run_content_no_fence lines : forall st,
  Forall (fun l => is_fence l = false) (current_content st) ->
  Forall (fun l => is_fence l = false) (current_content (run lines st)).
Proof.
  induction lines as [|l lines IH]; intros st H; [exact H|].
  simpl. apply IH, step_content_no_fence, H.
Qed.

End Facts.
End CodeFacts.

(** ** The loop of [_parse_test_response]

    The same facts, for the four headers of the test response. *)

Module TestFacts.
Import ClaudeGenerator ClaudeGenerator.ParseTest TestLines.

Section Facts.
Context {U : Unicode}.

Lemma t_not_header_inv line :
  is_section_header line = false ->
  Py.startswith (Py.strip line) H_STRATEGY = false /\
  Py.startswith (Py.strip line) H_FILES = false /\
  Py.startswith (Py.strip line) H_DEPENDENCIES = false /\
  Py.startswith (Py.strip line) H_RUNNING = false.
Proof.
  unfold is_section_header. cbv zeta. intros H.
  repeat (apply orb_false_iff in H; destruct H as [H ?]). auto.
Qed.

(** Where [current_file] comes from: a step keeps it, or stores the path
    of the file header line it reads. *)
Lemma t_step_current_file st line :
  current_file (step st line) = current_file st \/
  (is_file_header line = true /\
   current_file (step st line) = Some (header_path line)).
Proof.
  unfold step, is_file_header. cbv zeta.
  repeat break_if; try (left; reflexivity);
    try (right; header_case; split; [assumption | reflexivity]).
  all: destruct (current_section st) as [[]|]; left; reflexivity.
Qed.

Lemma t_run_current_file lines : forall st p,
  current_file (run lines st) = Some p ->
  current_file st = Some p \/
  exists line, In line lines /\ is_file_header line = true
               /\ p = header_path line.
Proof.
  induction lines as [|l lines IH]; intros st p H.
  - left. exact H.
  - simpl in H. destruct (IH _ _ H) as [H1 | (line & Hin & Hh & Hp)].
    + destruct (t_step_current_file st l) as [E | [Hh E]].
      * left. congruence.
      * right. exists l. split; [left; reflexivity|].
        split; [exact Hh | congruence].
    + right. exists line. split; [right; exact Hin | auto].
Qed.

Lemma t_save_previous_length st :
  length (test_files (save_previous st)) = length (test_files (res st)) + pending st.
Proof.
  unfold save_previous, pending, is_set.
  destruct (current_file st) as [p|]; simpl; [|lia].
  destruct (Py.truthy p); simpl; rewrite ?length_app; simpl; lia.
Qed.

(** A step adds at most one file, and only at a file header. *)
Lemma t_step_files_bound st line :
  length (test_files (res (step st line))) + pending (step st line) <=
  length (test_files (res st)) + pending st
  + (if is_file_header line then 1 else 0).
Proof.
  unfold step. cbv zeta.
  destruct (Py.startswith (Py.strip line) H_STRATEGY);
    [unfold pending; simpl; lia|].
  destruct (Py.startswith (Py.strip line) H_FILES);
    [unfold pending; simpl; lia|].
  destruct (Py.startswith (Py.strip line) H_DEPENDENCIES);
    [unfold pending; simpl; lia|].
  destruct (Py.startswith (Py.strip line) H_RUNNING);
    [unfold pending; simpl; lia|].
  destruct (in_section (current_section st) s_files
            && Py.startswith (Py.strip line) FILE_MARKER) eqn:E.
  - header_case. unfold is_file_header. rewrite E.
    unfold pending at 1. simpl. rewrite t_save_previous_length.
    destruct (Py.truthy _); lia.
  - destruct (in_section (current_section st) s_files
              && is_set (current_file st)).
    + repeat break_if; unfold pending; simpl; lia.
    + destruct (current_section st) as [[]|]; repeat break_if;
        unfold pending; simpl; lia.
Qed.

Lemma t_run_files_bound lines : forall st,
  length (test_files (res (run lines st))) + pending (run lines st) <=
  length (test_files (res st)) + pending st + count_file_headers lines.
Proof.
  induction lines as [|l lines IH]; intros st.
  - simpl. unfold count_file_headers. simpl. lia.
  - simpl. specialize (IH (step st l)).
    pose proof (t_step_files_bound st l) as Hs.
    unfold count_file_headers in *. simpl.
    destruct (is_file_header l); simpl; lia.
Qed.

Lemma t_finish_files_bound st :
  length (test_files (finish st)) <= length (test_files (res st)) + pending st.
Proof.
  unfold finish, pending, is_set.
  destruct (current_file st) as [p|]; simpl; [|lia].
  destruct (Py.truthy p); simpl; [|lia].
  destruct (Py.truthy (current_content st)); simpl;
    rewrite ?length_app; simpl; lia.
Qed.

(** Without the Files header no file is ever in progress. *)
Lemma t_step_outside_files st line :
  Py.startswith (Py.strip line) H_FILES = false ->
  in_section (current_section st) s_files = false ->
  in_section (current_section (step st line)) s_files = false /\
  current_file (step st line) = current_file st /\
  test_files (res (step st line)) = test_files (res st).
Proof.
  intros Hf Hs. unfold step. cbv zeta. rewrite Hf, Hs. simpl.
  destruct st as [r cs cf cc]. simpl in *.
  destruct cs as [[]|]; simpl in *; try discriminate;
    repeat break_if; simpl; auto.
Qed.

Lemma t_run_outside_files lines : forall st,
  Forall (fun l => Py.startswith (Py.strip l) H_FILES = false) lines ->
  in_section (current_section st) s_files = false ->
  current_file (run lines st) = current_file st /\
  test_files (res (run lines st)) = test_files (res st).
Proof.
  induction lines as [|l lines IH]; intros st Hl Hs.
  - split; reflexivity.
  - inversion Hl as [|? ? H1 H2]; subst. simpl.
    destruct (t_step_outside_files st l H1 Hs) as (Ha & Hb & Hc).
    destruct (IH (step st l) H2 Ha) as [Hd He].
    split; congruence.
Qed.

End Facts.
End TestFacts.

(** ** Lines and text *)

Module PyFacts.

Lemma startswith_nil s : Py.startswith s [] = true.
Proof. destruct s; reflexivity. Qed.

Lemma startswith_cons s a p :
  Py.startswith s (a :: p) =
  match s with
  | [] => false
  | b :: s' => (a =? b)%N && Py.startswith s' p
  end.
Proof. destruct s; reflexivity. Qed.

Lemma split_lines_nonempty s : Py.split_lines s <> [].
Proof.
  destruct s as [|c s]; simpl; [discriminate|].
  destruct (c =? 10)%N; [discriminate|].
  destruct (Py.split_lines s); discriminate.
Qed.

(** Splitting distributes over a newline. *)
Lemma split_lines_app a b :
  Py.split_lines (a ++ 10%N :: b) = Py.split_lines a ++ Py.split_lines b.
Proof.
  induction a as [|c a IH]; simpl.
  - reflexivity.
  - destruct (c =? 10)%N.
    + rewrite IH. reflexivity.
    + rewrite IH. pose proof (split_lines_nonempty a) as Hne.
      destruct (Py.split_lines a) as [|l ls]; [contradiction|]. reflexivity.
Qed.

(** A text without newline is one line. *)
Lemma split_lines_one l :
  Forall (fun c => c <> 10%N) l -> Py.split_lines l = [l].
Proof.
  induction 1 as [|c l Hc _ IH]; simpl.
  - reflexivity.
  - apply N.eqb_neq in Hc. rewrite Hc, IH. reflexivity.
Qed.

(** Joining the lines of a text gives the text back. *)
Lemma join_split s : Py.join_lines (Py.split_lines s) = s.
Proof.
  induction s as [|c s IH]; simpl.
  - reflexivity.
  - pose proof (split_lines_nonempty s) as Hne.
    destruct (c =? 10)%N eqn:E.
    + apply N.eqb_eq in E. subst c.
      destruct (Py.split_lines s) as [|l ls]; [contradiction|].
      simpl in *. rewrite IH. reflexivity.
    + destruct (Py.split_lines s) as [|l ls]; [contradiction|].
      simpl in *. destruct ls; simpl in *; rewrite <- IH; reflexivity.
Qed.

Lemma in_firstn {A} (x : A) n : forall l, In x (firstn n l) -> In x l.
Proof.
  induction n as [|n IH]; intros [|y l] H; simpl in *; try contradiction.
  destruct H as [H|H]; [left; exact H | right; apply IH; exact H].
Qed.

Lemma truthy_nonempty {A} (l : list A) : Py.truthy l = true <-> l <> [].
Proof. destruct l; simpl; split; congruence. Qed.

End PyFacts.

(** ** Language detection on ASCII extensions *)

Lemma detect_ascii_ext (U : Unicode) (p : str) :
  forallb is_ascii (snd (Py.splitext p)) = true ->
  ClaudeGenerator._detect_language_from_path p =
  Py.dict_get ClaudeGenerator.extension_map
    (map ascii_lower (snd (Py.splitext p))) ClaudeGenerator.TEXT.
Proof.
  intros H. unfold ClaudeGenerator._detect_language_from_path. cbv zeta.
  rewrite (lower_ascii _ H). reflexivity.
Qed.

(** ** [_parse_code_response] on file blocks *)

Module CodeResponse.
Import ClaudeGenerator ClaudeGenerator.ParseCode CodeLines CodeFacts.

(** C1, as the specification states it, fails on the scenario of its
    section 8: neither the file contents nor the dependencies are the ones
    it lists.  Each file keeps the blank line that follows its closing
    fence, and each dependency keeps its bullet. *)
Lemma C1_scenario_counterexample :
  map (fun f => (path f, content f))
      (files (_parse_code_response Inputs.scenario []))
  <> [ (lit "src/a.py", lit "x = 1"); (lit "src/b.py", lit "y = 2") ]
  /\ dependencies (_parse_code_response Inputs.scenario [])
     <> [ lit "requests>=2.0.0"; lit "pyyaml" ].
Proof. split; vm_compute; discriminate. Qed.

(** C1 (amended): on the scenario of section 8, [_parse_code_response]
    returns the two files src/a.py and src/b.py with contents "x = 1\n" and
    "y = 2\n" (the blank line after each closing fence is part of the
    content), language "python", the dependencies "- requests>=2.0.0" and
    "- pyyaml" with their bullets, and empty analysis and notes; this for any
    character tables and any task data. *)
Theorem C1_scenario_result (U : Unicode) (task_data : list (str * str)) :
  _parse_code_response Inputs.scenario task_data =
  mk_result (Py.dict_get task_data KEY UNKNOWN)
    [ mk_file (lit "src/a.py") (lit "x = 1" ++ [10%N]) (lit "python");
      mk_file (lit "src/b.py") (lit "y = 2" ++ [10%N]) (lit "python") ]
    [] []
    [ lit "- requests>=2.0.0"; lit "- pyyaml" ].
Proof.
  unfold _parse_code_response, finish, run, init.
  cbv - [_detect_language_from_path Py.dict_get].
  rewrite !detect_ascii_ext by reflexivity.
  reflexivity.
Qed.

(** The blank line after the section header changes nothing. *)
Lemma scenario_compact_result (U : Unicode) (task_data : list (str * str)) :
  _parse_code_response Inputs.scenario_compact task_data =
  _parse_code_response Inputs.scenario task_data.
Proof.
  unfold _parse_code_response, finish, run, init.
  cbv - [_detect_language_from_path Py.dict_get].
  reflexivity.
Qed.

(** C2: the code at two adjacent file headers.  The first file, which has
    no content line, is appended all the same, with empty content, by
    [_parse_code_response] and by [_parse_test_response]: the test before the
    append is [if current_file:], without the [and current_content] of the
    end of the loop. *)
Theorem C2_adjacent_headers_keep_empty_file :
  files (_parse_code_response Inputs.adjacent_headers [])
  = [ mk_file (lit "a.py") [] (lit "python");
      mk_file (lit "b.py") (lit "x = 1") (lit "python") ]
  /\ ParseTest.test_files (ParseTest._parse_test_response Inputs.adjacent_test_headers)
  = [ mk_file (lit "test_a.py") [] (lit "python");
      mk_file (lit "test_b.py") (lit "x = 1") (lit "python") ].
Proof. split; vm_compute; reflexivity. Qed.

(** A file header line is no section header: the third character of the
    marker is '#', that of every section header a space. *)
Lemma startswith_third_differs s x y z p x' y' z' q :
  Py.startswith s (x :: y :: z :: p) = true -> z <> z' ->
  Py.startswith s (x' :: y' :: z' :: q) = false.
Proof.
  intros H Hz. rewrite PyFacts.startswith_cons in *.
  destruct s as [|a s]; [discriminate H|].
  rewrite PyFacts.startswith_cons in *.
  destruct s as [|b s]; [rewrite andb_false_r in H; discriminate H|].
  rewrite PyFacts.startswith_cons in *.
  destruct s as [|c s]; [rewrite !andb_false_r in H; discriminate H|].
  apply andb_true_iff in H. destruct H as [_ H].
  apply andb_true_iff in H. destruct H as [_ H].
  apply andb_true_iff in H. destruct H as [H _].
  apply N.eqb_eq in H. subst c.
  assert (E : (z' =? z)%N = false) by (apply N.eqb_neq; congruence).
  rewrite E. rewrite !andb_false_r. reflexivity.
Qed.

Lemma file_header_not_section line :
  is_file_header line = true -> is_section_header line = false.
Proof.
  unfold is_file_header, is_section_header. cbv zeta. intros H.
  unfold H_ANALYSIS, H_FILES, H_NOTES, H_DEPENDENCIES.
  unfold FILE_MARKER in H.
  rewrite !(startswith_third_differs _ _ _ _ _ _ _ 32%N _ H) by discriminate.
  reflexivity.
Qed.

(** The state after a file header and the lines of its body. *)
Lemma run_file_block (U : Unicode) st hdr body :
  in_section (current_section st) s_files = true ->
  is_file_header hdr = true ->
  Py.truthy (header_path hdr) = true ->
  Forall plain body ->
  run (hdr :: body) st =
  mk_state (save_previous st) (current_section st)
           (Some (header_path hdr)) (kept body).
Proof.
  intros Hs Hh Hp Hb. simpl.
  rewrite (step_file_header st hdr (file_header_not_section hdr Hh) Hs Hh).
  rewrite run_body; simpl; auto.
Qed.

Lemma kept_not_fence body l : In l (kept body) -> is_fence l = false.
Proof.
  unfold kept. rewrite filter_In. intros [_ H].
  destruct (is_fence l); [discriminate | reflexivity].
Qed.

(** C3, as the specification states it, fails: in the first block of the
    scenario the content is not the lines between the two fences joined
    ("x = 1") but those lines and the blank line after the closing fence
    ("x = 1\n"). *)
Lemma C3_between_fences_counterexample :
  let body := [ lit "```python"; lit "x = 1"; lit "```"; [] ] in
  let response :=
    Py.join_lines ([ H_FILES; lit "### File: src/a.py" ] ++ body) in
  exists f,
    files (_parse_code_response response []) = [f] /\
    content f = lit "x = 1" ++ [10%N] /\
    Py.join_lines (Spec.between_fences body) = lit "x = 1" /\
    content f <> Py.join_lines (Spec.between_fences body).
Proof.
  cbv zeta. eexists. split; [vm_compute; reflexivity|].
  repeat split; vm_compute; try reflexivity; discriminate.
Qed.

(** C3 (amended): with a file in progress in the Files section, a line
    whose trimmed form starts with the fence token is consumed and never
    appears in the content; the content of a file whose header is followed by
    lines that are neither section nor file headers is all of those lines that
    are not fence lines, in order, joined by newlines: the lines before the
    first fence line and after the second are part of it.  That content is
    what is appended when the next file header arrives, and at the end of the
    input when it has at least one line. *)
Theorem C3_file_content (U : Unicode) st hdr body :
  in_section (current_section st) s_files = true ->
  is_file_header hdr = true ->
  Py.truthy (header_path hdr) = true ->
  Forall plain body ->
  let st' := run (hdr :: body) st in
  (forall lines task_data l,
     In l (current_content (run lines (init task_data))) ->
     is_fence l = false) /\
  current_file st' = Some (header_path hdr) /\
  current_content st' = kept body /\
  (forall l, In l (current_content st') -> is_fence l = false) /\
  (forall l, In l body -> is_fence l = false -> In l (current_content st')) /\
  (forall next, is_file_header next = true ->
     files (res (step st' next)) =
     files (save_previous st) ++
     [mk_file (header_path hdr) (Py.join_lines (kept body))
              (_detect_language_from_path (header_path hdr))]) /\
  files (finish st') =
  files (save_previous st) ++
  (if Py.truthy (kept body)
   then [mk_file (header_path hdr) (Py.join_lines (kept body))
                 (_detect_language_from_path (header_path hdr))]
   else []).
Proof.
  intros Hs Hh Hp Hb st'. subst st'.
  split.
  { intros lines task_data.
    apply Forall_forall, run_content_no_fence. constructor. }
  rewrite (run_file_block U st hdr body Hs Hh Hp Hb). simpl.
  split; [reflexivity|]. split; [reflexivity|].
  split; [apply kept_not_fence|].
  split.
  - intros l Hin Hf. unfold kept. apply filter_In. split; [exact Hin|].
    rewrite Hf. reflexivity.
  - split.
    + intros next Hn.
      rewrite step_file_header; simpl; auto using file_header_not_section.
      unfold save_previous at 1. simpl. rewrite Hp. reflexivity.
    + unfold finish. simpl. rewrite Hp. simpl.
      destruct (Py.truthy (kept body)); simpl;
        [reflexivity | rewrite app_nil_r; reflexivity].
Qed.

(** C3 at the first block of the scenario, read from the state the Files
    header leaves. *)
Lemma C3_file_content_witness :
  let st := set_section (init []) s_files in
  let hdr := lit "### File: src/a.py" in
  let body := [ lit "```python"; lit "x = 1"; lit "```"; [] ] in
  current_content (run (hdr :: body) st) = [ lit "x = 1"; [] ] /\
  files (finish (run (hdr :: body) st)) =
  [ mk_file (lit "src/a.py") (lit "x = 1" ++ [10%N]) (lit "python") ].
Proof.
  cbv zeta.
  destruct (C3_file_content ascii_tables
              (set_section (init []) s_files)
              (lit "### File: src/a.py")
              [ lit "```python"; lit "x = 1"; lit "```"; [] ])
    as (_ & _ & Hc & _ & _ & _ & Hf).
  - reflexivity.
  - reflexivity.
  - reflexivity.
  - repeat constructor.
  - split; [exact Hc | exact Hf].
Defined.

(** C9: an input none of whose lines, trimmed, starts with a section
    header gives the empty result: no file, no dependency, empty analysis and
    notes.  More generally the lines before the first section header leave
    the state as it was, so nothing of them is accumulated. *)
Theorem C9_no_header_empty_result (U : Unicode) (s : str)
  (task_data : list (str * str)) :
  Forall (fun l => is_section_header l = false) (Py.split_lines s) ->
  _parse_code_response s task_data =
    mk_result (Py.dict_get task_data KEY UNKNOWN) [] [] [] []
  /\ (forall rest,
        run (Py.split_lines s ++ rest) (init task_data) =
        run rest (init task_data)).
Proof.
  intros H. split.
  - unfold _parse_code_response.
    rewrite (run_idle (Py.split_lines s) (init task_data) H eq_refl).
    reflexivity.
  - intros rest. rewrite run_app.
    rewrite (run_idle (Py.split_lines s) (init task_data) H eq_refl).
    reflexivity.
Qed.

Lemma C9_no_header_empty_result_witness :
  _parse_code_response
    (Inputs.text [ "Here is the code:"; "```python"; "x = 1"; "```";
                   "### File: a.py"; "- requests" ]%string) []
  = mk_result UNKNOWN [] [] [] [].
Proof.
  apply (C9_no_header_empty_result ascii_tables
           (Inputs.text [ "Here is the code:"; "```python"; "x = 1"; "```";
                          "### File: a.py"; "- requests" ]%string) []).
  vm_compute. repeat constructor.
Defined.

(** The lines of a rendered block. *)
Lemma split_render_block hdr content :
  Forall (fun c => c <> 10%N) hdr ->
  Py.split_lines (Spec.render_block hdr content) =
  H_FILES :: hdr :: (FENCE :: Py.split_lines content ++ [FENCE]).
Proof.
  intros Hh. unfold Spec.render_block.
  rewrite PyFacts.split_lines_app.
  rewrite PyFacts.split_lines_app, (PyFacts.split_lines_one hdr Hh).
  rewrite PyFacts.split_lines_app.
  rewrite PyFacts.split_lines_app.
  reflexivity.
Qed.

(** C8, as the specification states it, fails: a content none of whose
    lines starts with the fence token, but whose line is a section header,
    does not come back.  The header line closes the Files section, the file
    in progress is left without content and the result has no file at all. *)
Lemma C8_round_trip_counterexample :
  let original := lit "## Analysis" in
  let response := Spec.render_block (lit "### File: notes.md") original in
  Forall (fun l => Py.startswith l FENCE = false /\ is_fence l = false)
         (Py.split_lines original)
  /\ files (_parse_code_response response []) = []
  /\ (forall f, nth_error (files (_parse_code_response response [])) 0 = Some f ->
      content f <> original).
Proof.
  cbv zeta. split; [|split].
  - vm_compute. repeat constructor.
  - vm_compute. reflexivity.
  - intros f. vm_compute. discriminate.
Qed.

(** C8 (amended): for every content string none of whose lines, trimmed,
    starts with the fence token, the file marker or a section header, and
    every file header line naming a non-empty path, parsing the content
    rendered as a single file block gives exactly one file, whose content is
    the original content string. *)
Theorem C8_round_trip (U : Unicode) (hdr content : str)
  (task_data : list (str * str)) :
  Forall (fun c => c <> 10%N) hdr ->
  is_file_header hdr = true ->
  Py.truthy (header_path hdr) = true ->
  Forall (fun l => is_fence l = false /\ is_file_header l = false
                   /\ is_section_header l = false)
         (Py.split_lines content) ->
  files (_parse_code_response (Spec.render_block hdr content) task_data) =
  [ mk_file (header_path hdr) content
            (_detect_language_from_path (header_path hdr)) ].
Proof.
  intros Hnl Hh Hp Hc.
  unfold _parse_code_response. rewrite (split_render_block hdr content Hnl).
  change (run (H_FILES :: hdr :: FENCE :: Py.split_lines content ++ [FENCE])
              (init task_data))
    with (run (hdr :: FENCE :: Py.split_lines content ++ [FENCE])
              (set_section (init task_data) s_files)).
  assert (Hkept : kept (FENCE :: Py.split_lines content ++ [FENCE])
                  = Py.split_lines content).
  { unfold kept. change (FENCE :: Py.split_lines content ++ [FENCE])
      with ([FENCE] ++ Py.split_lines content ++ [FENCE]).
    rewrite !filter_app. simpl. rewrite app_nil_r.
    apply forallb_filter_id. apply forallb_forall. intros l Hl.
    rewrite Forall_forall in Hc. destruct (Hc l Hl) as [-> _]. reflexivity. }
  rewrite run_file_block; auto.
  - rewrite Hkept. unfold finish. simpl. rewrite Hp.
    rewrite (proj2 (PyFacts.truthy_nonempty _)
               (PyFacts.split_lines_nonempty content)).
    simpl. unfold artifact. rewrite PyFacts.join_split. reflexivity.
  - constructor; [split; reflexivity|].
    apply Forall_app. split.
    + eapply Forall_impl; [|exact Hc]. intros l (_ & H1 & H2). split; assumption.
    + repeat constructor.
Qed.

Lemma C8_round_trip_witness :
  files (_parse_code_response
           (Spec.render_block (lit "### File: src/a.py")
              (Inputs.text [ "import os"; ""; "  # Setup"; "x = 1" ]%string)) [])
  = [ mk_file (lit "src/a.py")
        (Inputs.text [ "import os"; ""; "  # Setup"; "x = 1" ]%string)
        (lit "python") ].
Proof.
  apply (C8_round_trip ascii_tables (lit "### File: src/a.py")
           (Inputs.text [ "import os"; ""; "  # Setup"; "x = 1" ]%string) []).
  - vm_compute. repeat constructor; discriminate.
  - reflexivity.
  - reflexivity.
  - vm_compute. repeat constructor.
Defined.

End CodeResponse.

(** ** Removing the file marker *)

Module MarkerFacts.

Lemma startswith_app old rest : Py.startswith (old ++ rest) old = true.
Proof.
  induction old as [|c old IH].
  - apply PyFacts.startswith_nil.
  - rewrite PyFacts.startswith_cons. simpl.
    rewrite N.eqb_refl, IH. reflexivity.
Qed.

Lemma remove_from_skip old pre : forall rest,
  Py.remove_from old (length pre) (pre ++ rest) = Py.remove_from old 0 rest.
Proof.
  induction pre as [|c pre IH]; intros rest; simpl.
  - destruct rest; reflexivity.
  - apply IH.
Qed.

(** An occurrence at the start is removed, and the search goes on behind it. *)
Lemma remove_prefix c old rest :
  Py.remove ((c :: old) ++ rest) (c :: old) = Py.remove rest (c :: old).
Proof.
  unfold Py.remove.
  change (Py.remove_from (c :: old) 0 ((c :: old) ++ rest))
    with (if Py.startswith ((c :: old) ++ rest) (c :: old)
          then Py.remove_from (c :: old) (pred (length (c :: old))) (old ++ rest)
          else c :: Py.remove_from (c :: old) 0 (old ++ rest)).
  rewrite startswith_app. simpl pred. apply remove_from_skip.
Qed.

(** Without an occurrence nothing is removed. *)
Lemma remove_absent c old s :
  Py.contains s (c :: old) = false -> Py.remove s (c :: old) = s.
Proof.
  unfold Py.remove. induction s as [|x s IH]; intros H.
  - reflexivity.
  - cbn [Py.contains] in H. apply orb_false_iff in H. destruct H as [H1 H2].
    cbn [Py.remove_from]. rewrite H1, (IH H2). reflexivity.
Qed.

(** The path of a header line is the text after the marker, trimmed, when
    that text does not contain the marker again. *)
Lemma header_path_after_marker line rest :
  Py.strip line = ClaudeGenerator.FILE_MARKER ++ rest ->
  Py.contains rest ClaudeGenerator.FILE_MARKER = false ->
  header_path line = Py.strip rest.
Proof.
  intros Hl Hr. unfold header_path. rewrite Hl.
  unfold ClaudeGenerator.FILE_MARKER in *.
  rewrite remove_prefix, remove_absent by exact Hr. reflexivity.
Qed.

(** Otherwise every occurrence goes: the header "### File: a### File: b"
    names the path "a b". *)
Lemma header_path_marker_twice :
  header_path (lit "### File: a### File: b") = lit "a b".
Proof. vm_compute. reflexivity. Qed.

End MarkerFacts.

(** ** [_detect_language_from_path] *)

Module Language.
Import ClaudeGenerator.

Lemma str_eqb_eq a : forall b, Py.str_eqb a b = true -> a = b.
Proof.
  induction a as [|x a IH]; intros [|y b] H; simpl in H; try discriminate.
  - reflexivity.
  - apply andb_true_iff in H. destruct H as [H1 H2].
    apply N.eqb_eq in H1. subst y. rewrite (IH b H2). reflexivity.
Qed.

Lemma rfind_from_absent (c : char) (r : str) : forall i last,
  ~ In c r -> Py.rfind_from c r i last = last.
Proof.
  induction r as [|x r IH]; intros i last H; simpl.
  - reflexivity.
  - assert (E : (x =? c)%N = false)
      by (apply N.eqb_neq; intros ->; apply H; left; reflexivity).
    rewrite E. apply IH. intros Hin. apply H. right. exact Hin.
Qed.

(** The last occurrence of [c] in [q ++ c :: r], when [r] has none. *)
Lemma rfind_from_last (c : char) (q r : str) : forall i last,
  ~ In c r ->
  Py.rfind_from c (q ++ c :: r) i last = (i + Z.of_nat (length q))%Z.
Proof.
  induction q as [|x q IH]; intros i last H.
  - simpl. rewrite N.eqb_refl, rfind_from_absent by exact H. lia.
  - cbn [app Py.rfind_from length]. rewrite IH by exact H. lia.
Qed.

(** The extension of a path that ends in a dot and dot-free characters is
    that ending, or empty (a name made of leading dots only). *)
Lemma splitext_suffix (q r : str) :
  ~ In 46%N r ->
  snd (Py.splitext (q ++ 46%N :: r)) = 46%N :: r \/
  snd (Py.splitext (q ++ 46%N :: r)) = [].
Proof.
  intros H. remember (q ++ 46%N :: r) as p eqn:Hp.
  assert (Hd : Py.rfind p 46%N = Z.of_nat (length q)).
  { unfold Py.rfind. rewrite Hp, rfind_from_last by exact H. lia. }
  unfold Py.splitext. cbv zeta. rewrite Hd.
  destruct (_ <? _)%Z; [|right; reflexivity].
  destruct (existsb _ _); [|right; reflexivity].
  left. simpl. rewrite Nat2Z.id, Hp, skipn_app, skipn_all, Nat.sub_diag.
  reflexivity.
Qed.

(** The language "r" is the value of the key ".R" only. *)
Lemma dict_get_r key :
  Py.dict_get extension_map key TEXT = lit "r" -> key = lit ".R".
Proof.
  unfold extension_map, Py.dict_get.
  repeat match goal with
         | |- context [Py.str_eqb ?k key] =>
             destruct (Py.str_eqb k key) eqn:?;
             [ first [ discriminate
                     | intros _; symmetry; apply str_eqb_eq; assumption ] | ]
         end.
  discriminate.
Qed.

Lemma lower_never_dot_R (U : Unicode) (s : str) : lower s <> lit ".R".
Proof.
  intros H. apply (lower_no_capital s 82%N).
  - rewrite H. right. left. reflexivity.
  - lia.
Qed.

(** C10: the lookup consults the table at the lowered extension, so two
    paths whose extensions lower to the same string get the same language,
    and with ASCII extensions that is: extensions equal up to the case of
    their letters.  A path ending in ".R" or in ".r" gets the default "text":
    no path gets "r", since the only key with that value is ".R" and a
    lowered extension is never ".R". *)
Theorem C10_language_lookup (U : Unicode) :
  (forall p, _detect_language_from_path p =
             Py.dict_get extension_map (lower (snd (Py.splitext p))) TEXT)
  /\ (forall p q,
        lower (snd (Py.splitext p)) = lower (snd (Py.splitext q)) ->
        _detect_language_from_path p = _detect_language_from_path q)
  /\ (forall p q,
        forallb is_ascii (snd (Py.splitext p)) = true ->
        forallb is_ascii (snd (Py.splitext q)) = true ->
        map ascii_lower (snd (Py.splitext p)) =
        map ascii_lower (snd (Py.splitext q)) ->
        _detect_language_from_path p = _detect_language_from_path q)
  /\ (forall root,
        _detect_language_from_path (root ++ lit ".R") = lit "text" /\
        _detect_language_from_path (root ++ lit ".r") = lit "text")
  /\ (forall p, lower (snd (Py.splitext p)) <> lit ".R")
  /\ (forall p, _detect_language_from_path p <> lit "r").
Proof.
  split; [reflexivity|].
  split.
  { intros p q H. unfold _detect_language_from_path. cbv zeta.
    rewrite H. reflexivity. }
  split.
  { intros p q Hp Hq H. rewrite !detect_ascii_ext by assumption.
    rewrite H. reflexivity. }
  split.
  { intros root. split.
    - destruct (splitext_suffix root [82%N]) as [E|E].
      + simpl. intros [H|[]]. discriminate H.
      + rewrite detect_ascii_ext; change (lit ".R") with [46%N; 82%N];
          rewrite E; reflexivity.
      + rewrite detect_ascii_ext; change (lit ".R") with [46%N; 82%N];
          rewrite E; reflexivity.
    - destruct (splitext_suffix root [114%N]) as [E|E].
      + simpl. intros [H|[]]. discriminate H.
      + rewrite detect_ascii_ext; change (lit ".r") with [46%N; 114%N];
          rewrite E; reflexivity.
      + rewrite detect_ascii_ext; change (lit ".r") with [46%N; 114%N];
          rewrite E; reflexivity. }
  split.
  { intros p. apply lower_never_dot_R. }
  intros p H. unfold _detect_language_from_path in H. cbv zeta in H.
  apply dict_get_r in H. exact (lower_never_dot_R U _ H).
Qed.

(** C10 on stats.R and stats.r, and on main.PY against main.py. *)
Lemma C10_language_lookup_witness :
  _detect_language_from_path (lit "stats.R") = lit "text"
  /\ _detect_language_from_path (lit "stats.r") = lit "text"
  /\ _detect_language_from_path (lit "main.PY")
     = _detect_language_from_path (lit "main.py")
  /\ _detect_language_from_path (lit "main.py") = lit "python".
Proof.
  destruct (C10_language_lookup ascii_tables) as (_ & _ & H3 & H4 & _).
  split; [exact (proj1 (H4 (lit "stats"))) |].
  split; [exact (proj2 (H4 (lit "stats"))) |].
  split; [apply H3; reflexivity | reflexivity].
Defined.

End Language.

(** ** The harvesters *)

Module HarvestFacts.

Lemma slice_first_two (line : str) : Py.slice line 0 2 = firstn 2 line.
Proof. reflexivity. Qed.

(** Removing the one-character string "." is filtering the dots out. *)
Lemma remove_dot (s : str) :
  Py.remove s DOT = filter (fun c => negb (c =? 46)%N) s.
Proof.
  unfold Py.remove, DOT. induction s as [|c s IH].
  - reflexivity.
  - cbn [Py.remove_from filter]. rewrite PyFacts.startswith_cons.
    rewrite PyFacts.startswith_nil, andb_true_r, N.eqb_sym.
    destruct (c =? 46)%N; simpl; rewrite IH; reflexivity.
Qed.

Lemma startswith_char (line : str) (c : char) :
  Py.startswith line [c] = true <-> starts_with_char c line.
Proof.
  rewrite PyFacts.startswith_cons. unfold starts_with_char.
  destruct line as [|x line].
  - split; [discriminate | intros [rest H]; discriminate H].
  - rewrite PyFacts.startswith_nil, andb_true_r. split.
    + intros H. apply N.eqb_eq in H. subst x. exists line. reflexivity.
    + intros [rest H]. inversion H. apply N.eqb_refl.
Qed.

Lemma str_isdigit_spec (U : Unicode) (s : str) :
  str_isdigit s = true <-> s <> [] /\ Forall (fun c => isdigit c = true) s.
Proof.
  unfold str_isdigit. rewrite andb_true_iff, PyFacts.truthy_nonempty.
  rewrite forallb_forall, Forall_forall. reflexivity.
Qed.

(** The test of the loops is the item form of the specification. *)
Lemma looks_like_item_spec (U : Unicode) (line : str) :
  looks_like_item line = true <-> item_form line.
Proof.
  unfold looks_like_item, item_form, DASH, STAR, BULLET. cbv zeta.
  rewrite !orb_true_iff, !startswith_char, str_isdigit_spec.
  rewrite slice_first_two, remove_dot. tauto.
Qed.

Lemma looks_like_item_false (U : Unicode) (line : str) :
  ~ item_form line -> looks_like_item line = false.
Proof.
  intros H. destruct (looks_like_item line) eqn:E; [|reflexivity].
  apply looks_like_item_spec in E. contradiction.
Qed.

(** What [lstrip(chars)] returns: the line without its longest prefix of
    characters of [chars]. *)
Lemma lstrip_chars_spec (s chars : str) :
  exists pre,
    s = pre ++ Py.lstrip_chars s chars /\
    Forall (fun c => In c chars) pre /\
    (forall c tl, Py.lstrip_chars s chars = c :: tl -> ~ In c chars).
Proof.
  induction s as [|x s (pre & H1 & H2 & H3)].
  - exists []. repeat split; [constructor | discriminate].
  - simpl. destruct (existsb (N.eqb x) chars) eqn:E.
    + exists (x :: pre). repeat split.
      * simpl. rewrite <- H1. reflexivity.
      * constructor; [|exact H2].
        apply existsb_exists in E. destruct E as (y & Hy & Hxy).
        apply N.eqb_eq in Hxy. subst y. exact Hy.
      * exact H3.
    + exists []. repeat split; [constructor|].
      intros c tl Heq Hin. inversion Heq; subst c tl.
      assert (existsb (N.eqb x) chars = true)
        by (apply existsb_exists; exists x; split;
            [exact Hin | apply N.eqb_refl]).
      congruence.
Qed.

(** An occurrence of a string puts its first character in the text. *)
Lemma contains_head (s : str) (c : char) (sub : str) :
  Py.contains s (c :: sub) = true -> In c s.
Proof.
  induction s as [|x s IH]; cbn [Py.contains];
    rewrite PyFacts.startswith_cons.
  - discriminate.
  - intros H. apply orb_true_iff in H. destruct H as [H|H].
    + apply andb_true_iff in H. destruct H as [H _].
      apply N.eqb_eq in H. left. symmetry. exact H.
    + right. apply IH. exact H.
Qed.

Section Scans.
Context {U : Unicode}.

(** A line without alphanumeric character holds no trigger phrase. *)
Lemma no_alnum_no_keyword (line : str) :
  (forall c, In c line -> isalnum c = false) ->
  Pipeline.has_keyword line = false.
Proof.
  intros H. destruct (Pipeline.has_keyword line) eqn:E; [|reflexivity].
  exfalso. unfold Pipeline.has_keyword in E.
  apply existsb_exists in E. destruct E as (kw & Hkw & Hc).
  assert (Hl : exists c, In c (lower line) /\ (97 <= c <= 122)%N).
  { unfold Pipeline.KEYWORDS in Hkw. simpl in Hkw.
    destruct Hkw as [<-|[<-|[<-|[<-|[]]]]];
      apply contains_head in Hc; eexists; (split; [exact Hc | lia]). }
  apply lower_letter_alnum in Hl. destruct Hl as (c & Hin & Hal).
  rewrite (H c Hin) in Hal. discriminate.
Qed.

(** Nor does it pass the digit test. *)
Lemma no_alnum_no_digits (line : str) :
  (forall c, In c line -> isalnum c = false) ->
  str_isdigit (Py.remove (Py.slice line 0 2) DOT) = false.
Proof.
  intros H. destruct (str_isdigit _) eqn:E; [|reflexivity].
  exfalso. apply str_isdigit_spec in E.
  rewrite slice_first_two, remove_dot in E. destruct E as [Hne Hall].
  match type of Hne with
  | ?d <> [] => remember d as digits eqn:Ef
  end.
  destruct digits as [|d ds]; [apply Hne; reflexivity|].
  assert (Hin : In d (d :: ds)) by (left; reflexivity).
  rewrite Ef in Hin. apply filter_In in Hin. destruct Hin as [Hin _].
  apply PyFacts.in_firstn in Hin.
  inversion Hall as [|? ? Hd _]; subst.
  apply isdigit_isalnum in Hd. rewrite (H d Hin) in Hd. discriminate.
Qed.

(** Each harvester returns at most one item per item line. *)
Lemma acceptance_scan_length lines : forall b acc,
  length (ConfluenceClient.scan lines b acc) <=
  length acc + length (filter item_line lines).
Proof.
  induction lines as [|raw lines IH]; intros b acc.
  - simpl. lia.
  - cbn [ConfluenceClient.scan filter]. cbv zeta.
    unfold item_line at 1, looks_like_item.
    destruct (Py.contains _ _).
    { specialize (IH true acc). destruct (_ || _); simpl; lia. }
    destruct b.
    + destruct (Py.startswith _ ConfluenceClient.HASH
                || Py.startswith _ ConfluenceClient.BOLD).
      { destruct (_ || _); simpl; lia. }
      destruct (_ || _).
      * specialize (IH true (acc ++ [Py.lstrip_chars (Py.strip raw) STRIP_CHARS])).
        rewrite length_app in IH. simpl in *. lia.
      * apply IH.
    + specialize (IH false acc). destruct (_ || _); simpl; lia.
Qed.

Lemma requirements_scan_length lines : forall b acc,
  length (Pipeline.scan lines b acc) <=
  length acc + length (filter item_line lines).
Proof.
  induction lines as [|raw lines IH]; intros b acc.
  - simpl. lia.
  - cbn [Pipeline.scan filter]. cbv zeta.
    unfold item_line at 1, looks_like_item.
    destruct (Pipeline.has_keyword _).
    { specialize (IH true acc). destruct (_ || _); simpl; lia. }
    destruct b.
    + destruct (_ || _).
      * specialize (IH true (acc ++ [Py.lstrip_chars (Py.strip raw) STRIP_CHARS])).
        rewrite length_app in IH. simpl in *. lia.
      * destruct (_ && _); [lia | apply IH].
    + specialize (IH false acc). destruct (_ || _); simpl; lia.
Qed.

(** Without a trigger line the zone never opens. *)
Lemma acceptance_scan_closed lines : forall acc,
  Forall (fun raw => Py.contains (lower (Py.strip raw))
                       ConfluenceClient.ACCEPTANCE_CRITERIA = false) lines ->
  ConfluenceClient.scan lines false acc = acc.
Proof.
  induction lines as [|raw lines IH]; intros acc H.
  - reflexivity.
  - inversion H as [|? ? H1 H2]; subst.
    cbn [ConfluenceClient.scan]. cbv zeta. rewrite H1. apply IH, H2.
Qed.

Lemma requirements_scan_closed lines : forall acc,
  Forall (fun raw => Pipeline.has_keyword (Py.strip raw) = false) lines ->
  Pipeline.scan lines false acc = acc.
Proof.
  induction lines as [|raw lines IH]; intros acc H.
  - reflexivity.
  - inversion H as [|? ? H1 H2]; subst.
    cbn [Pipeline.scan]. cbv zeta. rewrite H1. apply IH, H2.
Qed.

End Scans.
End HarvestFacts.

Module Harvest.
Import HarvestFacts.

(** C4, as the specification states it, fails.  In the requirements
    variant a line of the zone that starts with '-' but holds the word "must"
    is taken for a trigger line and gives no item; in the acceptance-criteria
    variant a line of the zone that starts with '*' because it starts with
    "**" ends the scan, and neither it nor the bullet after it gives an item.
    A line whose first two characters are dots gives no item: without the
    dots nothing is left, and the empty string is not a string of digits. *)
Lemma C4_harvest_counterexample :
  (Py.startswith (Py.strip (lit "- The user must log in")) DASH = true
   /\ Pipeline.scan [ lit "- The user must log in" ] true [] = []
   /\ Pipeline._extract_requirements_from_content
        (Inputs.text [ "Requirements:"; "- The user must log in";
                       "- Passwords are hashed" ]%string)
      = [ lit "Passwords are hashed" ])
  /\ (Py.startswith (Py.strip (lit "**Done** when merged")) STAR = true
      /\ ConfluenceClient._extract_acceptance_criteria
           (Inputs.text [ "Acceptance criteria:"; "**Done** when merged";
                          "- reviewed" ]%string)
         = [])
  /\ (Py.remove (Py.slice (lit ".. and so on") 0 2) DOT = []
      /\ ConfluenceClient.scan [ lit ".. and so on" ] true [] = []
      /\ Pipeline.scan [ lit ".. and so on" ] true [] = []).
Proof. repeat split; vm_compute; reflexivity. Qed.

(** C4 (amended): inside the zone, a line whose trimmed form holds no
    trigger phrase of the variant and, in the acceptance-criteria variant,
    starts neither with '#' nor with "**", yields an item exactly when its
    trimmed form starts with '-', '*' or the bullet glyph, or its first two
    characters without the dots are digits, at least one.  The item is the
    trimmed line without its longest prefix of the characters
    '-', ' ', '*', the bullet glyph, '0'..'9' and '.'.  A line of neither form
    yields nothing and the scan goes on, except that in the requirements
    variant a non-empty line without alphanumeric character ends it. *)
Theorem C4_harvest (U : Unicode) (raw : str) (rest acc : list str) :
  let line := Py.strip raw in
  let item := Py.lstrip_chars line STRIP_CHARS in
  (looks_like_item line = true <-> item_form line)
  /\ (Py.contains (lower line) ConfluenceClient.ACCEPTANCE_CRITERIA = false ->
      Py.startswith line ConfluenceClient.HASH = false ->
      Py.startswith line ConfluenceClient.BOLD = false ->
      (item_form line ->
       ConfluenceClient.scan (raw :: rest) true acc =
       ConfluenceClient.scan rest true (acc ++ [item]))
      /\ (~ item_form line ->
          ConfluenceClient.scan (raw :: rest) true acc =
          ConfluenceClient.scan rest true acc))
  /\ (Pipeline.has_keyword line = false ->
      (item_form line ->
       Pipeline.scan (raw :: rest) true acc =
       Pipeline.scan rest true (acc ++ [item]))
      /\ (~ item_form line ->
          Pipeline.scan (raw :: rest) true acc =
          if Py.truthy line && negb (existsb isalnum line) then acc
          else Pipeline.scan rest true acc))
  /\ (exists stripped,
        line = stripped ++ item /\
        Forall (fun c => In c STRIP_CHARS) stripped /\
        (forall c tl, item = c :: tl -> ~ In c STRIP_CHARS)).
Proof.
  intros line item. split; [apply looks_like_item_spec|].
  split; [|split].
  - intros Ht Hh Hb. split; intros Hi.
    + apply looks_like_item_spec in Hi. unfold looks_like_item in Hi.
      cbn [ConfluenceClient.scan]. cbv zeta. fold line.
      rewrite Ht, Hh, Hb, Hi. reflexivity.
    + apply looks_like_item_false in Hi. unfold looks_like_item in Hi.
      cbn [ConfluenceClient.scan]. cbv zeta. fold line.
      rewrite Ht, Hh, Hb, Hi. reflexivity.
  - intros Ht. split; intros Hi.
    + apply looks_like_item_spec in Hi. unfold looks_like_item in Hi.
      cbn [Pipeline.scan]. cbv zeta. fold line.
      rewrite Ht, Hi. reflexivity.
    + apply looks_like_item_false in Hi. unfold looks_like_item in Hi.
      cbn [Pipeline.scan]. cbv zeta. fold line.
      rewrite Ht, Hi. reflexivity.
  - apply lstrip_chars_spec.
Qed.

(** C4 on a numbered line of the acceptance-criteria zone and on a line of
    commentary of the requirements zone. *)
Lemma C4_harvest_witness :
  ConfluenceClient.scan [ lit "  12. Export works" ] true [ lit "first" ]
  = [ lit "first"; lit "Export works" ]
  /\ Pipeline.scan [ lit "see the notes below"; lit "* second" ] true []
     = [ lit "second" ].
Proof.
  split.
  - destruct (C4_harvest ascii_tables (lit "  12. Export works") []
                [ lit "first" ]) as (_ & H & _).
    specialize (H eq_refl eq_refl eq_refl). destruct H as [H _].
    refine (H _).
    right. right. right. vm_compute. split; [discriminate|].
    repeat constructor.
  - destruct (C4_harvest ascii_tables (lit "see the notes below")
                [ lit "* second" ] []) as (_ & _ & H & _).
    specialize (H eq_refl). destruct H as [_ H].
    refine (H _).
    intros [[r Hr]|[[r Hr]|[[r Hr]|[_ Hd]]]];
      try discriminate Hr.
    vm_compute in Hd. inversion Hd as [|? ? Hc _]. discriminate Hc.
Defined.

(** C5, as the specification states it, fails: the line "---" of the zone
    is not empty and has no alphanumeric character, yet the scan goes on.
    The line itself yields the empty item and the bullet after it is
    collected.  A line of blanks, which is empty once trimmed, does not end
    the scan either. *)
Lemma C5_separator_counterexample :
  (Py.truthy (Py.strip (lit "---")) = true
   /\ existsb isalnum (Py.strip (lit "---")) = false
   /\ Pipeline._extract_requirements_from_content
        (Inputs.text [ "Requirements:"; "- first"; "---"; "- second" ]%string)
      = [ lit "first"; []; lit "second" ])
  /\ (Py.truthy (lit "   ") = true
      /\ existsb isalnum (lit "   ") = false
      /\ Pipeline._extract_requirements_from_content
           (Inputs.text [ "Requirements:"; "- first"; "   "; "- second" ]%string)
         = [ lit "first"; lit "second" ]).
Proof. repeat split; vm_compute; reflexivity. Qed.

(** C5 (amended): in the requirements variant, a line met inside the zone
    whose trimmed form is not empty, has no alphanumeric character and starts
    neither with '-' nor with '*' nor with the bullet glyph ends the scan: the
    result is the list collected so far, whatever follows. *)
Theorem C5_separator_stops (U : Unicode) (raw : str) (rest acc : list str) :
  let line := Py.strip raw in
  line <> [] ->
  (forall c, In c line -> isalnum c = false) ->
  Py.startswith line DASH = false ->
  Py.startswith line STAR = false ->
  Py.startswith line BULLET = false ->
  Pipeline.scan (raw :: rest) true acc = acc.
Proof.
  intros line Hne Hal Hd Hs Hb.
  cbn [Pipeline.scan]. cbv zeta. fold line.
  rewrite (no_alnum_no_keyword line Hal), Hd, Hs, Hb.
  rewrite (no_alnum_no_digits line Hal). simpl.
  apply PyFacts.truthy_nonempty in Hne. rewrite Hne.
  assert (E : existsb isalnum line = false).
  { destruct (existsb isalnum line) eqn:E; [|reflexivity].
    apply existsb_exists in E. destruct E as (c & Hin & Hc).
    rewrite (Hal c Hin) in Hc. discriminate. }
  rewrite E. reflexivity.
Qed.

Lemma C5_separator_stops_witness :
  Pipeline.scan [ lit "  ===  "; lit "- second" ] true [ lit "first" ]
  = [ lit "first" ].
Proof.
  apply (C5_separator_stops ascii_tables (lit "  ===  ") [ lit "- second" ]
           [ lit "first" ]).
  - vm_compute. discriminate.
  - vm_compute. intros c [<-|[<-|[<-|[]]]]; reflexivity.
  - reflexivity.
  - reflexivity.
  - reflexivity.
Defined.

End Harvest.

(** * Further properties of the code *)

(** ** Trimming *)

Module StripFacts.

Lemma lstrip_suffix s : exists w, s = w ++ Py.lstrip s.
Proof.
  induction s as [|c s [w IH]]; simpl.
  - exists []. reflexivity.
  - destruct (Py.isspace c).
    + exists (c :: w). simpl. rewrite <- IH. reflexivity.
    + exists []. reflexivity.
Qed.

(** What [lstrip] returns does not start with a blank. *)
Lemma lstrip_head s c t : Py.lstrip s = c :: t -> Py.isspace c = false.
Proof.
  induction s as [|x s IH]; simpl; [discriminate|].
  destruct (Py.isspace x) eqn:E; [exact IH|].
  intros H. inversion H; subst. exact E.
Qed.

Lemma lstrip_fixed s :
  (forall c t, s = c :: t -> Py.isspace c = false) -> Py.lstrip s = s.
Proof.
  destruct s as [|c t]; intros H; simpl; [reflexivity|].
  rewrite (H c t eq_refl). reflexivity.
Qed.

Lemma lstrip_idem s : Py.lstrip (Py.lstrip s) = Py.lstrip s.
Proof.
  apply lstrip_fixed. intros c t H. exact (lstrip_head _ _ _ H).
Qed.

Lemma rstrip_prefix s : exists w, s = Py.rstrip s ++ w.
Proof.
  unfold Py.rstrip. destruct (lstrip_suffix (rev s)) as [w H].
  exists (rev w). rewrite <- rev_app_distr, <- H, rev_involutive. reflexivity.
Qed.

Lemma rstrip_idem s : Py.rstrip (Py.rstrip s) = Py.rstrip s.
Proof.
  unfold Py.rstrip. rewrite rev_involutive, lstrip_idem. reflexivity.
Qed.

(** Trimming what is trimmed changes nothing. *)
Lemma strip_idem s : Py.strip (Py.strip s) = Py.strip s.
Proof.
  unfold Py.strip.
  assert (H : Py.lstrip (Py.rstrip (Py.lstrip s)) = Py.rstrip (Py.lstrip s)).
  { apply lstrip_fixed. intros c t E.
    destruct (rstrip_prefix (Py.lstrip s)) as [w Hw].
    rewrite E in Hw. simpl in Hw. exact (lstrip_head _ _ _ Hw). }
  rewrite H. apply rstrip_idem.
Qed.

Lemma in_lstrip c s : In c (Py.lstrip s) -> In c s.
Proof.
  destruct (lstrip_suffix s) as [w H]. intros Hin.
  rewrite H. apply in_or_app. right. exact Hin.
Qed.

Lemma in_rstrip c s : In c (Py.rstrip s) -> In c s.
Proof.
  destruct (rstrip_prefix s) as [w H]. intros Hin.
  rewrite H. apply in_or_app. left. exact Hin.
Qed.

(** Trimming adds no character. *)
Lemma in_strip c s : In c (Py.strip s) -> In c s.
Proof. unfold Py.strip. intros H. apply in_lstrip, in_rstrip, H. Qed.

Lemma in_remove_from c old s : forall k,
  In c (Py.remove_from old k s) -> In c s.
Proof.
  induction s as [|x s IH]; intros k H; simpl in H; [contradiction|].
  destruct k as [|k].
  - destruct (Py.startswith (x :: s) old).
    + right. exact (IH _ H).
    + destruct H as [H|H]; [left; exact H | right; exact (IH _ H)].
  - right. exact (IH _ H).
Qed.

(** Nor does removing a substring. *)
Lemma in_remove c old s : In c (Py.remove s old) -> In c s.
Proof. apply in_remove_from. Qed.

(** The lines of a text hold no newline. *)
Lemma split_lines_no_newline s :
  Forall (fun l => ~ In 10%N l) (Py.split_lines s).
Proof.
  induction s as [|c s IH]; simpl.
  - constructor; [intros [] | constructor].
  - destruct (c =? 10)%N eqn:E.
    + constructor; [intros [] | exact IH].
    + destruct (Py.split_lines s) as [|l ls]; inversion IH; subst.
      * constructor; [|constructor]. intros [H|[]]. subst c. discriminate E.
      * constructor; [|assumption].
        intros [H|H]; [subst c; discriminate E | contradiction].
Qed.

End StripFacts.

(** ** What every result of [_parse_code_response] satisfies *)

Module CodeInvariants.
Import ClaudeGenerator ClaudeGenerator.ParseCode CodeLines CodeState.

Section Invariant.
Context {U : Unicode}.

Lemma header_path_trimmed line :
  ~ In 10%N line ->
  Py.strip (header_path line) = header_path line /\ ~ In 10%N (header_path line).
Proof.
  intros Hnl. unfold header_path. split; [apply StripFacts.strip_idem|].
  intros H. apply Hnl.
  apply StripFacts.in_strip, StripFacts.in_remove, StripFacts.in_strip in H.
  exact H.
Qed.

Lemma save_previous_good lines st :
  good_state lines st ->
  Forall well_formed_file (files (save_previous st))
  /\ Forall (well_formed_dependency lines) (dependencies (save_previous st)).
Proof.
  intros (Hf & Hd & Hc & Hb). unfold save_previous.
  destruct (current_file st) as [p|] eqn:Ep; [|split; assumption].
  destruct (Py.truthy p) eqn:Et; [|split; assumption].
  split; [|exact Hd]. simpl. apply Forall_app. split; [exact Hf|].
  constructor; [|constructor].
  destruct (Hc p eq_refl) as [Hs Hn].
  unfold well_formed_file, artifact. simpl.
  split; [apply PyFacts.truthy_nonempty; exact Et|].
  split; [exact Hs|]. split; [exact Hn|]. split; [reflexivity|].
  exists (current_content st). split; [reflexivity | exact Hb].
Qed.

(** One step of the loop keeps the state good. *)
Lemma step_good lines st line :
  good_state lines st -> In line lines -> ~ In 10%N line ->
  good_state lines (step st line).
Proof.
  intros Hg Hin Hnl. pose proof Hg as (Hf & Hd & Hc & Hb).
  unfold step. cbv zeta.
  destruct (Py.startswith (Py.strip line) H_ANALYSIS); [exact Hg|].
  destruct (Py.startswith (Py.strip line) H_FILES); [exact Hg|].
  destruct (Py.startswith (Py.strip line) H_NOTES); [exact Hg|].
  destruct (Py.startswith (Py.strip line) H_DEPENDENCIES); [exact Hg|].
  destruct (in_section (current_section st) s_files
            && Py.startswith (Py.strip line) FILE_MARKER).
  - destruct (save_previous_good lines st Hg) as [Hf' Hd'].
    unfold good_state. simpl.
    split; [exact Hf'|]. split; [exact Hd'|]. split; [|constructor].
    intros p Hp. inversion Hp; subst. apply header_path_trimmed, Hnl.
  - destruct (in_section (current_section st) s_files
              && is_set (current_file st)).
    + destruct (Py.startswith (Py.strip line) FENCE) eqn:EF.
      * destruct (length (current_content st)); exact Hg.
      * unfold good_state. simpl.
        split; [exact Hf|]. split; [exact Hd|]. split; [exact Hc|].
        apply Forall_app. split; [exact Hb|].
        constructor; [split; [exact EF | exact Hnl] | constructor].
    + destruct (current_section st) as [[]|];
        try exact Hg;
        try (unfold good_state; simpl; repeat split; assumption).
      destruct (Py.truthy (Py.strip line)
                && negb (Py.startswith (Py.strip line) HASH)) eqn:Ed;
        [|exact Hg].
      apply andb_true_iff in Ed. destruct Ed as [Et Eh].
      unfold good_state. simpl.
      split; [exact Hf|]. split; [|split; [exact Hc | exact Hb]].
      apply Forall_app. split; [exact Hd|].
      constructor; [|constructor].
      unfold well_formed_dependency.
      split; [apply PyFacts.truthy_nonempty; exact Et|].
      split; [apply StripFacts.strip_idem|].
      split; [destruct (Py.startswith (Py.strip line) HASH);
              [discriminate Eh | reflexivity]|].
      apply in_map. exact Hin.
Qed.

Lemma run_good lines ls : forall st,
  good_state lines st ->
  (forall l, In l ls -> In l lines /\ ~ In 10%N l) ->
  good_state lines (run ls st).
Proof.
  induction ls as [|l ls IH]; intros st Hg Hl; [exact Hg|].
  simpl. apply IH.
  - destruct (Hl l (or_introl eq_refl)) as [H1 H2].
    apply step_good; assumption.
  - intros x Hx. apply Hl. right. exact Hx.
Qed.

Lemma finish_good lines st :
  good_state lines st ->
  Forall well_formed_file (files (finish st))
  /\ Forall (well_formed_dependency lines) (dependencies (finish st)).
Proof.
  intros Hg. pose proof Hg as (Hf & Hd & Hc & Hb). unfold finish.
  destruct (current_file st) as [p|] eqn:Ep; [|split; assumption].
  destruct (Py.truthy p && Py.truthy (current_content st)) eqn:Et;
    [|split; assumption].
  apply andb_true_iff in Et. destruct Et as [Et _].
  split; [|exact Hd]. simpl. apply Forall_app. split; [exact Hf|].
  constructor; [|constructor].
  destruct (Hc p eq_refl) as [Hs Hn].
  unfold well_formed_file, artifact. simpl.
  split; [apply PyFacts.truthy_nonempty; exact Et|].
  split; [exact Hs|]. split; [exact Hn|]. split; [reflexivity|].
  exists (current_content st). split; [reflexivity | exact Hb].
Qed.

Lemma init_good lines task_data : good_state lines (init task_data).
Proof.
  unfold good_state, init. simpl.
  repeat split; try constructor; discriminate.
Qed.

Lemma parse_good s task_data :
  Forall well_formed_file (files (_parse_code_response s task_data))
  /\ Forall (well_formed_dependency (Py.split_lines s))
            (dependencies (_parse_code_response s task_data)).
Proof.
  unfold _parse_code_response. apply finish_good, run_good.
  - apply init_good.
  - intros l Hl. split; [exact Hl|].
    pose proof (StripFacts.split_lines_no_newline s) as H.
    rewrite Forall_forall in H. exact (H l Hl).
Qed.

End Invariant.
End CodeInvariants.

(** ** What every result of [_parse_test_response] satisfies *)

Module TestInvariants.
Import ClaudeGenerator ClaudeGenerator.ParseTest TestLines TestState.

Section Invariant.
Context {U : Unicode}.

Lemma t_header_path_trimmed line :
  ~ In 10%N line ->
  Py.strip (header_path line) = header_path line /\ ~ In 10%N (header_path line).
Proof.
  intros Hnl. unfold header_path. split; [apply StripFacts.strip_idem|].
  intros H. apply Hnl.
  apply StripFacts.in_strip, StripFacts.in_remove, StripFacts.in_strip in H.
  exact H.
Qed.

Lemma t_save_previous_good lines st :
  good_state lines st ->
  Forall well_formed_file (test_files (save_previous st))
  /\ Forall (well_formed_dependency lines) (dependencies (save_previous st)).
Proof.
  intros (Hf & Hd & Hc & Hb). unfold save_previous.
  destruct (current_file st) as [p|] eqn:Ep; [|split; assumption].
  destruct (Py.truthy p) eqn:Et; [|split; assumption].
  split; [|exact Hd]. simpl. apply Forall_app. split; [exact Hf|].
  constructor; [|constructor].
  destruct (Hc p eq_refl) as [Hs Hn].
  unfold well_formed_file, artifact. simpl.
  split; [apply PyFacts.truthy_nonempty; exact Et|].
  split; [exact Hs|]. split; [exact Hn|]. split; [reflexivity|].
  exists (current_content st). split; [reflexivity | exact Hb].
Qed.

Lemma t_step_good lines st line :
  good_state lines st -> In line lines -> ~ In 10%N line ->
  good_state lines (step st line).
Proof.
  intros Hg Hin Hnl. pose proof Hg as (Hf & Hd & Hc & Hb).
  unfold step. cbv zeta.
  destruct (Py.startswith (Py.strip line) H_STRATEGY); [exact Hg|].
  destruct (Py.startswith (Py.strip line) H_FILES); [exact Hg|].
  destruct (Py.startswith (Py.strip line) H_DEPENDENCIES); [exact Hg|].
  destruct (Py.startswith (Py.strip line) H_RUNNING); [exact Hg|].
  destruct (in_section (current_section st) s_files
            && Py.startswith (Py.strip line) FILE_MARKER).
  - destruct (t_save_previous_good lines st Hg) as [Hf' Hd'].
    unfold good_state. simpl.
    split; [exact Hf'|]. split; [exact Hd'|]. split; [|constructor].
    intros p Hp. inversion Hp; subst. apply t_header_path_trimmed, Hnl.
  - destruct (in_section (current_section st) s_files
              && is_set (current_file st)).
    + destruct (Py.startswith (Py.strip line) FENCE) eqn:EF.
      * destruct (length (current_content st)); exact Hg.
      * unfold good_state. simpl.
        split; [exact Hf|]. split; [exact Hd|]. split; [exact Hc|].
        apply Forall_app. split; [exact Hb|].
        constructor; [split; [exact EF | exact Hnl] | constructor].
    + destruct (current_section st) as [[]|];
        try exact Hg;
        try (unfold good_state; simpl; repeat split; assumption).
      destruct (Py.truthy (Py.strip line)
                && negb (Py.startswith (Py.strip line) HASH)) eqn:Ed;
        [|exact Hg].
      apply andb_true_iff in Ed. destruct Ed as [Et Eh].
      unfold good_state. simpl.
      split; [exact Hf|]. split; [|split; [exact Hc | exact Hb]].
      apply Forall_app. split; [exact Hd|].
      constructor; [|constructor].
      unfold well_formed_dependency.
      split; [apply PyFacts.truthy_nonempty; exact Et|].
      split; [apply StripFacts.strip_idem|].
      split; [destruct (Py.startswith (Py.strip line) HASH);
              [discriminate Eh | reflexivity]|].
      apply in_map. exact Hin.
Qed.

Lemma t_run_good lines ls : forall st,
  good_state lines st ->
  (forall l, In l ls -> In l lines /\ ~ In 10%N l) ->
  good_state lines (run ls st).
Proof.
  induction ls as [|l ls IH]; intros st Hg Hl; [exact Hg|].
  simpl. apply IH.
  - destruct (Hl l (or_introl eq_refl)) as [H1 H2].
    apply t_step_good; assumption.
  - intros x Hx. apply Hl. right. exact Hx.
Qed.

Lemma t_finish_good lines st :
  good_state lines st ->
  Forall well_formed_file (test_files (finish st))
  /\ Forall (well_formed_dependency lines) (dependencies (finish st)).
Proof.
  intros Hg. pose proof Hg as (Hf & Hd & Hc & Hb). unfold finish.
  destruct (current_file st) as [p|] eqn:Ep; [|split; assumption].
  destruct (Py.truthy p && Py.truthy (current_content st)) eqn:Et;
    [|split; assumption].
  apply andb_true_iff in Et. destruct Et as [Et _].
  split; [|exact Hd]. simpl. apply Forall_app. split; [exact Hf|].
  constructor; [|constructor].
  destruct (Hc p eq_refl) as [Hs Hn].
  unfold well_formed_file, artifact. simpl.
  split; [apply PyFacts.truthy_nonempty; exact Et|].
  split; [exact Hs|]. split; [exact Hn|]. split; [reflexivity|].
  exists (current_content st). split; [reflexivity | exact Hb].
Qed.

Lemma t_init_good lines : good_state lines init.
Proof.
  unfold good_state, init. simpl.
  repeat split; try constructor; discriminate.
Qed.

Lemma t_parse_good s :
  Forall well_formed_file (test_files (_parse_test_response s))
  /\ Forall (well_formed_dependency (Py.split_lines s))
            (dependencies (_parse_test_response s)).
Proof.
  unfold _parse_test_response. apply t_finish_good, t_run_good.
  - apply t_init_good.
  - intros l Hl. split; [exact Hl|].
    pose proof (StripFacts.split_lines_no_newline s) as H.
    rewrite Forall_forall in H. exact (H l Hl).
Qed.

End Invariant.
End TestInvariants.
(** ** Files, dependencies and prose of the two parsers *)

Module ParserResults.
Import ClaudeGenerator.

(** X1: whatever the input, every file of the result of
    [_parse_code_response] and of [_parse_test_response] has a path that is
    not empty, has no blank at either end and no newline, has the language
    looked up from that path, and has as content the newline-join of lines
    none of which is a fence line. *)
Theorem X1_files_well_formed (U : Unicode) (s : str)
  (task_data : list (str * str)) :
  Forall well_formed_file
         (ParseCode.files (ParseCode._parse_code_response s task_data))
  /\ Forall well_formed_file
            (ParseTest.test_files (ParseTest._parse_test_response s)).
Proof.
  split.
  - apply CodeInvariants.parse_good.
  - apply TestInvariants.t_parse_good.
Qed.

(** X2: whatever the input, every dependency of the result of either
    parser is the trimmed form of a line of the input, is not empty and does
    not start with '#'. *)
Theorem X2_dependencies_well_formed (U : Unicode) (s : str)
  (task_data : list (str * str)) :
  Forall (well_formed_dependency (Py.split_lines s))
         (ParseCode.dependencies (ParseCode._parse_code_response s task_data))
  /\ Forall (well_formed_dependency (Py.split_lines s))
            (ParseTest.dependencies (ParseTest._parse_test_response s)).
Proof.
  split.
  - apply CodeInvariants.parse_good.
  - apply TestInvariants.t_parse_good.
Qed.

(** The prose of the lines of a text is the text and a newline. *)
Lemma prose_split_lines s : prose (Py.split_lines s) = s ++ NEWLINE.
Proof.
  unfold prose, NEWLINE. induction s as [|c s IH]; simpl.
  - reflexivity.
  - pose proof (PyFacts.split_lines_nonempty s) as Hne.
    destruct (c =? 10)%N eqn:E.
    + apply N.eqb_eq in E. subst c. simpl. rewrite IH. reflexivity.
    + destruct (Py.split_lines s) as [|l ls]; [contradiction|].
      simpl in *. rewrite <- IH. reflexivity.
Qed.

Lemma prose_app a b : prose (a ++ b) = prose a ++ prose b.
Proof. unfold prose. rewrite map_app, concat_app. reflexivity. Qed.

Section Prose.
Context {U : Unicode}.
Import ParseCode CodeLines.

Lemma step_analysis st l :
  current_section st = Some s_analysis ->
  is_section_header l = false ->
  step st l =
  mk_state (add_analysis (res st) (l ++ NEWLINE)) (current_section st)
           (current_file st) (current_content st).
Proof.
  intros Hs Hl. apply CodeFacts.not_header_inv in Hl.
  destruct Hl as (H1 & H2 & H3 & H4).
  unfold step. cbv zeta. rewrite H1, H2, H3, H4, Hs. reflexivity.
Qed.

Lemma step_notes st l :
  current_section st = Some s_notes ->
  is_section_header l = false ->
  step st l =
  mk_state (add_notes (res st) (l ++ NEWLINE)) (current_section st)
           (current_file st) (current_content st).
Proof.
  intros Hs Hl. apply CodeFacts.not_header_inv in Hl.
  destruct Hl as (H1 & H2 & H3 & H4).
  unfold step. cbv zeta. rewrite H1, H2, H3, H4, Hs. reflexivity.
Qed.

(** In the Analysis section every line that is no section header goes to
    the analysis, with a newline; nothing else changes. *)
Lemma run_analysis body : forall st,
  current_section st = Some s_analysis ->
  Forall (fun l => is_section_header l = false) body ->
  run body st =
  mk_state (add_analysis (res st) (prose body)) (current_section st)
           (current_file st) (current_content st).
Proof.
  induction body as [|l body IH]; intros st Hs Hb.
  - destruct st as [[k f a n d] cs cf cc].
    unfold prose, add_analysis. simpl.
    rewrite app_nil_r. reflexivity.
  - inversion Hb as [|? ? Hl Hb']; subst.
    change (run (l :: body) st) with (run body (step st l)).
    rewrite (step_analysis st l Hs Hl).
    rewrite IH by (simpl; assumption).
    unfold add_analysis, prose. simpl. rewrite <- !app_assoc. reflexivity.
Qed.

Lemma run_notes body : forall st,
  current_section st = Some s_notes ->
  Forall (fun l => is_section_header l = false) body ->
  run body st =
  mk_state (add_notes (res st) (prose body)) (current_section st)
           (current_file st) (current_content st).
Proof.
  induction body as [|l body IH]; intros st Hs Hb.
  - destruct st as [[k f a n d] cs cf cc].
    unfold prose, add_notes. simpl.
    rewrite app_nil_r. reflexivity.
  - inversion Hb as [|? ? Hl Hb']; subst.
    change (run (l :: body) st) with (run body (step st l)).
    rewrite (step_notes st l Hs Hl).
    rewrite IH by (simpl; assumption).
    unfold add_notes, prose. simpl. rewrite <- !app_assoc. reflexivity.
Qed.

End Prose.
End ParserResults.

(** ** Section headers of the code response *)

Module CodeSections.
Import ClaudeGenerator ClaudeGenerator.ParseCode CodeLines.

(** A string that starts with [p] has the characters of [p] at their
    places. *)
Lemma startswith_nth p : forall s n a,
  Py.startswith s p = true -> nth_error p n = Some a -> nth_error s n = Some a.
Proof.
  induction p as [|x p IH]; intros s n a H Hn.
  - destruct n; discriminate Hn.
  - rewrite PyFacts.startswith_cons in H. destruct s as [|y s]; [discriminate H|].
    apply andb_true_iff in H. destruct H as [H1 H2].
    apply N.eqb_eq in H1. subst y.
    destruct n as [|n]; simpl in *; [exact Hn | exact (IH s n a H2 Hn)].
Qed.

(** Two prefixes that differ at some place exclude each other. *)
Lemma startswith_exclusive s p q n a b :
  Py.startswith s p = true ->
  nth_error p n = Some a -> nth_error q n = Some b -> a <> b ->
  Py.startswith s q = false.
Proof.
  intros Hp Ha Hb Hab. destruct (Py.startswith s q) eqn:Hq; [|reflexivity].
  pose proof (startswith_nth p s n a Hp Ha) as H1.
  pose proof (startswith_nth q s n b Hq Hb) as H2.
  congruence.
Qed.

Section Steps.
Context {U : Unicode}.

Lemma step_opens_analysis st h :
  Py.startswith (Py.strip h) H_ANALYSIS = true ->
  step st h = set_section st s_analysis.
Proof. intros H. unfold step. cbv zeta. rewrite H. reflexivity. Qed.

Lemma step_opens_files st h :
  Py.startswith (Py.strip h) H_FILES = true ->
  step st h = set_section st s_files.
Proof.
  intros H. unfold step. cbv zeta.
  rewrite (startswith_exclusive _ H_FILES H_ANALYSIS 3 70%N 65%N H)
    by (reflexivity || discriminate).
  rewrite H. reflexivity.
Qed.

Lemma step_opens_notes st h :
  Py.startswith (Py.strip h) H_NOTES = true ->
  step st h = set_section st s_notes.
Proof.
  intros H. unfold step. cbv zeta.
  rewrite (startswith_exclusive _ H_NOTES H_ANALYSIS 3 73%N 65%N H)
    by (reflexivity || discriminate).
  rewrite (startswith_exclusive _ H_NOTES H_FILES 3 73%N 70%N H)
    by (reflexivity || discriminate).
  rewrite H. reflexivity.
Qed.

End Steps.

Lemma no_newline_forall (l : str) :
  ~ In 10%N l -> Forall (fun c => c <> 10%N) l.
Proof.
  intros H. apply Forall_forall. intros c Hc E. subst c. exact (H Hc).
Qed.

(** X3: a response made of an Analysis header line and a text none of
    whose lines is a section header has that text, followed by a newline, as
    its analysis, and nothing else: no file, no notes, no dependency.  The
    same holds for the Implementation Notes header and the notes. *)
Theorem X3_prose_round_trip (U : Unicode) (h text : str)
  (task_data : list (str * str)) :
  ~ In 10%N h ->
  Forall (fun l => is_section_header l = false) (Py.split_lines text) ->
  (Py.startswith (Py.strip h) H_ANALYSIS = true ->
   _parse_code_response (h ++ 10%N :: text) task_data =
   mk_result (Py.dict_get task_data KEY UNKNOWN) [] (text ++ NEWLINE) [] [])
  /\ (Py.startswith (Py.strip h) H_NOTES = true ->
      _parse_code_response (h ++ 10%N :: text) task_data =
      mk_result (Py.dict_get task_data KEY UNKNOWN) [] [] (text ++ NEWLINE) []).
Proof.
  intros Hh Ht.
  assert (Hl : Py.split_lines (h ++ 10%N :: text) = h :: Py.split_lines text).
  { rewrite PyFacts.split_lines_app,
      (PyFacts.split_lines_one h (no_newline_forall h Hh)). reflexivity. }
  split; intros Hs; unfold _parse_code_response; rewrite Hl;
    change (run (h :: Py.split_lines text) (init task_data))
      with (run (Py.split_lines text) (step (init task_data) h)).
  - rewrite (step_opens_analysis _ h Hs).
    rewrite ParserResults.run_analysis by (reflexivity || exact Ht).
    unfold finish, add_analysis. simpl.
    rewrite ParserResults.prose_split_lines. reflexivity.
  - rewrite (step_opens_notes _ h Hs).
    rewrite ParserResults.run_notes by (reflexivity || exact Ht).
    unfold finish, add_notes. simpl.
    rewrite ParserResults.prose_split_lines. reflexivity.
Qed.

Lemma X3_prose_round_trip_witness :
  _parse_code_response
    (Inputs.text [ "## Analysis of the task"; "Two steps:"; "";
                   "```"; "- parse"; "### File: none" ]%string) []
  = mk_result UNKNOWN []
      (Inputs.text [ "Two steps:"; ""; "```"; "- parse"; "### File: none"; "" ]%string)
      [] [].
Proof.
  apply (proj1 (X3_prose_round_trip ascii_tables
                  (lit "## Analysis of the task")
                  (Inputs.text [ "Two steps:"; ""; "```"; "- parse";
                                 "### File: none" ]%string) []
                  ltac:(vm_compute; intuition discriminate)
                  ltac:(vm_compute; repeat constructor))).
  reflexivity.
Defined.

(** X4: a section header does not close the file in progress.  When a file
    is in progress in the Files section and the response turns to the
    Analysis section and later back to the Files section, the lines after
    the second Files header go on into the same file: its content is the kept
    lines before the Analysis header and after the Files header, and the lines
    between the two headers are the analysis. *)
Theorem X4_file_continues_across_sections (U : Unicode) (st : state)
  (body1 body2 between : list str) (h_analysis h_files : str) :
  in_section (current_section st) s_files = true ->
  is_set (current_file st) = true ->
  Forall plain body1 -> Forall plain body2 ->
  Py.startswith (Py.strip h_analysis) H_ANALYSIS = true ->
  Forall (fun l => is_section_header l = false) between ->
  Py.startswith (Py.strip h_files) H_FILES = true ->
  run (body1 ++ h_analysis :: between ++ h_files :: body2) st =
  mk_state (add_analysis (res st) (prose between)) (Some s_files)
           (current_file st)
           (current_content st ++ kept body1 ++ kept body2).
Proof.
  intros Hs Hc Hb1 Hb2 Ha Hbt Hf.
  rewrite CodeFacts.run_app, (CodeFacts.run_body body1 st Hb1 Hs Hc).
  match goal with
  | |- run (h_analysis :: ?l) ?s = _ =>
      change (run (h_analysis :: l) s) with (run l (step s h_analysis))
  end.
  rewrite (step_opens_analysis _ h_analysis Ha).
  rewrite CodeFacts.run_app.
  rewrite (ParserResults.run_analysis between) by (reflexivity || exact Hbt).
  match goal with
  | |- run (h_files :: ?l) ?s = _ =>
      change (run (h_files :: l) s) with (run l (step s h_files))
  end.
  rewrite (step_opens_files _ h_files Hf).
  rewrite CodeFacts.run_body by (assumption || reflexivity).
  simpl. rewrite <- app_assoc. reflexivity.
Qed.

Lemma X4_file_continues_across_sections_witness :
  files (_parse_code_response
           (Inputs.text [ "## Files to Create/Modify"; "### File: a.py";
                          "x = 1"; "## Analysis"; "why"; "## Files to Create/Modify";
                          "y = 2" ]%string) [])
  = [ mk_file (lit "a.py") (Inputs.text [ "x = 1"; "y = 2" ]%string)
              (lit "python") ].
Proof.
  unfold _parse_code_response, finish.
  change (run _ _) with
    (run ([ lit "x = 1" ] ++ lit "## Analysis" :: [ lit "why" ]
          ++ lit "## Files to Create/Modify" :: [ lit "y = 2" ])
         (mk_state (mk_result UNKNOWN [] [] [] []) (Some s_files)
                   (Some (lit "a.py")) [])).
  rewrite (X4_file_continues_across_sections ascii_tables
             (mk_state (mk_result UNKNOWN [] [] [] []) (Some s_files)
                       (Some (lit "a.py")) [])
             [ lit "x = 1" ] [ lit "y = 2" ] [ lit "why" ]
             (lit "## Analysis") (lit "## Files to Create/Modify")
             eq_refl eq_refl
             ltac:(repeat constructor) ltac:(repeat constructor)
             eq_refl ltac:(repeat constructor) eq_refl).
  reflexivity.
Defined.

End CodeSections.

(** ** File blocks of the test response *)

Module TestBlocks.
Import ClaudeGenerator ClaudeGenerator.ParseTest TestLines.

Section Facts.
Context {U : Unicode}.

(** A file header line in the Files section saves the file in progress
    and opens the next one. *)
Lemma t_step_file_header st line :
  is_section_header line = false ->
  in_section (current_section st) s_files = true ->
  is_file_header line = true ->
  step st line =
  mk_state (save_previous st) (current_section st) (Some (header_path line)) [].
Proof.
  intros Hh Hs Hf. apply TestFacts.t_not_header_inv in Hh.
  destruct Hh as (H1 & H2 & H3 & H4).
  unfold step, is_file_header in *. cbv zeta.
  rewrite H1, H2, H3, H4, Hs, Hf. reflexivity.
Qed.

(** With a file in progress in the Files section, any other line is dropped
    if it is a fence line and appended otherwise. *)
Lemma t_step_body st line :
  is_section_header line = false ->
  in_section (current_section st) s_files = true ->
  is_file_header line = false ->
  is_set (current_file st) = true ->
  step st line =
  if is_fence line then st
  else mk_state (res st) (current_section st) (current_file st)
                (current_content st ++ [line]).
Proof.
  intros Hh Hs Hf Hc. apply TestFacts.t_not_header_inv in Hh.
  destruct Hh as (H1 & H2 & H3 & H4).
  unfold step, is_file_header, is_fence in *. cbv zeta.
  rewrite H1, H2, H3, H4, Hs, Hf, Hc. simpl.
  destruct (Py.startswith (Py.strip line) FENCE); simpl; [|reflexivity].
  destruct (current_content st); reflexivity.
Qed.

(** Before any section header nothing is recorded. *)
Lemma t_step_idle st line :
  is_section_header line = false ->
  current_section st = None ->
  step st line = st.
Proof.
  intros Hh Hs. apply TestFacts.t_not_header_inv in Hh.
  destruct Hh as (H1 & H2 & H3 & H4).
  unfold step. cbv zeta. rewrite H1, H2, H3, H4, Hs. reflexivity.
Qed.

Lemma t_run_app l1 l2 st : run (l1 ++ l2) st = run l2 (run l1 st).
Proof. apply fold_left_app. Qed.

Lemma t_run_idle lines st :
  Forall (fun l => is_section_header l = false) lines ->
  current_section st = None ->
  run lines st = st.
Proof.
  intros H. revert st. induction H as [|l ls Hl _ IH]; intros st Hs.
  - reflexivity.
  - simpl. rewrite (t_step_idle st l Hl Hs). apply IH, Hs.
Qed.

Lemma t_run_body body : forall st,
  Forall plain body ->
  in_section (current_section st) s_files = true ->
  is_set (current_file st) = true ->
  run body st =
  mk_state (res st) (current_section st) (current_file st)
           (current_content st ++ kept body).
Proof.
  induction body as [|l body IH]; intros st Hp Hs Hc.
  - simpl. rewrite app_nil_r. destruct st; reflexivity.
  - inversion Hp as [|? ? [Hl1 Hl2] Hp']; subst.
    simpl. rewrite (t_step_body st l Hl1 Hs Hl2 Hc).
    unfold kept in *. simpl. destruct (is_fence l); simpl.
    + apply IH; assumption.
    + rewrite IH by assumption. simpl. rewrite <- app_assoc. reflexivity.
Qed.

End Facts.

Lemma t_file_header_not_section line :
  is_file_header line = true -> is_section_header line = false.
Proof.
  unfold is_file_header, is_section_header. cbv zeta. intros H.
  unfold H_STRATEGY, H_FILES, H_DEPENDENCIES, H_RUNNING.
  unfold FILE_MARKER in H.
  rewrite !(CodeResponse.startswith_third_differs _ _ _ _ _ _ _ 32%N _ H) by discriminate.
  reflexivity.
Qed.

(** The state after a file header and the lines of its body. *)
Lemma t_run_file_block (U : Unicode) st hdr body :
  in_section (current_section st) s_files = true ->
  is_file_header hdr = true ->
  Py.truthy (header_path hdr) = true ->
  Forall plain body ->
  run (hdr :: body) st =
  mk_state (save_previous st) (current_section st)
           (Some (header_path hdr)) (kept body).
Proof.
  intros Hs Hh Hp Hb. simpl.
  rewrite (t_step_file_header st hdr (t_file_header_not_section hdr Hh) Hs Hh).
  rewrite t_run_body; simpl; auto.
Qed.

(** The lines of a rendered block. *)
Lemma t_split_render_block hdr content :
  Forall (fun c => c <> 10%N) hdr ->
  Py.split_lines (render_test_block hdr content) =
  H_FILES :: hdr :: (FENCE :: Py.split_lines content ++ [FENCE]).
Proof.
  intros Hh. unfold render_test_block.
  rewrite PyFacts.split_lines_app.
  rewrite PyFacts.split_lines_app, (PyFacts.split_lines_one hdr Hh).
  rewrite PyFacts.split_lines_app.
  rewrite PyFacts.split_lines_app.
  reflexivity.
Qed.

End TestBlocks.

Module TestResponse.
Import ClaudeGenerator ClaudeGenerator.ParseTest TestLines TestBlocks.

(** X5: for every content string none of whose lines, trimmed, starts with
    the fence token, the file marker or one of the four headers of the test
    response, and every file header line naming a non-empty path,
    [_parse_test_response] of the content rendered as a single file block
    returns exactly one test file, whose content is the original string; the
    strategy, the dependencies and the run instructions are empty. *)
Theorem X5_test_round_trip (U : Unicode) (hdr content : str) :
  Forall (fun c => c <> 10%N) hdr ->
  is_file_header hdr = true ->
  Py.truthy (header_path hdr) = true ->
  Forall (fun l => is_fence l = false /\ is_file_header l = false
                   /\ is_section_header l = false)
         (Py.split_lines content) ->
  _parse_test_response (render_test_block hdr content) =
  mk_result
    [ mk_file (header_path hdr) content
              (_detect_language_from_path (header_path hdr)) ]
    [] [] [].
Proof.
  intros Hnl Hh Hp Hc.
  unfold _parse_test_response. rewrite (t_split_render_block hdr content Hnl).
  change (run (H_FILES :: hdr :: FENCE :: Py.split_lines content ++ [FENCE])
              init)
    with (run (hdr :: FENCE :: Py.split_lines content ++ [FENCE])
              (set_section init s_files)).
  assert (Hkept : kept (FENCE :: Py.split_lines content ++ [FENCE])
                  = Py.split_lines content).
  { unfold kept. change (FENCE :: Py.split_lines content ++ [FENCE])
      with ([FENCE] ++ Py.split_lines content ++ [FENCE]).
    rewrite !filter_app. simpl. rewrite app_nil_r.
    apply forallb_filter_id. apply forallb_forall. intros l Hl.
    rewrite Forall_forall in Hc. destruct (Hc l Hl) as [-> _]. reflexivity. }
  rewrite t_run_file_block; auto.
  - rewrite Hkept. unfold finish. simpl. rewrite Hp.
    rewrite (proj2 (PyFacts.truthy_nonempty _)
               (PyFacts.split_lines_nonempty content)).
    simpl. unfold artifact, add_file. simpl.
    rewrite PyFacts.join_split. reflexivity.
  - constructor; [split; reflexivity|].
    apply Forall_app. split.
    + eapply Forall_impl; [|exact Hc]. intros l (_ & H1 & H2). split; assumption.
    + repeat constructor.
Qed.

Lemma X5_test_round_trip_witness :
  _parse_test_response
    (render_test_block (lit "### File: tests/test_a.py")
       (Inputs.text [ "import a"; ""; "def test_x():"; "    assert a.x == 1" ]%string))
  = mk_result
      [ mk_file (lit "tests/test_a.py")
          (Inputs.text [ "import a"; ""; "def test_x():";
                         "    assert a.x == 1" ]%string)
          (lit "python") ]
      [] [] [].
Proof.
  apply (X5_test_round_trip ascii_tables (lit "### File: tests/test_a.py")
           (Inputs.text [ "import a"; ""; "def test_x():";
                          "    assert a.x == 1" ]%string)).
  - vm_compute. repeat constructor; discriminate.
  - reflexivity.
  - reflexivity.
  - vm_compute. repeat constructor.
Defined.

(** X6: an input none of whose lines, trimmed, starts with one of the four
    headers of the test response gives the empty result of
    [_parse_test_response]: no test file, no dependency, empty strategy and
    run instructions. *)
Theorem X6_test_no_header_empty_result (U : Unicode) (s : str) :
  Forall (fun l => is_section_header l = false) (Py.split_lines s) ->
  _parse_test_response s = mk_result [] [] [] [].
Proof.
  intros H. unfold _parse_test_response.
  rewrite (t_run_idle (Py.split_lines s) init H eq_refl). reflexivity.
Qed.

Lemma X6_test_no_header_empty_result_witness :
  _parse_test_response
    (Inputs.text [ "## Files to Create/Modify"; "### File: a.py"; "x = 1";
                   "## Dependencies"; "pytest" ]%string)
  = mk_result [] [] [] [].
Proof.
  apply (X6_test_no_header_empty_result ascii_tables).
  vm_compute. repeat constructor.
Defined.

End TestResponse.

(** ** Which paths get which language *)

Module LanguageTable.
Import ClaudeGenerator.

Lemma rfind_slash (dir rest : str) :
  is_dir_prefix dir -> ~ In 47%N rest ->
  Py.rfind (dir ++ rest) 47%N = (Z.of_nat (length dir) - 1)%Z.
Proof.
  intros [->|[d ->]] Hr; unfold Py.rfind.
  - simpl. rewrite Language.rfind_from_absent by exact Hr. reflexivity.
  - rewrite <- app_assoc. simpl.
    rewrite Language.rfind_from_last by exact Hr.
    rewrite length_app. cbn [length]. unfold str, char in *; lia.
Qed.

Lemma rfind_dot (q e : str) :
  ~ In 46%N e ->
  Py.rfind (q ++ 46%N :: e) 46%N = Z.of_nat (length q).
Proof.
  intros H. unfold Py.rfind. rewrite Language.rfind_from_last by exact H. (unfold str, char in *; lia).
Qed.

Lemma rfind_from_app (c : char) (a b : str) : forall i last,
  Py.rfind_from c (a ++ b) i last =
  Py.rfind_from c b (i + Z.of_nat (length a)) (Py.rfind_from c a i last).
Proof.
  induction a as [|x a IH]; intros i last.
  - simpl. rewrite Z.add_0_r. reflexivity.
  - cbn [app Py.rfind_from length]. rewrite IH. f_equal. (unfold str, char in *; lia).
Qed.

(** The result lies between the default and the end of the string. *)
Lemma rfind_from_range (c : char) (s : str) : forall i last,
  (last < i)%Z ->
  (last <= Py.rfind_from c s i last < i + Z.of_nat (length s))%Z.
Proof.
  induction s as [|x s IH]; intros i last H.
  - simpl. (unfold str, char in *; lia).
  - cbn [Py.rfind_from length].
    destruct (x =? c)%N.
    + specialize (IH (i + 1)%Z i). (unfold str, char in *; lia).
    + specialize (IH (i + 1)%Z last). (unfold str, char in *; lia).
Qed.

Lemma slice_middle (a b c : str) :
  Py.slice (a ++ b ++ c) (Z.of_nat (length a))
           (Z.of_nat (length a) + Z.of_nat (length b)) = b.
Proof.
  unfold Py.slice.
  replace (Z.of_nat (length a) + Z.of_nat (length b) - Z.of_nat (length a))%Z
    with (Z.of_nat (length b)) by (unfold str, char in *; lia).
  rewrite !Nat2Z.id, skipn_app, skipn_all, Nat.sub_diag. simpl.
  rewrite firstn_app, firstn_all, Nat.sub_diag. simpl. apply app_nil_r.
Qed.

(** [splitext] on a path written as directory prefix, stem, dot and
    extension: the stem has a character that is not a dot. *)
Lemma splitext_name (dir stem e : str) :
  is_dir_prefix dir ->
  ~ In 47%N stem -> existsb (fun c => negb (c =? 46)%N) stem = true ->
  ~ In 46%N e -> ~ In 47%N e ->
  Py.splitext (dir ++ stem ++ 46%N :: e) = (dir ++ stem, 46%N :: e).
Proof.
  intros Hd Hs Hx He1 He2. unfold Py.splitext. cbv zeta.
  assert (Hsep : Py.rfind (dir ++ stem ++ 46%N :: e) 47%N
                 = (Z.of_nat (length dir) - 1)%Z).
  { apply rfind_slash; [exact Hd|]. intros H.
    apply in_app_or in H. destruct H as [H|[H|H]];
      [exact (Hs H) | discriminate H | exact (He2 H)]. }
  assert (Hdot : Py.rfind (dir ++ stem ++ 46%N :: e) 46%N
                 = (Z.of_nat (length dir) + Z.of_nat (length stem))%Z).
  { rewrite app_assoc, rfind_dot by exact He1. rewrite length_app. unfold str, char in *; lia. }
  rewrite Hsep, Hdot.
  assert (Hlt : (Z.of_nat (length dir) - 1
                 <? Z.of_nat (length dir) + Z.of_nat (length stem))%Z = true)
    by (apply Z.ltb_lt; (unfold str, char in *; lia)).
  rewrite Hlt.
  replace (Z.of_nat (length dir) - 1 + 1)%Z with (Z.of_nat (length dir))
    by (unfold str, char in *; lia).
  rewrite slice_middle, Hx.
  replace (Z.of_nat (length dir) + Z.of_nat (length stem))%Z
    with (Z.of_nat (length (dir ++ stem))) by (rewrite length_app; (unfold str, char in *; lia)).
  rewrite Nat2Z.id, app_assoc.
  rewrite firstn_app, firstn_all, Nat.sub_diag. simpl. rewrite app_nil_r.
  rewrite skipn_app, skipn_all, Nat.sub_diag. reflexivity.
Qed.

Lemma only_dots n :
  existsb (fun c => negb (c =? 46)%N) (repeat 46%N n) = false.
Proof. induction n as [|n IH]; [reflexivity | exact IH]. Qed.

(** The same when the name has only dots before its last dot: no
    extension. *)
Lemma splitext_dots (dir e : str) (n : nat) :
  is_dir_prefix dir -> ~ In 46%N e -> ~ In 47%N e ->
  Py.splitext (dir ++ repeat 46%N n ++ 46%N :: e)
  = (dir ++ repeat 46%N n ++ 46%N :: e, []).
Proof.
  intros Hd He1 He2. unfold Py.splitext. cbv zeta.
  assert (Hsep : Py.rfind (dir ++ repeat 46%N n ++ 46%N :: e) 47%N
                 = (Z.of_nat (length dir) - 1)%Z).
  { apply rfind_slash; [exact Hd|]. intros H.
    apply in_app_or in H. destruct H as [H|[H|H]];
      [apply repeat_spec in H; discriminate H | discriminate H | exact (He2 H)]. }
  assert (Hdot : Py.rfind (dir ++ repeat 46%N n ++ 46%N :: e) 46%N
                 = (Z.of_nat (length dir) + Z.of_nat (length (repeat 46%N n)))%Z).
  { rewrite app_assoc, rfind_dot by exact He1. rewrite length_app. unfold str, char in *; lia. }
  rewrite Hsep, Hdot.
  replace (Z.of_nat (length dir) - 1 + 1)%Z with (Z.of_nat (length dir))
    by (unfold str, char in *; lia).
  rewrite slice_middle.
  rewrite only_dots. destruct (_ <? _)%Z; reflexivity.
Qed.

(** Without a dot there is no extension. *)
Lemma splitext_no_dot (p : str) : ~ In 46%N p -> Py.splitext p = (p, []).
Proof.
  intros H. unfold Py.splitext, Py.rfind. cbv zeta.
  rewrite (Language.rfind_from_absent 46%N p 0 (-1) H).
  assert (Hge : forall s i last, (-1 <= last)%Z -> (0 <= i)%Z ->
            (-1 <= Py.rfind_from 47%N s i last)%Z).
  { induction s as [|x s IH]; intros i last H1 H2; simpl; [exact H1|].
    apply IH; [destruct (x =? 47)%N; (unfold str, char in *; lia) | (unfold str, char in *; lia)]. }
  specialize (Hge p 0 (-1))%Z.
  destruct (_ <? _)%Z eqn:E; [|reflexivity].
  apply Z.ltb_lt in E. (unfold str, char in *; lia).
Qed.

(** Every key of the table is a dot followed by characters that are
    neither dots nor slashes, and is looked up to its own value. *)
Lemma table_keys k v :
  In (k, v) extension_map ->
  Py.dict_get extension_map k TEXT = v
  /\ exists k', k = 46%N :: k'
       /\ forallb (fun c => negb (c =? 46)%N && negb (c =? 47)%N) k' = true.
Proof.
  intros H.
  assert (Hall : forallb
            (fun kv => Py.str_eqb (Py.dict_get extension_map (fst kv) TEXT) (snd kv)
                       && match fst kv with
                          | c :: k' =>
                              (c =? 46)%N
                              && forallb (fun c => negb (c =? 46)%N
                                                   && negb (c =? 47)%N) k'
                          | [] => false
                          end)
            extension_map = true) by (vm_compute; reflexivity).
  rewrite forallb_forall in Hall. specialize (Hall (k, v) H). simpl in Hall.
  apply andb_true_iff in Hall. destruct Hall as [H1 H2].
  split; [apply Language.str_eqb_eq; exact H1|].
  destruct k as [|c k']; [discriminate H2|].
  apply andb_true_iff in H2. destruct H2 as [H2 H3].
  apply N.eqb_eq in H2. subst c. exists k'. split; [reflexivity | exact H3].
Qed.

Lemma ascii_lower_keeps (c d : char) :
  (d = 46 \/ d = 47)%N -> ascii_lower c = d -> c = d.
Proof.
  unfold ascii_lower. intros Hd.
  destruct ((65 <=? c) && (c <=? 90))%N eqn:E; [|auto].
  apply andb_true_iff in E. destruct E as [E1 E2].
  apply N.leb_le in E1. (unfold str, char in *; lia).
Qed.

Lemma ascii_lower_fixes (d : char) :
  (d = 46 \/ d = 47)%N -> ascii_lower d = d.
Proof. intros [->| ->]; reflexivity. Qed.

(** X7: every entry of the table with a lower-case key is reachable, in any
    ASCII letter case.  A path made of a directory prefix, a stem without
    slash that has a character other than a dot, and an ASCII extension that
    lowers to the key of an entry gets the language of that entry.  (The key
    ".R" is not lower-case: no extension lowers to it.) *)
Theorem X7_table_entries_reachable (U : Unicode) (dir stem ext k v : str) :
  In (k, v) extension_map ->
  forallb is_ascii ext = true ->
  map ascii_lower ext = k ->
  is_dir_prefix dir ->
  ~ In 47%N stem ->
  existsb (fun c => negb (c =? 46)%N) stem = true ->
  _detect_language_from_path (dir ++ stem ++ ext) = v.
Proof.
  intros Hin Ha Hk Hd Hs Hx.
  destruct (table_keys k v Hin) as (Hget & k' & Ek & Hk').
  subst k. destruct ext as [|c e]; [discriminate Ek|].
  simpl in Ek. inversion Ek as [[Hc He]].
  apply (ascii_lower_keeps c 46%N (or_introl eq_refl)) in Hc. subst c.
  assert (Hfree : forall d, (d = 46 \/ d = 47)%N -> ~ In d e).
  { intros d Hdd Hine.
    rewrite forallb_forall in Hk'.
    assert (Hin' : In d k').
    { rewrite <- He. rewrite <- (ascii_lower_fixes d Hdd).
      apply in_map. exact Hine. }
    specialize (Hk' d Hin').
    destruct Hdd as [-> | ->]; discriminate Hk'. }
  unfold _detect_language_from_path. cbv zeta.
  pose proof (splitext_name dir stem e Hd Hs Hx
                (Hfree 46%N (or_introl eq_refl))
                (Hfree 47%N (or_intror eq_refl))) as E.
  unfold str, char in E |- *. rewrite E.
  simpl snd. rewrite (lower_ascii _ Ha). exact Hget.
Qed.

Lemma X7_table_entries_reachable_witness :
  _detect_language_from_path (lit "src/.hidden/My.Module.Ts") = lit "typescript".
Proof.
  apply (X7_table_entries_reachable ascii_tables
           (lit "src/.hidden/") (lit "My.Module") (lit ".Ts")
           (lit ".ts") (lit "typescript")).
  - vm_compute. tauto.
  - reflexivity.
  - reflexivity.
  - right. exists (lit "src/.hidden"). reflexivity.
  - vm_compute. intuition discriminate.
  - reflexivity.
Defined.

(** X8: a path whose file name has no extension gets the default "text":
    a path without any dot, a path whose last dot comes before its last
    slash, and a name in which only dots come before the last dot (such as
    ".gitignore", or ".py" itself). *)
Theorem X8_no_extension_is_text (U : Unicode) :
  (forall p, ~ In 46%N p -> _detect_language_from_path p = lit "text")
  /\ (forall q name, ~ In 46%N name ->
        _detect_language_from_path (q ++ 47%N :: name) = lit "text")
  /\ (forall dir n e,
        is_dir_prefix dir -> ~ In 46%N e -> ~ In 47%N e ->
        _detect_language_from_path (dir ++ repeat 46%N n ++ 46%N :: e)
        = lit "text").
Proof.
  assert (Hempty : Py.dict_get extension_map (lower []) TEXT = lit "text").
  { rewrite (lower_ascii [] eq_refl). reflexivity. }
  split; [|split].
  - intros p Hp. unfold _detect_language_from_path. cbv zeta.
    rewrite (splitext_no_dot p Hp). exact Hempty.
  - intros q name Hn. unfold _detect_language_from_path. cbv zeta.
    assert (E : snd (Py.splitext (q ++ 47%N :: name)) = []).
    { unfold Py.splitext, Py.rfind. cbv zeta.
      assert (Hdot : (Py.rfind_from 46%N (q ++ 47%N :: name) 0 (-1)
                      < Z.of_nat (length q))%Z).
      { rewrite rfind_from_app.
        rewrite Language.rfind_from_absent
          by (intros [H|H]; [discriminate H | exact (Hn H)]).
        pose proof (rfind_from_range 46%N q 0 (-1)). unfold str, char in *; lia. }
      assert (Hsep : (Z.of_nat (length q)
                      <= Py.rfind_from 47%N (q ++ 47%N :: name) 0 (-1))%Z).
      { rewrite rfind_from_app. cbn [Py.rfind_from]. rewrite N.eqb_refl.
        pose proof (rfind_from_range 47%N name
                      (0 + Z.of_nat (length q) + 1)
                      (0 + Z.of_nat (length q))). unfold str, char in *; lia. }
      destruct (_ <? _)%Z eqn:Elt; [|reflexivity].
      apply Z.ltb_lt in Elt. unfold str, char in *; lia. }
    rewrite E. exact Hempty.
  - intros dir n e Hd He1 He2. unfold _detect_language_from_path. cbv zeta.
    rewrite (splitext_dots dir e n Hd He1 He2). exact Hempty.
Qed.

Lemma X8_no_extension_is_text_witness :
  _detect_language_from_path (lit "Makefile") = lit "text"
  /\ _detect_language_from_path (lit "pkg.v2/README") = lit "text"
  /\ _detect_language_from_path (lit "src/.py") = lit "text"
  /\ _detect_language_from_path (lit "..json") = lit "text".
Proof.
  destruct (X8_no_extension_is_text ascii_tables) as (H1 & H2 & H3).
  split; [apply H1; vm_compute; intuition discriminate|].
  split; [apply (H2 (lit "pkg.v2") (lit "README")); vm_compute;
          intuition discriminate|].
  split.
  - apply (H3 (lit "src/") 0%nat (lit "py")).
    + right. exists (lit "src"). reflexivity.
    + vm_compute. intuition discriminate.
    + vm_compute. intuition discriminate.
  - apply (H3 [] 1%nat (lit "json")).
    + left. reflexivity.
    + vm_compute. intuition discriminate.
    + vm_compute. intuition discriminate.
Defined.

End LanguageTable.

(** ** What the harvesters return *)

Module HarvestResults.

Lemma rstrip_fixed_rev (b : str) : Py.rstrip b = b -> Py.lstrip (rev b) = rev b.
Proof.
  unfold Py.rstrip. intros H.
  rewrite <- H at 2. rewrite rev_involutive. reflexivity.
Qed.

(** A string that ends with no blank keeps doing so behind any prefix. *)
Lemma rstrip_app (a b : str) :
  b <> [] -> Py.rstrip b = b -> Py.rstrip (a ++ b) = a ++ b.
Proof.
  intros Hne Hb. unfold Py.rstrip. rewrite rev_app_distr.
  pose proof (rstrip_fixed_rev b Hb) as Hl.
  destruct (rev b) as [|c t] eqn:E.
  - exfalso. apply Hne. rewrite <- (rev_involutive b), E. reflexivity.
  - pose proof (StripFacts.lstrip_head _ _ _ Hl) as Hc.
    assert (Hfix : Py.lstrip ((c :: t) ++ rev a) = (c :: t) ++ rev a).
    { apply StripFacts.lstrip_fixed. intros c' t' H'.
      inversion H'; subst. exact Hc. }
    rewrite Hfix, <- E, <- rev_app_distr, rev_involutive. reflexivity.
Qed.

(** And a suffix of such a string ends with no blank either. *)
Lemma rstrip_suffix (a b : str) :
  Py.rstrip (a ++ b) = a ++ b -> Py.rstrip b = b.
Proof.
  intros H. destruct b as [|x b]; [reflexivity|].
  pose proof (rstrip_fixed_rev _ H) as Hl. rewrite rev_app_distr in Hl.
  unfold Py.rstrip.
  destruct (rev (x :: b)) as [|c t] eqn:E.
  - exfalso. apply (f_equal (@rev _)) in E. rewrite rev_involutive in E.
    discriminate E.
  - simpl in Hl. destruct (Py.isspace c) eqn:Ec.
    + exfalso.
      pose proof (StripFacts.lstrip_suffix (t ++ rev a)) as [w Hw].
      rewrite Hl in Hw. apply (f_equal (@length _)) in Hw.
      repeat (rewrite length_app in Hw; cbn [length app] in Hw).
      unfold str, char in *. lia.
    + simpl. rewrite Ec. rewrite <- E, rev_involutive. reflexivity.
Qed.

Lemma strip_rstrip_fixed (s : str) : Py.rstrip (Py.strip s) = Py.strip s.
Proof. unfold Py.strip. apply StripFacts.rstrip_idem. Qed.

(** What is left of a trimmed line after stripping its markers. *)
Lemma stripped_item (U : Unicode) (lines : list str) (raw : str) :
  In raw lines -> item_line raw = true ->
  harvested lines (Py.lstrip_chars (Py.strip raw) STRIP_CHARS).
Proof.
  intros Hin Hi. split; [exists raw; auto|].
  destruct (HarvestFacts.lstrip_chars_spec (Py.strip raw) STRIP_CHARS)
    as (pre & H1 & _ & H3).
  split; [exact H3|].
  apply (rstrip_suffix pre). rewrite <- H1. apply strip_rstrip_fixed.
Qed.

Section Scans.
Context {U : Unicode}.

Lemma acceptance_scan_harvested (lines ls : list str) : forall b acc,
  (forall raw, In raw ls -> In raw lines) ->
  Forall (harvested lines) acc ->
  Forall (harvested lines) (ConfluenceClient.scan ls b acc).
Proof.
  induction ls as [|raw ls IH]; intros b acc Hl Ha; [exact Ha|].
  assert (Hl' : forall r, In r ls -> In r lines)
    by (intros r Hr; apply Hl; right; exact Hr).
  cbn [ConfluenceClient.scan]. cbv zeta.
  destruct (Py.contains _ _); [apply IH; assumption|].
  destruct b; [|apply IH; assumption].
  destruct (_ || _); [exact Ha|].
  destruct (_ || _) eqn:Ei; [|apply IH; assumption].
  apply IH; [assumption|]. apply Forall_app. split; [exact Ha|].
  constructor; [|constructor].
  apply stripped_item; [apply Hl; left; reflexivity | exact Ei].
Qed.

Lemma requirements_scan_harvested (lines ls : list str) : forall b acc,
  (forall raw, In raw ls -> In raw lines) ->
  Forall (harvested lines) acc ->
  Forall (harvested lines) (Pipeline.scan ls b acc).
Proof.
  induction ls as [|raw ls IH]; intros b acc Hl Ha; [exact Ha|].
  assert (Hl' : forall r, In r ls -> In r lines)
    by (intros r Hr; apply Hl; right; exact Hr).
  cbn [Pipeline.scan]. cbv zeta.
  destruct (Pipeline.has_keyword _); [apply IH; assumption|].
  destruct b; [|apply IH; assumption].
  destruct (_ || _) eqn:Ei.
  - apply IH; [assumption|]. apply Forall_app. split; [exact Ha|].
    constructor; [|constructor].
    apply stripped_item; [apply Hl; left; reflexivity | exact Ei].
  - destruct (_ && _); [exact Ha | apply IH; assumption].
Qed.

End Scans.

(** X9: whatever the input, every item returned by
    [_extract_acceptance_criteria] and by
    [_extract_requirements_from_content] is what is left of an item line of
    the input after trimming it and stripping its leading markers; it starts
    with none of the characters '-', ' ', '*', the bullet glyph, '0'..'9', '.'
    and ends with no blank. *)
Theorem X9_items_harvested (U : Unicode) (s : str) :
  Forall (harvested (Py.split_lines s))
         (ConfluenceClient._extract_acceptance_criteria s)
  /\ Forall (harvested (Py.split_lines s))
            (Pipeline._extract_requirements_from_content s).
Proof.
  split.
  - apply acceptance_scan_harvested; [auto | constructor].
  - apply requirements_scan_harvested; [auto | constructor].
Qed.

End HarvestResults.

(** ** Writing items as list lines and reading them back *)

Module HarvestRoundTrip.

(** Joining lines and splitting the text gives the lines back. *)
Lemma split_join (ls : list str) :
  ls <> [] -> Forall (fun l => ~ In 10%N l) ls ->
  Py.split_lines (Py.join_lines ls) = ls.
Proof.
  induction ls as [|p ls IH]; intros Hne H; [contradiction|].
  inversion H as [|? ? Hp Hls]; subst.
  destruct ls as [|q rest].
  - simpl. apply PyFacts.split_lines_one, CodeSections.no_newline_forall, Hp.
  - change (Py.join_lines (p :: q :: rest))
      with (p ++ 10%N :: Py.join_lines (q :: rest)).
    rewrite PyFacts.split_lines_app, IH by (discriminate || exact Hls).
    rewrite (PyFacts.split_lines_one p (CodeSections.no_newline_forall p Hp)).
    reflexivity.
Qed.

Lemma not_in_strip_chars (c : char) :
  ~ In c STRIP_CHARS -> existsb (N.eqb c) STRIP_CHARS = false.
Proof.
  intros H. destruct (existsb (N.eqb c) STRIP_CHARS) eqn:E; [|reflexivity].
  apply existsb_exists in E. destruct E as (x & Hx & Hcx).
  apply N.eqb_eq in Hcx. subst x. contradiction.
Qed.

(** The trimmed form of a list line. *)
Lemma strip_bullet (item : str) :
  Py.rstrip item = item ->
  Py.strip (bullet item) =
  match item with [] => DASH | _ :: _ => bullet item end.
Proof.
  intros H. destruct item as [|c t]; [reflexivity|].
  unfold Py.strip, bullet.
  change (Py.lstrip (45%N :: 32%N :: c :: t)) with (45%N :: 32%N :: c :: t).
  apply (HarvestResults.rstrip_app [45%N; 32%N] (c :: t));
    [discriminate | exact H].
Qed.

(** Stripping the markers of a list line gives the item back. *)
Lemma item_of_bullet (item : str) :
  plain_item item ->
  Py.lstrip_chars (Py.strip (bullet item)) STRIP_CHARS = item.
Proof.
  intros (_ & Hr & Hh). rewrite (strip_bullet item Hr).
  destruct item as [|c t]; [reflexivity|].
  unfold bullet.
  change (Py.lstrip_chars (45%N :: 32%N :: c :: t) STRIP_CHARS)
    with (Py.lstrip_chars (c :: t) STRIP_CHARS).
  cbn [Py.lstrip_chars].
  rewrite (not_in_strip_chars c (Hh c t eq_refl)). reflexivity.
Qed.

Lemma bullet_starts (item : str) :
  Py.rstrip item = item ->
  Py.startswith (Py.strip (bullet item)) DASH = true
  /\ Py.startswith (Py.strip (bullet item)) ConfluenceClient.HASH = false
  /\ Py.startswith (Py.strip (bullet item)) ConfluenceClient.BOLD = false.
Proof.
  intros H. rewrite (strip_bullet item H).
  destruct item; repeat split; reflexivity.
Qed.

Section Scans.
Context {U : Unicode}.

Lemma acceptance_scan_bullets (items : list str) : forall acc,
  Forall plain_item items ->
  Forall (fun i => Py.contains (lower (Py.strip (bullet i)))
                     ConfluenceClient.ACCEPTANCE_CRITERIA = false) items ->
  ConfluenceClient.scan (map bullet items) true acc = acc ++ items.
Proof.
  induction items as [|i items IH]; intros acc Hp Ht.
  - simpl. rewrite app_nil_r. reflexivity.
  - inversion Hp as [|? ? Hi Hp']; subst.
    inversion Ht as [|? ? Hti Ht']; subst.
    destruct (bullet_starts i (proj1 (proj2 Hi))) as (Hd & Hh & Hb).
    cbn [map ConfluenceClient.scan]. cbv zeta.
    rewrite Hti, Hh, Hb, Hd. simpl orb. cbv iota.
    rewrite (item_of_bullet i Hi), IH by assumption.
    rewrite <- app_assoc. reflexivity.
Qed.

Lemma requirements_scan_bullets (items : list str) : forall acc,
  Forall plain_item items ->
  Forall (fun i => Pipeline.has_keyword (Py.strip (bullet i)) = false) items ->
  Pipeline.scan (map bullet items) true acc = acc ++ items.
Proof.
  induction items as [|i items IH]; intros acc Hp Ht.
  - simpl. rewrite app_nil_r. reflexivity.
  - inversion Hp as [|? ? Hi Hp']; subst.
    inversion Ht as [|? ? Hti Ht']; subst.
    destruct (bullet_starts i (proj1 (proj2 Hi))) as (Hd & _ & _).
    cbn [map Pipeline.scan]. cbv zeta.
    rewrite Hti, Hd. simpl orb. cbv iota.
    rewrite (item_of_bullet i Hi), IH by assumption.
    rewrite <- app_assoc. reflexivity.
Qed.

End Scans.

Lemma bullets_no_newline (items : list str) :
  Forall plain_item items ->
  Forall (fun l => ~ In 10%N l) (map bullet items).
Proof.
  intros H. apply Forall_forall. intros l Hl.
  apply in_map_iff in Hl. destruct Hl as (i & <- & Hi).
  rewrite Forall_forall in H. destruct (H i Hi) as (Hn & _).
  unfold bullet. intros [E|[E|E]]; [discriminate E | discriminate E | exact (Hn E)].
Qed.

(** X10: items written one per line as "- item" under a line that holds a
    trigger phrase are read back as they were, in order and with
    duplicates, by [_extract_acceptance_criteria] and by
    [_extract_requirements_from_content], when each item holds no newline,
    ends with no blank, starts with none of the stripped characters, and its
    line holds no trigger phrase of the harvester. *)
Theorem X10_bullets_round_trip (U : Unicode) (header : str) (items : list str) :
  ~ In 10%N header ->
  Forall plain_item items ->
  (Py.contains (lower (Py.strip header))
               ConfluenceClient.ACCEPTANCE_CRITERIA = true ->
   Forall (fun i => Py.contains (lower (Py.strip (bullet i)))
                      ConfluenceClient.ACCEPTANCE_CRITERIA = false) items ->
   ConfluenceClient._extract_acceptance_criteria
     (Py.join_lines (header :: map bullet items)) = items)
  /\ (Pipeline.has_keyword (Py.strip header) = true ->
      Forall (fun i => Pipeline.has_keyword (Py.strip (bullet i)) = false)
             items ->
      Pipeline._extract_requirements_from_content
        (Py.join_lines (header :: map bullet items)) = items).
Proof.
  intros Hh Hp.
  assert (Hl : Py.split_lines (Py.join_lines (header :: map bullet items))
               = header :: map bullet items).
  { apply split_join; [discriminate|].
    constructor; [exact Hh | apply bullets_no_newline, Hp]. }
  split; intros Ht Hi.
  - unfold ConfluenceClient._extract_acceptance_criteria. rewrite Hl.
    cbn [ConfluenceClient.scan]. cbv zeta. rewrite Ht.
    apply (acceptance_scan_bullets items [] Hp Hi).
  - unfold Pipeline._extract_requirements_from_content. rewrite Hl.
    cbn [Pipeline.scan]. cbv zeta. rewrite Ht.
    apply (requirements_scan_bullets items [] Hp Hi).
Qed.

Lemma X10_bullets_round_trip_witness :
  ConfluenceClient._extract_acceptance_criteria
    (Inputs.text [ "## Acceptance Criteria"; "- Should do X";
                   "- Should do X"; "- Export as CSV" ]%string)
  = [ lit "Should do X"; lit "Should do X"; lit "Export as CSV" ].
Proof.
  refine (proj1 (X10_bullets_round_trip ascii_tables
                   (lit "## Acceptance Criteria")
                   [ lit "Should do X"; lit "Should do X"; lit "Export as CSV" ]
                   _ _) eq_refl _).
  - vm_compute. intuition discriminate.
  - repeat constructor; try (vm_compute; intuition discriminate);
      intros c t E; inversion E; subst; vm_compute; intuition discriminate.
  - repeat constructor.
Defined.

End HarvestRoundTrip.

(** ** The text of an Atlas document *)

Module AtlasFacts.
Import AtlasDoc.

Lemma extract_array items :
  extract_text_recursive (JArray items) = texts items.
Proof.
  induction items as [|x items IH]; [reflexivity|].
  simpl in *. destruct (extract_text_recursive x); [|reflexivity].
  rewrite IH. reflexivity.
Qed.

(** The text of a dict: its own text if it is a text node, the texts of
    its content, and a newline if it is a block. *)
Lemma extract_object members :
  extract_text_recursive (JObject members) =
  match (if type_is members K_TEXT then text_member members else Some []) with
  | None => None
  | Some t =>
      match content_text members with
      | None => None
      | Some u =>
          Some (t ++ u ++ (if is_block members
                           then ClaudeGenerator.NEWLINE else []))
      end
  end.
Proof.
  assert (H : forall ms,
    (fix content_text (members : list (str * json)) : option str :=
       match members with
       | [] => Some []
       | (k, v) :: rest =>
           if Py.str_eqb k K_CONTENT then
             match v with
             | JArray children => extract_text_recursive (JArray children)
             | JObject _ | JString _ => Some []
             | JNull | JBool _ | JNumber _ => None
             end
           else content_text rest
       end) ms = content_text ms).
  { induction ms as [|[k v] ms IH]; [reflexivity|].
    unfold content_text in *. simpl.
    destruct (Py.str_eqb k K_CONTENT); [|exact IH].
    destruct v; try reflexivity; apply extract_array. }
  simpl. rewrite <- H. reflexivity.
Qed.

Lemma texts_app a b :
  texts (a ++ b) =
  match texts a, texts b with
  | Some t, Some u => Some (t ++ u)
  | _, _ => None
  end.
Proof.
  induction a as [|x a IH]; simpl.
  - destruct (texts b); reflexivity.
  - destruct (extract_text_recursive x); [|reflexivity].
    rewrite IH. destruct (texts a); [|reflexivity].
    destruct (texts b); [|reflexivity]. rewrite app_assoc. reflexivity.
Qed.





End AtlasFacts.

Module AtlasLimit.
Import AtlasDoc Exc.

Lemma within_succ frames node :
  extract_text_within (S frames) node =
  match node with
  | JObject members =>
      t <- (if type_is members K_TEXT then add_text members else Ok []) ;;
      u <- match get members K_CONTENT with
           | Some content =>
               children <- children_of content ;; texts_within frames children
           | None => Ok []
           end ;;
      Ok (t ++ u ++ (if is_block members then ClaudeGenerator.NEWLINE else []))
  | JArray items => texts_within frames items
  | JNull | JBool _ | JNumber _ | JString _ => Ok []
  end.
Proof. destruct node; reflexivity. Qed.

Lemma texts_within_cons frames child rest :
  texts_within frames (child :: rest) =
  (t <- extract_text_within frames child ;;
   u <- texts_within frames rest ;;
   Ok (t ++ u)).
Proof. reflexivity. Qed.

Lemma call_depth_object members :
  call_depth (JObject members) = S (content_depth members).
Proof.
  cbn [call_depth]. f_equal. unfold content_depth.
  induction members as [|[k v] ms IH]; [reflexivity|].
  cbn [get]. destruct (Py.str_eqb k K_CONTENT); [|exact IH].
  destruct v as [| | | [|c s] | items | [|m ms']]; reflexivity.
Qed.

Lemma call_depth_array items : call_depth (JArray items) = S (deepest items).
Proof. reflexivity. Qed.

Lemma call_depth_pos node : 1 <= call_depth node.
Proof. destruct node; cbn [call_depth]; lia. Qed.

(** A string takes one call and gives no text. *)
Lemma texts_within_strings frames (l : list str) :
  texts_within (S frames) (map JString l) = Ok [].
Proof.
  induction l as [|s l IH]; [reflexivity|].
  cbn [map]. rewrite texts_within_cons, within_succ, IH. reflexivity.
Qed.

Lemma children_of_keys frames (ms : list (str * json)) :
  texts_within (S frames) (map (fun kv => JString (fst kv)) ms) = Ok [].
Proof.
  rewrite <- (map_map fst JString). apply texts_within_strings.
Qed.

Lemma children_of_chars frames (s : str) :
  texts_within (S frames) (map (fun c => JString [c]) s) = Ok [].
Proof.
  rewrite <- (map_map (fun c => [c]) JString). apply texts_within_strings.
Qed.

Lemma texts_within_enough frames l :
  (forall x, In x l -> extract_text_within frames x = unlimited x) ->
  texts_within frames l = unlimited_texts l.
Proof.
  induction l as [|x l IH]; intros H; [reflexivity|].
  rewrite texts_within_cons. unfold unlimited_texts. cbn [texts].
  rewrite (H x (or_introl eq_refl)). unfold unlimited.
  destruct (extract_text_recursive x); [|reflexivity]. cbn [bind].
  rewrite IH by (intros y Hy; apply H; right; exact Hy).
  unfold unlimited_texts. destruct (texts l); reflexivity.
Qed.

Lemma deepest_in l x : In x l -> call_depth x <= deepest l.
Proof.
  induction l as [|y l IH]; intros H; [contradiction|].
  cbn [deepest]. destruct H as [->|H]; [lia|]. specialize (IH H). lia.
Qed.

(** Within the recursion limit the function is the unlimited one, its
    TypeError included. *)
Lemma within_enough frames : forall node,
  call_depth node <= frames ->
  extract_text_within frames node = unlimited node.
Proof.
  induction frames as [|frames IH]; intros node Hd.
  - pose proof (call_depth_pos node). lia.
  - assert (Hl : forall l, deepest l <= frames ->
                 texts_within frames l = unlimited_texts l).
    { intros l H. apply texts_within_enough. intros x Hx. apply IH.
      pose proof (deepest_in l x Hx). lia. }
    rewrite within_succ. unfold unlimited.
    destruct node as [| b | t | s | items | members]; try reflexivity.
    + rewrite AtlasFacts.extract_array.
      rewrite call_depth_array in Hd. rewrite Hl by lia. reflexivity.
    + rewrite AtlasFacts.extract_object.
      rewrite call_depth_object in Hd. unfold content_depth in Hd.
      assert (Hc : match get members K_CONTENT with
                   | Some content =>
                       children <- children_of content ;;
                       texts_within frames children
                   | None => Ok []
                   end
                   = match content_text members with
                     | Some u => Ok u
                     | None => Raise TypeError
                     end).
      { unfold content_text.
        destruct (get members K_CONTENT)
          as [[| | | [|c s] | children | [|m ms]]|]; try reflexivity.
        - destruct frames as [|frames']; [lia|].
          cbn [children_of bind]. apply children_of_chars.
        - cbn [children_of bind]. rewrite Hl by lia. reflexivity.
        - destruct frames as [|frames']; [lia|].
          cbn [children_of bind]. apply children_of_keys. }
      rewrite Hc. unfold add_text.
      destruct (type_is members K_TEXT); [destruct (text_member members)|];
        cbn [bind]; try reflexivity;
        destruct (content_text members); reflexivity.
Qed.

(** The function raises nothing but TypeError and RecursionError. *)
Lemma within_raises frames : forall node e,
  extract_text_within frames node = Raise e ->
  e = TypeError \/ e = RecursionError.
Proof.
  induction frames as [|frames IH]; intros node e H.
  - inversion H. right. reflexivity.
  - assert (Hl : forall l e', texts_within frames l = Raise e' ->
                 e' = TypeError \/ e' = RecursionError).
    { induction l as [|x l IHl]; intros e' H'; [discriminate H'|].
      rewrite texts_within_cons in H'.
      destruct (extract_text_within frames x) as [t|ex] eqn:Ex; cbn [bind] in H'.
      - destruct (texts_within frames l) as [u|el] eqn:El; cbn [bind] in H';
          [discriminate H'|]. inversion H'; subst. apply IHl. reflexivity.
      - inversion H'; subst. apply (IH x e' Ex). }
    rewrite within_succ in H.
    destruct node as [| b | t | s | items | members]; try discriminate H.
    + apply (Hl items e H).
    + unfold add_text in H.
      destruct (type_is members K_TEXT).
      * destruct (text_member members); cbn [bind] in H;
          [|inversion H; left; reflexivity].
        destruct (get members K_CONTENT) as [content|]; [|discriminate H].
        destruct (children_of content) as [children|ec] eqn:Ec; cbn [bind] in H.
        -- destruct (texts_within frames children) eqn:Et; cbn [bind] in H;
             [discriminate H|]. inversion H; subst. apply (Hl children e Et).
        -- destruct content; try discriminate Ec; inversion Ec; subst;
             inversion H; left; reflexivity.
      * cbn [bind] in H.
        destruct (get members K_CONTENT) as [content|]; [|discriminate H].
        destruct (children_of content) as [children|ec] eqn:Ec; cbn [bind] in H.
        -- destruct (texts_within frames children) eqn:Et; cbn [bind] in H;
             [discriminate H|]. inversion H; subst. apply (Hl children e Et).
        -- destruct content; try discriminate Ec; inversion Ec; subst;
             inversion H; left; reflexivity.
Qed.







End AtlasLimit.

Module AtlasText.
Import AtlasDoc Exc AtlasFacts AtlasLimit.

Lemma well_typed_text_node t : well_typed (text_node t).
Proof.
  constructor.
  - intros _ v Hv. inversion Hv; subst. eexists. reflexivity.
  - intros v Hv. discriminate Hv.
Qed.

Lemma well_typed_node type children :
  Forall well_typed children -> well_typed (node type children).
Proof.
  intros H. constructor.
  - intros _ v Hv. discriminate Hv.
  - intros v Hv. inversion Hv; subst. left. exists children. split;
      [reflexivity | exact H].
Qed.

Lemma extract_text_node t : extract_text_recursive (text_node t) = Some t.
Proof.
  unfold text_node. rewrite extract_object.
  unfold content_text, text_member.
  simpl. rewrite app_nil_r. reflexivity.
Qed.

(** The text of a node with children: the texts of the children, and a
    newline when the node is a block. *)
Lemma extract_node type children :
  extract_text_recursive (node type children) =
  match texts children with
  | Some u =>
      Some (u ++ (if existsb (Py.str_eqb type) BLOCKS
                  then ClaudeGenerator.NEWLINE else []))
  | None => None
  end.
Proof.
  unfold node. rewrite extract_object.
  assert (Ht : (if type_is [ (K_TYPE, JString type);
                             (K_CONTENT, JArray children) ] K_TEXT
                then text_member [ (K_TYPE, JString type);
                                   (K_CONTENT, JArray children) ]
                else Some []) = Some []).
  { destruct (type_is _ _); reflexivity. }
  rewrite Ht. unfold content_text. simpl.
  destruct (texts children); reflexivity.
Qed.

Lemma extract_paragraph t :
  extract_text_recursive (paragraph t) = Some (t ++ ClaudeGenerator.NEWLINE).
Proof.
  unfold paragraph. rewrite extract_node. cbn [texts].
  rewrite extract_text_node, app_nil_r. reflexivity.
Qed.

Lemma texts_paragraphs ps : texts (map paragraph ps) = Some (prose ps).
Proof.
  induction ps as [|p ps IH]; [reflexivity|].
  cbn [map texts]. rewrite extract_paragraph, IH. reflexivity.
Qed.

Lemma texts_list_items items :
  texts (map (fun t => node T_LIST_ITEM [paragraph t]) items)
  = Some (spaced items).
Proof.
  induction items as [|t items IH]; [reflexivity|].
  cbn [map texts]. rewrite extract_node. cbn [texts].
  rewrite extract_paragraph, IH. unfold spaced. simpl.
  rewrite app_nil_r, <- !app_assoc. reflexivity.
Qed.

Lemma list_text items :
  extract_text_recursive (bullet_list items) = Some (spaced items).
Proof.
  unfold bullet_list. rewrite extract_node, texts_list_items. simpl.
  rewrite app_nil_r. reflexivity.
Qed.

Lemma fallback_is_input (s : str) :
  (if Py.truthy s then s else []) = s.
Proof. destruct s; reflexivity. Qed.

(** The outcome of the call by the outcome of its two steps. *)
Lemma call_outcome (loads : str -> outcome json) (frames : nat) (s : str) :
  _extract_text_from_atlas_doc loads frames s =
  match loads s with
  | Raise e => if caught e then Ok s else Raise e
  | Ok doc =>
      match extract_text_within frames doc with
      | Ok text => Ok (Py.strip text)
      | Raise TypeError => Ok s
      | Raise e => Raise e
      end
  end.
Proof.
  unfold _extract_text_from_atlas_doc. cbv zeta. rewrite fallback_is_input.
  destruct (loads s) as [doc|e]; cbn [bind]; [|reflexivity].
  destruct (extract_text_within frames doc) as [text|e] eqn:E; cbn [bind];
    [reflexivity|].
  destruct (within_raises frames doc e E) as [->| ->]; reflexivity.
Qed.



Lemma call_depth_node type children :
  call_depth (node type children) = S (deepest children).
Proof.
  unfold node. rewrite call_depth_object. reflexivity.
Qed.

Lemma call_depth_text_node t : call_depth (text_node t) = 1.
Proof. reflexivity. Qed.

Lemma call_depth_paragraph t : call_depth (paragraph t) = 2.
Proof. reflexivity. Qed.

Lemma deepest_bound l n :
  (forall x, In x l -> call_depth x <= n) -> deepest l <= n.
Proof.
  induction l as [|y l IH]; intros H; cbn [deepest]; [lia|].
  pose proof (H y (or_introl eq_refl)).
  assert (deepest l <= n) by (apply IH; intros x Hx; apply H; right; exact Hx).
  lia.
Qed.

Lemma call_depth_paragraphs ps : call_depth (node T_DOC (map paragraph ps)) <= 3.
Proof.
  rewrite call_depth_node.
  assert (deepest (map paragraph ps) <= 2); [|lia].
  apply deepest_bound. intros x Hx. apply in_map_iff in Hx.
  destruct Hx as (t & <- & _). rewrite call_depth_paragraph. lia.
Qed.

Lemma call_depth_bullet_list items : call_depth (bullet_list items) <= 4.
Proof.
  unfold bullet_list. rewrite call_depth_node.
  assert (deepest (map (fun t => node T_LIST_ITEM [paragraph t]) items) <= 3);
    [|lia].
  apply deepest_bound. intros x Hx. apply in_map_iff in Hx.
  destruct Hx as (t & <- & _). rewrite call_depth_node. cbn [deepest].
  rewrite call_depth_paragraph. lia.
Qed.

Lemma call_depth_page title items :
  call_depth (node T_DOC [ heading title; bullet_list items ]) <= 5.
Proof.
  rewrite call_depth_node. cbn [deepest].
  pose proof (call_depth_bullet_list items).
  assert (call_depth (heading title) = 2) by reflexivity. lia.
Qed.

(** The text of a document of paragraphs. *)
Lemma paragraphs_text ps :
  extract_text_recursive (node T_DOC (map paragraph ps)) = Some (prose ps).
Proof.
  rewrite extract_node, texts_paragraphs. simpl.
  rewrite app_nil_r. reflexivity.
Qed.

(** The text of a page made of a heading and a bullet list. *)
Lemma heading_list_text title items :
  extract_text_recursive (node T_DOC [ heading title; bullet_list items ])
  = Some (title ++ 10%N :: spaced items).
Proof.
  rewrite extract_node. cbn [texts]. rewrite list_text.
  unfold heading. rewrite extract_node. cbn [texts].
  rewrite extract_text_node. simpl.
  rewrite !app_nil_r, <- app_assoc. reflexivity.
Qed.

(** What the call returns for a document that gives a text within the
    recursion limit. *)
Lemma call_returns (loads : str -> outcome json) (frames : nat) (s : str)
  doc text :
  loads s = Ok doc -> call_depth doc <= frames ->
  extract_text_recursive doc = Some text ->
  _extract_text_from_atlas_doc loads frames s = Ok (Py.strip text).
Proof.
  intros Hl Hd Ht. rewrite call_outcome, Hl, (within_enough frames doc Hd).
  unfold unlimited. rewrite Ht. reflexivity.
Qed.

Lemma page_text (loads : str -> outcome json) (frames : nat) (s title : str)
  (items : list str) :
  loads s = Ok (node T_DOC [ heading title; bullet_list items ]) ->
  5 <= frames ->
  _extract_text_from_atlas_doc loads frames s
  = Ok (Py.strip (title ++ 10%N :: spaced items)).
Proof.
  intros Hl Hf. apply (call_returns loads frames s _ _ Hl).
  - pose proof (call_depth_page title items). lia.
  - apply heading_list_text.
Qed.

(** X12: the text of a document of plain paragraphs is its paragraphs, each
    followed by a newline, and [_extract_text_from_atlas_doc] returns it
    trimmed at both ends.  The text of a bullet list is each item followed by
    an empty line: the list leaves no marker in the text.  The calls nest
    three deep on the paragraphs and five deep on the list. *)
Theorem X12_paragraphs_and_lists (loads : str -> outcome json) (frames : nat)
  (s : str) (ps items : list str) :
  extract_text_recursive (node T_DOC (map paragraph ps)) = Some (prose ps)
  /\ extract_text_recursive (bullet_list items) = Some (spaced items)
  /\ (loads s = Ok (node T_DOC (map paragraph ps)) -> 3 <= frames ->
      _extract_text_from_atlas_doc loads frames s = Ok (Py.strip (prose ps)))
  /\ (forall title,
      loads s = Ok (node T_DOC [ heading title; bullet_list items ]) ->
      5 <= frames ->
      _extract_text_from_atlas_doc loads frames s
      = Ok (Py.strip (title ++ 10%N :: spaced items))).
Proof.
  split; [apply paragraphs_text|]. split; [apply list_text|]. split.
  - intros Hl Hf. apply (call_returns loads frames s _ _ Hl).
    + pose proof (call_depth_paragraphs ps). lia.
    + apply paragraphs_text.
  - intros title Hl Hf. apply page_text; assumption.
Qed.

Lemma X12_paragraphs_and_lists_witness :
  _extract_text_from_atlas_doc
    (fun _ => Ok (node T_DOC [ paragraph (lit " Goal"); paragraph (lit "Ship it ") ]))
    1000 (lit "{}")
  = Ok (Inputs.text [ "Goal"; "Ship it" ]%string).
Proof.
  rewrite (proj1 (proj2 (proj2
    (X12_paragraphs_and_lists
       (fun _ => Ok (node T_DOC [ paragraph (lit " Goal");
                                  paragraph (lit "Ship it ") ]))
       1000 (lit "{}") [ lit " Goal"; lit "Ship it " ] []))) eq_refl).
  - reflexivity.
  - lia.
Defined.

End AtlasText.

(** ** Blank lines and the text of a page *)

Module BlankLines.

Lemma lstrip_blank w : blank w -> Py.lstrip w = [].
Proof.
  induction 1 as [|c w Hc _ IH]; [reflexivity|]. simpl. rewrite Hc. exact IH.
Qed.

Lemma lstrip_blank_app w l : blank w -> Py.lstrip (w ++ l) = Py.lstrip l.
Proof.
  induction 1 as [|c w Hc _ IH]; [reflexivity|]. simpl. rewrite Hc. exact IH.
Qed.

Lemma rstrip_blank_app l w : blank w -> Py.rstrip (l ++ w) = Py.rstrip l.
Proof.
  intros H. unfold Py.rstrip. rewrite rev_app_distr, lstrip_blank_app;
    [reflexivity|]. apply Forall_rev. exact H.
Qed.

Lemma lstrip_app_keep l w c t :
  Py.lstrip l = c :: t -> Py.lstrip (l ++ w) = Py.lstrip l ++ w.
Proof.
  induction l as [|x l IH]; [discriminate|]. simpl.
  destruct (Py.isspace x); [exact IH | reflexivity].
Qed.

Lemma strip_blank w : blank w -> Py.strip w = [].
Proof. intros H. unfold Py.strip. rewrite (lstrip_blank w H). reflexivity. Qed.

Lemma strip_blank_l w l : blank w -> Py.strip (w ++ l) = Py.strip l.
Proof. intros H. unfold Py.strip. rewrite (lstrip_blank_app w l H). reflexivity. Qed.

Lemma strip_blank_r l w : blank w -> Py.strip (l ++ w) = Py.strip l.
Proof.
  intros H. unfold Py.strip. destruct (Py.lstrip l) as [|c t] eqn:E.
  - assert (Hl : blank l).
    { clear H. induction l as [|x l IH]; [constructor|]. simpl in E.
      destruct (Py.isspace x) eqn:Ex; [|discriminate].
      constructor; [exact Ex | apply IH, E]. }
    rewrite (lstrip_blank_app l w Hl), (lstrip_blank w H). reflexivity.
  - rewrite (lstrip_app_keep l w c t E), E. apply rstrip_blank_app, H.
Qed.

(** The lines of a text cut anywhere: the last line of the first part and
    the first line of the second are one line. *)
Lemma split_lines_cut (x y : str) :
  Py.split_lines (x ++ y) =
  removelast (Py.split_lines x)
  ++ (last (Py.split_lines x) [] ++ hd [] (Py.split_lines y))
  :: tl (Py.split_lines y).
Proof.
  induction x as [|c x IH].
  - simpl. pose proof (PyFacts.split_lines_nonempty y).
    destruct (Py.split_lines y); [contradiction | reflexivity].
  - pose proof (PyFacts.split_lines_nonempty x) as Hx.
    cbn [app Py.split_lines]. rewrite IH. destruct (c =? 10)%N.
    + destruct (Py.split_lines x) as [|l ls]; [contradiction|]. reflexivity.
    + destruct (Py.split_lines x) as [|l ls]; [contradiction|].
      destruct ls; reflexivity.
Qed.

Lemma essential_app a b : essential (a ++ b) = essential a ++ essential b.
Proof. unfold essential. rewrite map_app, filter_app. reflexivity. Qed.

Lemma essential_blank ls : Forall blank ls -> essential ls = [].
Proof.
  induction 1 as [|l ls Hl _ IH]; [reflexivity|].
  unfold essential in *. cbn [map filter]. rewrite (strip_blank l Hl). exact IH.
Qed.

Lemma in_split_lines w : forall l c,
  In l (Py.split_lines w) -> In c l -> In c w.
Proof.
  induction w as [|x w IH]; intros l c Hl Hc.
  - simpl in Hl. destruct Hl as [<-|[]]. destruct Hc.
  - cbn [Py.split_lines] in Hl. destruct (x =? 10)%N.
    + destruct Hl as [<-|Hl]; [destruct Hc|]. right. apply (IH l c Hl Hc).
    + pose proof (PyFacts.split_lines_nonempty w) as Hw.
      destruct (Py.split_lines w) as [|l0 ls]; [contradiction|].
      destruct Hl as [<-|Hl].
      * destruct Hc as [<-|Hc]; [left; reflexivity|].
        right. apply (IH l0 c); [left; reflexivity | exact Hc].
      * right. apply (IH l c); [right; exact Hl | exact Hc].
Qed.

Lemma blank_lines w : blank w -> Forall blank (Py.split_lines w).
Proof.
  intros H. apply Forall_forall. intros l Hl. apply Forall_forall. intros c Hc.
  unfold blank in H. rewrite Forall_forall in H. apply H.
  apply (in_split_lines w l c Hl Hc).
Qed.

Lemma removelast_last (ls : list str) :
  ls <> [] -> ls = removelast ls ++ [last ls []].
Proof. intros H. apply app_removelast_last. exact H. Qed.

Lemma essential_one l : essential [l] = if Py.truthy (Py.strip l) then [Py.strip l] else [].
Proof. reflexivity. Qed.

(** Blanks after a text add no line that counts. *)
Lemma essential_blank_r x w :
  blank w -> essential (Py.split_lines (x ++ w)) = essential (Py.split_lines x).
Proof.
  intros H. rewrite split_lines_cut.
  pose proof (blank_lines w H) as Hw.
  pose proof (PyFacts.split_lines_nonempty w) as Hne.
  destruct (Py.split_lines w) as [|lw lws]; [contradiction|].
  inversion Hw as [|? ? H1 H2]; subst. cbn [hd tl].
  rewrite (removelast_last (Py.split_lines x) (PyFacts.split_lines_nonempty x)) at 3.
  rewrite !essential_app.
  change (?l :: lws) with ([l] ++ lws). rewrite essential_app.
  rewrite (essential_blank lws H2), app_nil_r.
  rewrite !essential_one, (strip_blank_r _ lw H1). reflexivity.
Qed.

Lemma essential_blank_l w x :
  blank w -> essential (Py.split_lines (w ++ x)) = essential (Py.split_lines x).
Proof.
  intros H. rewrite split_lines_cut.
  pose proof (blank_lines w H) as Hw.
  pose proof (PyFacts.split_lines_nonempty x) as Hne.
  destruct (Py.split_lines x) as [|lx lxs]; [contradiction|]. cbn [hd tl].
  rewrite essential_app.
  rewrite (essential_blank (removelast (Py.split_lines w))).
  - change (?l :: lxs) with ([l] ++ lxs). 
    change (lx :: lxs) with ([lx] ++ lxs). rewrite !essential_app, !essential_one.
    rewrite strip_blank_l; [reflexivity|].
    pose proof (PyFacts.split_lines_nonempty w) as Hnw.
    rewrite (removelast_last _ Hnw) in Hw. apply Forall_app in Hw.
    destruct Hw as [_ Hw]. inversion Hw; assumption.
  - pose proof (PyFacts.split_lines_nonempty w) as Hnw.
    rewrite (removelast_last _ Hnw) in Hw. apply Forall_app in Hw. apply Hw.
Qed.

Lemma lstrip_blank_prefix s : exists w, blank w /\ s = w ++ Py.lstrip s.
Proof.
  induction s as [|c s (w & Hw & E)].
  - exists []. split; [constructor | reflexivity].
  - simpl. destruct (Py.isspace c) eqn:Ec.
    + exists (c :: w). split; [constructor; assumption|]. simpl. rewrite <- E. reflexivity.
    + exists []. split; [constructor | reflexivity].
Qed.

Lemma rstrip_blank_suffix s : exists w, blank w /\ s = Py.rstrip s ++ w.
Proof.
  destruct (lstrip_blank_prefix (rev s)) as (w & Hw & E).
  exists (rev w). split; [apply Forall_rev, Hw|].
  unfold Py.rstrip. rewrite <- rev_app_distr, <- E, rev_involutive. reflexivity.
Qed.

(** Trimming a text changes none of the lines that count. *)
Lemma essential_strip s :
  essential (Py.split_lines (Py.strip s)) = essential (Py.split_lines s).
Proof.
  destruct (lstrip_blank_prefix s) as (w1 & H1 & E1).
  destruct (rstrip_blank_suffix (Py.lstrip s)) as (w2 & H2 & E2).
  pose proof (essential_blank_l w1 (Py.lstrip s) H1) as P1.
  rewrite <- E1 in P1.
  pose proof (essential_blank_r (Py.rstrip (Py.lstrip s)) w2 H2) as P2.
  rewrite <- E2 in P2.
  unfold Py.strip. rewrite P1, <- P2. reflexivity.
Qed.

End BlankLines.

Module BlankScans.
Import BlankLines.

Section Scans.
Context {U : Unicode}.

Lemma lower_nil : lower [] = [].
Proof. apply (lower_ascii []). reflexivity. Qed.

(** Both loops read only the trimmed lines, and pass over the empty ones. *)
Lemma acceptance_scan_essential lines : forall b acc,
  ConfluenceClient.scan lines b acc
  = ConfluenceClient.scan (essential lines) b acc.
Proof.
  induction lines as [|raw lines IH]; intros b acc; [reflexivity|].
  unfold essential. cbn [map filter]. fold (essential lines).
  destruct (Py.strip raw) as [|c t] eqn:E.
  - cbn [Py.truthy ConfluenceClient.scan]. cbv zeta. rewrite E, lower_nil.
    assert (H1 : Py.contains [] ConfluenceClient.ACCEPTANCE_CRITERIA = false)
      by reflexivity.
    rewrite H1. destruct b; [|apply IH].
    assert (H2 : Py.startswith [] ConfluenceClient.HASH
                 || Py.startswith [] ConfluenceClient.BOLD = false)
      by reflexivity.
    rewrite H2.
    assert (H3 : (Py.startswith [] DASH || Py.startswith [] STAR
                  || Py.startswith [] BULLET)
                 || str_isdigit (Py.remove (Py.slice [] 0 2) DOT) = false)
      by reflexivity.
    rewrite H3. apply IH.
  - cbn [Py.truthy ConfluenceClient.scan]. cbv zeta.
    assert (Hs : Py.strip (c :: t) = c :: t)
      by (rewrite <- E; apply StripFacts.strip_idem).
    rewrite E, Hs.
    destruct (Py.contains _ _); [apply IH|]. destruct b; [|apply IH].
    destruct (_ || _); [reflexivity|]. destruct (_ || _); apply IH.
Qed.

Lemma requirements_scan_essential lines : forall b acc,
  Pipeline.scan lines b acc = Pipeline.scan (essential lines) b acc.
Proof.
  induction lines as [|raw lines IH]; intros b acc; [reflexivity|].
  unfold essential. cbn [map filter]. fold (essential lines).
  destruct (Py.strip raw) as [|c t] eqn:E.
  - cbn [Py.truthy Pipeline.scan]. cbv zeta. rewrite E.
    assert (H1 : Pipeline.has_keyword [] = false).
    { unfold Pipeline.has_keyword. rewrite lower_nil. reflexivity. }
    rewrite H1. destruct b; [|apply IH].
    assert (H3 : (Py.startswith [] DASH || Py.startswith [] STAR
                  || Py.startswith [] BULLET)
                 || str_isdigit (Py.remove (Py.slice [] 0 2) DOT) = false)
      by reflexivity.
    rewrite H3. cbn [Py.truthy andb]. apply IH.
  - cbn [Py.truthy Pipeline.scan]. cbv zeta.
    assert (Hs : Py.strip (c :: t) = c :: t)
      by (rewrite <- E; apply StripFacts.strip_idem).
    rewrite E, Hs.
    destruct (Pipeline.has_keyword _); [apply IH|]. destruct b; [|apply IH].
    destruct (_ || _); [apply IH|]. destruct (_ && _); [reflexivity | apply IH].
Qed.

End Scans.

(** X13: the harvesters read their input line by line, trimmed, and pass
    over the lines that are empty once trimmed: two texts with the same
    non-empty trimmed lines give the same acceptance criteria and the same
    requirements. *)
Theorem X13_blank_lines_ignored (U : Unicode) (a b : str) :
  essential (Py.split_lines a) = essential (Py.split_lines b) ->
  ConfluenceClient._extract_acceptance_criteria a
  = ConfluenceClient._extract_acceptance_criteria b
  /\ Pipeline._extract_requirements_from_content a
     = Pipeline._extract_requirements_from_content b.
Proof.
  intros H.
  unfold ConfluenceClient._extract_acceptance_criteria,
    Pipeline._extract_requirements_from_content.
  rewrite (acceptance_scan_essential (Py.split_lines a)),
    (acceptance_scan_essential (Py.split_lines b)),
    (requirements_scan_essential (Py.split_lines a)),
    (requirements_scan_essential (Py.split_lines b)), H.
  split; reflexivity.
Qed.

Lemma X13_blank_lines_ignored_witness :
  ConfluenceClient._extract_acceptance_criteria
    (Inputs.text [ "Acceptance Criteria:"; ""; "  - a  "; "   "; "2. b" ]%string)
  = ConfluenceClient._extract_acceptance_criteria
      (Inputs.text [ "Acceptance Criteria:"; "- a"; "2. b" ]%string).
Proof.
  apply (X13_blank_lines_ignored ascii_tables
           (Inputs.text [ "Acceptance Criteria:"; ""; "  - a  "; "   "; "2. b" ]%string)
           (Inputs.text [ "Acceptance Criteria:"; "- a"; "2. b" ]%string)).
  reflexivity.
Defined.

(** X14: trimming the whole text, as [_extract_text_from_atlas_doc] does
    with the text of a page, changes nothing of what is harvested. *)
Theorem X14_trimmed_text_same_harvest (U : Unicode) (s : str) :
  ConfluenceClient._extract_acceptance_criteria (Py.strip s)
  = ConfluenceClient._extract_acceptance_criteria s
  /\ Pipeline._extract_requirements_from_content (Py.strip s)
     = Pipeline._extract_requirements_from_content s.
Proof.
  unfold ConfluenceClient._extract_acceptance_criteria,
    Pipeline._extract_requirements_from_content.
  rewrite (acceptance_scan_essential (Py.split_lines (Py.strip s))),
    (acceptance_scan_essential (Py.split_lines s)),
    (requirements_scan_essential (Py.split_lines (Py.strip s))),
    (requirements_scan_essential (Py.split_lines s)), essential_strip.
  split; reflexivity.
Qed.

End BlankScans.

Module PageRequirements.
Import AtlasDoc Exc BlankLines.

Lemma split_lines_newline (x : str) :
  Py.split_lines (10%N :: x) = [] :: Py.split_lines x.
Proof. reflexivity. Qed.

(** The lines that count in the text of a bullet list are its items. *)
Lemma essential_spaced (items : list str) :
  Forall (fun i => ~ In 10%N i) items ->
  essential (Py.split_lines (spaced items)) = essential items.
Proof.
  induction 1 as [|i items Hi _ IH]; [reflexivity|].
  unfold spaced. cbn [map concat]. fold (spaced items).
  rewrite <- app_assoc. cbn [app].
  rewrite PyFacts.split_lines_app, split_lines_newline.
  rewrite (PyFacts.split_lines_one i (CodeSections.no_newline_forall i Hi)).
  change ([i] ++ [] :: Py.split_lines (spaced items))
    with ([i] ++ [[]] ++ Py.split_lines (spaced items)).
  rewrite !essential_app, IH.
  change (i :: items) with ([i] ++ items). rewrite essential_app. reflexivity.
Qed.

(** X15: a page made of a heading and a bullet list is harvested as if the
    title and the items were written one per line, without any marker: the
    text of the page has lost the bullets.  So when neither the title nor an
    item, trimmed, has itself the form of an item line, the page gives no
    requirement, whatever the title says. *)
Theorem X15_page_bullets_lose_markers (U : Unicode)
  (loads : str -> outcome json) (frames : nat) (s title : str)
  (items : list str) :
  loads s = Ok (node T_DOC [ heading title; bullet_list items ]) ->
  5 <= frames ->
  ~ In 10%N title ->
  Forall (fun i => ~ In 10%N i) items ->
  exists text,
    _extract_text_from_atlas_doc loads frames s = Ok text
    /\ Pipeline._extract_requirements_from_content text
       = Pipeline._extract_requirements_from_content
           (Py.join_lines (title :: items))
    /\ (Forall (fun l => item_line l = false) (title :: items) ->
        Pipeline._extract_requirements_from_content text = []).
Proof.
  intros Hdoc Hf Ht Hi.
  exists (Py.strip (title ++ 10%N :: spaced items)).
  split; [apply (AtlasText.page_text loads frames s title items Hdoc Hf)|].
  assert (Hlines : Forall (fun l => ~ In 10%N l) (title :: items))
    by (constructor; assumption).
  assert (E : Pipeline._extract_requirements_from_content
                (Py.strip (title ++ 10%N :: spaced items))
              = Pipeline.scan (title :: items) false []).
  { unfold Pipeline._extract_requirements_from_content.
    rewrite BlankScans.requirements_scan_essential, essential_strip.
    rewrite PyFacts.split_lines_app.
    rewrite (PyFacts.split_lines_one title
               (CodeSections.no_newline_forall title Ht)).
    rewrite essential_app, (essential_spaced items Hi),
      <- essential_app.
    rewrite <- BlankScans.requirements_scan_essential. reflexivity. }
  split.
  - rewrite E. unfold Pipeline._extract_requirements_from_content.
    rewrite HarvestRoundTrip.split_join by (discriminate || exact Hlines).
    reflexivity.
  - intros Hno. rewrite E.
    pose proof (HarvestFacts.requirements_scan_length (title :: items) false [])
      as Hlen.
    assert (Hfl : filter item_line (title :: items) = []).
    { clear - Hno. induction Hno as [|l ls Hl _ IH]; [reflexivity|].
      cbn [filter]. rewrite Hl. exact IH. }
    rewrite Hfl in Hlen.
    destruct (Pipeline.scan (title :: items) false []); [reflexivity|].
    cbn [length] in Hlen. lia.
Qed.

Lemma X15_page_bullets_lose_markers_witness :
  exists text,
    _extract_text_from_atlas_doc
      (fun _ => Ok (node T_DOC [ heading (lit "Requirements");
                                 bullet_list [ lit "Login works";
                                               lit "Logout works" ] ]))
      1000 (lit "{}") = Ok text
    /\ Pipeline._extract_requirements_from_content text = [].
Proof.
  destruct (X15_page_bullets_lose_markers ascii_tables
           (fun _ => Ok (node T_DOC [ heading (lit "Requirements");
                                      bullet_list [ lit "Login works";
                                                    lit "Logout works" ] ]))
           1000 (lit "{}") (lit "Requirements")
           [ lit "Login works"; lit "Logout works" ]
           eq_refl
           ltac:(lia)
           ltac:(vm_compute; intuition discriminate)
           ltac:(repeat constructor; vm_compute; intuition discriminate))
    as (text & E & _ & H).
  exists text. split; [exact E|]. apply H. repeat constructor.
Defined.

End PageRequirements.

(** ** The configuration *)

Module ConfigFacts.
Import Exc Config.

Lemma split_nonempty s sep : split s sep <> [].
Proof.
  destruct s as [|c s]; simpl; [discriminate|].
  destruct (c =? sep)%N; [discriminate|].
  destruct (split s sep); discriminate.
Qed.

Lemma split_one s sep : ~ In sep s -> split s sep = [s].
Proof.
  induction s as [|c s IH]; intros H; [reflexivity|]. simpl.
  destruct (c =? sep)%N eqn:E.
  - apply N.eqb_eq in E. exfalso. apply H. left. exact E.
  - rewrite IH; [reflexivity|]. intros Hin. apply H. right. exact Hin.
Qed.

Lemma split_app a b sep :
  ~ In sep a -> split (a ++ sep :: b) sep = a :: split b sep.
Proof.
  induction a as [|c a IH]; intros H.
  - simpl. rewrite N.eqb_refl. reflexivity.
  - simpl. destruct (c =? sep)%N eqn:E.
    + apply N.eqb_eq in E. exfalso. apply H. left. exact E.
    + rewrite IH; [reflexivity|]. intros Hin. apply H. right. exact Hin.
Qed.

(** One field passes the check exactly when its setting is filled in. *)
Lemma check_field_ok config section name :
  ~ In DOT section -> ~ In DOT name ->
  check_field config (section ++ DOT :: name) = Ok tt
  <-> configured config section name.
Proof.
  intros Hs Hn. unfold check_field. cbv zeta.
  rewrite (split_app section name DOT Hs), (split_one name DOT Hn).
  split.
  - intros H. destruct config as [| | | | |members]; try discriminate H.
    cbn [walk subscript bind] in H.
    destruct (lookup members section) as [v|] eqn:E1; [|discriminate H].
    cbn [bind] in H.
    destruct v as [| | | | |sec]; try discriminate H.
    cbn [subscript] in H.
    destruct (lookup sec name) as [v|] eqn:E2; [|discriminate H].
    cbn [bind] in H.
    destruct (truthy v) eqn:Et; [|discriminate H]. cbn [negb] in H.
    destruct v as [| | |s| |]; try discriminate H.
    cbn [startswith_your bind] in H.
    destruct (Py.startswith s YOUR) eqn:Ey; [discriminate H|].
    exists s. split; [exists members, sec; auto|]. split; [|exact Ey].
    intros ->. discriminate Et.
  - intros (s & (members & sec & -> & E1 & E2) & Hne & Hy).
    cbn [walk subscript bind]. rewrite E1. cbn [bind subscript]. rewrite E2.
    cbn [bind truthy]. destruct s as [|c s]; [contradiction|].
    cbn [Py.truthy negb startswith_your bind]. rewrite Hy. reflexivity.
Qed.

Lemma check_fields_cons config field rest :
  check_fields config (field :: rest) = Ok tt
  <-> check_field config field = Ok tt /\ check_fields config rest = Ok tt.
Proof.
  cbn [check_fields]. destruct (check_field config field) as [[]|e]; cbn [bind].
  - tauto.
  - split; [discriminate | intros [H _]; discriminate H].
Qed.

Lemma no_dot s : forallb (fun c => negb (c =? DOT)%N) s = true -> ~ In DOT s.
Proof.
  intros H Hin. rewrite forallb_forall in H. specialize (H DOT Hin).
  rewrite N.eqb_refl in H. discriminate H.
Qed.

Lemma validate_iff config :
  _validate_config config = Ok tt
  <-> configured config CONFLUENCE BASE_URL
      /\ configured config CONFLUENCE USERNAME
      /\ configured config CONFLUENCE API_TOKEN
      /\ configured config PROJECT REPOSITORY_PATH
      /\ configured config ANTHROPIC API_KEY.
Proof.
  unfold _validate_config.
  change required_fields
    with [ CONFLUENCE ++ DOT :: BASE_URL; CONFLUENCE ++ DOT :: USERNAME;
           CONFLUENCE ++ DOT :: API_TOKEN; PROJECT ++ DOT :: REPOSITORY_PATH;
           ANTHROPIC ++ DOT :: API_KEY ].
  rewrite !check_fields_cons.
  rewrite !check_field_ok by (apply no_dot; reflexivity).
  cbn [check_fields]. tauto.
Qed.



(** The loop raises nothing but KeyError and TypeError. *)
Lemma walk_raises keys : forall current e,
  walk current keys = Raise e -> e = KeyError \/ e = TypeError.
Proof.
  induction keys as [|k keys IH]; intros current e H; [discriminate H|].
  cbn [walk] in H. destruct current as [| | | | |members];
    cbn [subscript bind] in H;
    try (inversion H; right; reflexivity).
  destruct (lookup members k) as [v|]; cbn [bind] in H.
  - apply (IH v e H).
  - inversion H. left. reflexivity.
Qed.

(** X16: [_validate_config] returns exactly for the configurations in which
    each of the five required settings is a string under its name in a
    mapping under its section, not empty and not starting with "your-";
    for every other configuration it raises. *)
Theorem X16_validation_accepts_filled_settings (config : yaml) :
  _validate_config config = Ok tt
  <-> configured config CONFLUENCE BASE_URL
      /\ configured config CONFLUENCE USERNAME
      /\ configured config CONFLUENCE API_TOKEN
      /\ configured config PROJECT REPOSITORY_PATH
      /\ configured config ANTHROPIC API_KEY.
Proof. apply validate_iff. Qed.



(** X18: [get] raises nothing but TypeError.  A key without dot is looked
    up in the mapping: its value, or the default when it is absent.  A dotted
    key whose first part leads to a value that is not a mapping raises
    TypeError: the default is not returned. *)
Theorem X18_get_default_or_type_error (config : yaml) (key : str)
  (default : yaml) :
  (forall e, get config key default = Raise e -> e = TypeError)
  /\ (forall members,
        config = YDict members -> ~ In DOT key ->
        get config key default =
        Ok (match lookup members key with Some v => v | None => default end))
  /\ (forall members v rest,
        config = YDict members -> ~ In DOT key ->
        lookup members key = Some v -> (forall ms, v <> YDict ms) ->
        get config (key ++ DOT :: rest) default = Raise TypeError).
Proof.
  split; [|split].
  - intros e H. unfold get in H.
    destruct (walk config (split key DOT)) as [v|e'] eqn:E; [discriminate H|].
    destruct (walk_raises _ _ _ E) as [->| ->]; [discriminate H|].
    inversion H. reflexivity.
  - intros members -> Hk. unfold get. rewrite (split_one key DOT Hk).
    cbn [walk subscript]. destruct (lookup members key); reflexivity.
  - intros members v rest -> Hk Hv Hnd. unfold get.
    rewrite (split_app key rest DOT Hk). cbn [walk subscript]. rewrite Hv.
    cbn [bind]. pose proof (split_nonempty rest DOT) as Hne.
    destruct (split rest DOT) as [|k ks]; [contradiction|].
    cbn [walk]. destruct v as [| | | | |ms]; try reflexivity.
    exfalso. apply (Hnd ms). reflexivity.
Qed.

Lemma X18_get_default_or_type_error_witness :
  get (YDict [ (PROJECT, YStr (lit "/repo")) ]) (lit "output") (YInt 7)
  = Ok (YInt 7)
  /\ get (YDict [ (PROJECT, YStr (lit "/repo")) ])
         (lit "project.repository_path") (YInt 7) = Raise TypeError.
Proof.
  split.
  - apply (proj1 (proj2 (X18_get_default_or_type_error
             (YDict [ (PROJECT, YStr (lit "/repo")) ]) (lit "output") (YInt 7)))
             _ eq_refl).
    apply no_dot. reflexivity.
  - apply (proj2 (proj2 (X18_get_default_or_type_error
             (YDict [ (PROJECT, YStr (lit "/repo")) ]) PROJECT (YInt 7)))
             _ (YStr (lit "/repo")) REPOSITORY_PATH eq_refl).
    + apply no_dot. reflexivity.
    + reflexivity.
    + intros ms H. discriminate H.
Defined.

(** The loop stops at the first field whose check raises. *)
Lemma check_fields_first config pre field post e :
  Forall (fun f => check_field config f = Ok tt) pre ->
  check_field config field = Raise e ->
  check_fields config (pre ++ field :: post) = Raise e.
Proof.
  induction 1 as [|f pre Hf _ IH]; intros H; cbn [app check_fields].
  - rewrite H. reflexivity.
  - rewrite Hf. cbn [bind]. apply IH, H.
Qed.

(** What the check of one field raises, by the shape of the configuration. *)
Lemma check_field_raises config section name :
  ~ In DOT section -> ~ In DOT name ->
  ((forall ms, config <> YDict ms) ->
   check_field config (section ++ DOT :: name) = Raise TypeError)
  /\ (forall ms, config = YDict ms -> lookup ms section = None ->
      check_field config (section ++ DOT :: name)
      = Raise (ValueError (MISSING ++ section ++ DOT :: name)))
  /\ (forall ms v, config = YDict ms -> lookup ms section = Some v ->
      (forall sec, v <> YDict sec) ->
      check_field config (section ++ DOT :: name) = Raise TypeError)
  /\ (forall ms sec, config = YDict ms ->
      lookup ms section = Some (YDict sec) -> lookup sec name = None ->
      check_field config (section ++ DOT :: name)
      = Raise (ValueError (MISSING ++ section ++ DOT :: name)))
  /\ (forall ms sec v, config = YDict ms ->
      lookup ms section = Some (YDict sec) -> lookup sec name = Some v ->
      (truthy v = false \/ exists s, v = YStr s /\ Py.startswith s YOUR = true) ->
      check_field config (section ++ DOT :: name)
      = Raise (ValueError (PLEASE_SET ++ section ++ DOT :: name)))
  /\ (forall ms sec v, config = YDict ms ->
      lookup ms section = Some (YDict sec) -> lookup sec name = Some v ->
      truthy v = true -> (forall s, v <> YStr s) ->
      check_field config (section ++ DOT :: name) = Raise AttributeError).
Proof.
  intros Hs Hn. unfold check_field. cbv zeta.
  rewrite (split_app section name DOT Hs), (split_one name DOT Hn).
  cbn [walk]. repeat split.
  - intros H. destruct config as [| | | | |ms]; try reflexivity.
    exfalso. apply (H ms). reflexivity.
  - intros ms -> E. cbn [subscript]. rewrite E. reflexivity.
  - intros ms v -> E H. cbn [subscript]. rewrite E. cbn [bind].
    destruct v as [| | | | |sec]; try reflexivity.
    exfalso. apply (H sec). reflexivity.
  - intros ms sec -> E1 E2. cbn [subscript]. rewrite E1. cbn [bind subscript].
    rewrite E2. reflexivity.
  - intros ms sec v -> E1 E2 H. cbn [subscript]. rewrite E1.
    cbn [bind subscript]. rewrite E2. cbn [bind].
    destruct H as [H|(s & -> & H)].
    + rewrite H. reflexivity.
    + destruct (truthy (YStr s)); cbn [negb]; [|reflexivity].
      cbn [startswith_your bind]. rewrite H. reflexivity.
  - intros ms sec v -> E1 E2 Ht H. cbn [subscript]. rewrite E1.
    cbn [bind subscript]. rewrite E2. cbn [bind]. rewrite Ht. cbn [negb].
    destruct v as [| | |s| |]; try reflexivity.
    exfalso. apply (H s). reflexivity.
Qed.

(** X19: [_validate_config] stops at the first required field whose check
    fails.  It raises ValueError "Missing required configuration field" when
    the section or the name is absent from its mapping, and ValueError
    "Please set a valid value" when the value is falsy or a string starting
    with "your-".  It raises TypeError, not ValueError, when the
    configuration or the section is not a mapping, and AttributeError when the
    value is truthy and not a string. *)
Theorem X19_validation_errors (config : yaml) (pre post : list str)
  (section name : str) :
  required_fields = pre ++ (section ++ DOT :: name) :: post ->
  ~ In DOT section -> ~ In DOT name ->
  Forall (fun f => check_field config f = Ok tt) pre ->
  ((forall ms, config <> YDict ms) ->
   _validate_config config = Raise TypeError)
  /\ (forall ms, config = YDict ms -> lookup ms section = None ->
      _validate_config config
      = Raise (ValueError (MISSING ++ section ++ DOT :: name)))
  /\ (forall ms v, config = YDict ms -> lookup ms section = Some v ->
      (forall sec, v <> YDict sec) ->
      _validate_config config = Raise TypeError)
  /\ (forall ms sec, config = YDict ms ->
      lookup ms section = Some (YDict sec) -> lookup sec name = None ->
      _validate_config config
      = Raise (ValueError (MISSING ++ section ++ DOT :: name)))
  /\ (forall ms sec v, config = YDict ms ->
      lookup ms section = Some (YDict sec) -> lookup sec name = Some v ->
      (truthy v = false \/ exists s, v = YStr s /\ Py.startswith s YOUR = true) ->
      _validate_config config
      = Raise (ValueError (PLEASE_SET ++ section ++ DOT :: name)))
  /\ (forall ms sec v, config = YDict ms ->
      lookup ms section = Some (YDict sec) -> lookup sec name = Some v ->
      truthy v = true -> (forall s, v <> YStr s) ->
      _validate_config config = Raise AttributeError).
Proof.
  intros Hreq Hs Hn Hpre. unfold _validate_config. rewrite Hreq.
  destruct (check_field_raises config section name Hs Hn)
    as (H1 & H2 & H3 & H4 & H5 & H6).
  repeat split; intros; apply (check_fields_first config pre _ post _ Hpre);
    eauto.
Qed.

Lemma X19_validation_errors_witness :
  _validate_config
    (YDict [ (CONFLUENCE, YDict [ (BASE_URL, YInt 8080) ]) ])
  = Raise AttributeError
  /\ _validate_config
       (YDict [ (CONFLUENCE, YDict [ (BASE_URL, YStr (lit "https://a.org"));
                                     (USERNAME, YStr (lit "your-email")) ]) ])
     = Raise (ValueError (lit "Please set a valid value for confluence.username")).
Proof.
  split.
  - apply (proj2 (proj2 (proj2 (proj2 (proj2
      (X19_validation_errors
         (YDict [ (CONFLUENCE, YDict [ (BASE_URL, YInt 8080) ]) ])
         [] (tl required_fields) CONFLUENCE BASE_URL eq_refl
         (no_dot CONFLUENCE eq_refl) (no_dot BASE_URL eq_refl) (Forall_nil _))))))
      _ _ (YInt 8080) eq_refl eq_refl eq_refl eq_refl).
    intros s H. discriminate H.
  - pose proof (X19_validation_errors
         (YDict [ (CONFLUENCE, YDict [ (BASE_URL, YStr (lit "https://a.org"));
                                       (USERNAME, YStr (lit "your-email")) ]) ])
         [ lit "confluence.base_url" ] (tl (tl required_fields))
         CONFLUENCE USERNAME eq_refl
         (no_dot CONFLUENCE eq_refl) (no_dot USERNAME eq_refl)) as H.
    assert (Hpre : Forall
              (fun f => check_field
                 (YDict [ (CONFLUENCE,
                           YDict [ (BASE_URL, YStr (lit "https://a.org"));
                                   (USERNAME, YStr (lit "your-email")) ]) ])
                 f = Ok tt)
              [ lit "confluence.base_url" ])
      by (constructor; [reflexivity | constructor]).
    destruct (H Hpre) as (_ & _ & _ & _ & H5 & _).
    apply (H5 _ _ (YStr (lit "your-email")) eq_refl eq_refl eq_refl).
    right. exists (lit "your-email"). split; reflexivity.
Defined.

End ConfigFacts.

(** ** The directory tree and its listing *)

Module TreeFacts.
Import ProjectTree.

Lemma depth_dict entries : depth (NDict entries) = S (deepest entries).
Proof.
  reflexivity.
Qed.

Lemma simplified_dict tree max_depth current_depth :
  _get_simplified_tree tree max_depth current_depth =
  if (current_depth >=? max_depth)%Z then [(ELLIPSIS, NStr TRUNCATED)]
  else simplify_items max_depth current_depth tree [].
Proof.
  unfold _get_simplified_tree. cbn [simplified_of].
  destruct (current_depth >=? max_depth)%Z; [reflexivity|].
  match goal with
  | |- ?loop tree [] = _ =>
      assert (H : forall acc,
                loop tree acc
                = simplify_items max_depth current_depth tree acc)
  end; [|apply H].
  induction tree as [|[k v] tree IH]; intros acc; [reflexivity|].
  cbn [simplify_items]. rewrite <- IH. destruct v as [| |[|e es]]; reflexivity.
Qed.

Lemma format_nil indent : _format_directory_structure [] indent = [].
Proof. reflexivity. Qed.

Lemma format_cons key value rest indent :
  _format_directory_structure ((key, value) :: rest) indent =
  (line indent key
   ++ match value with
      | NDict (e :: es) => _format_directory_structure (e :: es) (indent + 1)
      | _ => []
      end)
  ++ _format_directory_structure rest indent.
Proof.
  unfold _format_directory_structure. cbn [format_of].
  destruct value as [| |[|e es]]; reflexivity.
Qed.

(** Induction on a value, with the property for the values of a dict. *)
Lemma node_nested_ind (P : node -> Prop) :
  P NNone -> (forall s, P (NStr s)) ->
  (forall entries, Forall (fun kv => P (snd kv)) entries -> P (NDict entries)) ->
  forall v, P v.
Proof.
  intros HN HS HD. fix IH 1. intros [|s|entries].
  - exact HN.
  - apply HS.
  - apply HD. induction entries as [|[k v] entries IHe].
    + constructor.
    + constructor; [apply IH | exact IHe].
Qed.

Lemma dict_set_forall (Q : str * node -> Prop) d key value :
  Forall Q d -> Q (key, value) -> Forall Q (dict_set d key value).
Proof.
  intros Hd Hq. induction Hd as [|[k v] d Hkv Hd IH]; cbn [dict_set].
  - constructor; [exact Hq | constructor].
  - destruct (Py.str_eqb k key) eqn:E.
    + apply Language.str_eqb_eq in E. subst k.
      constructor; [exact Hq|]. assumption.
    + constructor; assumption.
Qed.

Lemma deepest_forall l n :
  deepest l <= n <-> Forall (fun kv => depth (snd kv) <= n) l.
Proof.
  induction l as [|[k v] l IH]; cbn [deepest].
  - split; [constructor | lia].
  - split.
    + intros H. constructor; [cbn [snd]; lia | apply IH; lia].
    + intros H. inversion H as [|? ? H1 H2]; subst. cbn [snd] in H1.
      apply IH in H2. lia.
Qed.

(** The shape and the depth of what the loop builds. *)
Lemma simplify_items_shape max_depth current_depth items :
  (current_depth < max_depth)%Z ->
  Forall (fun kv => forall m c,
            Forall simplified_entry (simplified_of (snd kv) m c)
            /\ deepest (simplified_of (snd kv) m c) <= Z.to_nat (m - c))
         items ->
  forall acc,
    Forall simplified_entry acc ->
    deepest acc <= Z.to_nat (max_depth - current_depth) ->
    Forall simplified_entry
           (simplify_items max_depth current_depth items acc)
    /\ deepest (simplify_items max_depth current_depth items acc)
       <= Z.to_nat (max_depth - current_depth).
Proof.
  intros Hlt. induction 1 as [|[k v] items Hv _ IH]; intros acc Ha Hd.
  - split; assumption.
  - cbn [simplify_items]. cbn [snd] in Hv.
    apply deepest_forall in Hd.
    destruct v as [| |[|e es]].
    + apply IH; [|apply deepest_forall]; apply dict_set_forall;
        try assumption; [constructor | cbn; lia].
    + apply IH; [|apply deepest_forall]; apply dict_set_forall;
        try assumption; [constructor | cbn; lia].
    + apply IH; [|apply deepest_forall]; apply dict_set_forall;
        try assumption; [constructor; constructor | cbn; lia].
    + destruct (Hv max_depth (current_depth + 1)%Z) as [H1 H2].
      fold (_get_simplified_tree (e :: es) max_depth (current_depth + 1))
        in H1, H2.
      apply IH; [|apply deepest_forall]; apply dict_set_forall;
        try assumption; [constructor; exact H1|].
      cbn [snd]. rewrite depth_dict. lia.
Qed.

Lemma simplified_shape value : forall max_depth current_depth,
  Forall simplified_entry (simplified_of value max_depth current_depth)
  /\ deepest (simplified_of value max_depth current_depth)
     <= Z.to_nat (max_depth - current_depth).
Proof.
  induction value as [|s|tree IH] using node_nested_ind;
    intros max_depth current_depth.
  - split; [constructor | cbn; lia].
  - split; [constructor | cbn; lia].
  - fold (_get_simplified_tree tree max_depth current_depth).
    rewrite simplified_dict.
    destruct (current_depth >=? max_depth)%Z eqn:E.
    + split; [constructor; [constructor | constructor] | cbn; lia].
    + apply simplify_items_shape; [lia | exact IH | constructor | cbn; lia].
Qed.

(** X20: whatever the tree and the depths, the dict that
    [_get_simplified_tree] returns holds only a directory under a name that
    ends in a slash, a file under its name with [None], or the mark
    {"...": "truncated"}, at every level; and its dicts are nested no
    deeper than [max_depth - current_depth] below the top. *)
Theorem X20_simplified_tree_bounded (tree : list (str * node))
  (max_depth current_depth : Z) :
  Forall simplified_entry (_get_simplified_tree tree max_depth current_depth)
  /\ depth (NDict (_get_simplified_tree tree max_depth current_depth))
     <= S (Z.to_nat (max_depth - current_depth)).
Proof.
  destruct (simplified_shape (NDict tree) max_depth current_depth) as [H1 H2].
  split; [exact H1|]. rewrite depth_dict.
  unfold _get_simplified_tree. lia.
Qed.

Lemma str_eqb_neq (a b : str) : a <> b -> Py.str_eqb a b = false.
Proof.
  intros H. destruct (Py.str_eqb a b) eqn:E; [|reflexivity].
  apply Language.str_eqb_eq in E. contradiction.
Qed.

(** A new key goes to the end. *)
Lemma dict_set_fresh d key value :
  ~ In key (map fst d) -> dict_set d key value = d ++ [(key, value)].
Proof.
  induction d as [|[k v] d IH]; intros H; [reflexivity|].
  cbn [dict_set map fst In] in *.
  rewrite str_eqb_neq by (intros E; apply H; left; exact E).
  rewrite IH by (intros Hin; apply H; right; exact Hin). reflexivity.
Qed.

Lemma simplify_items_fresh max_depth current_depth items : forall acc,
  NoDup (map fst acc
         ++ map (fun kv => fst (simplify_entry max_depth current_depth kv))
                items) ->
  simplify_items max_depth current_depth items acc
  = acc ++ map (simplify_entry max_depth current_depth) items.
Proof.
  induction items as [|[k v] items IH]; intros acc H.
  - cbn. rewrite app_nil_r. reflexivity.
  - cbn [simplify_items map].
    assert (Hstep : forall key value,
              (key, value) = simplify_entry max_depth current_depth (k, v) ->
              simplify_items max_depth current_depth items
                (dict_set acc key value)
              = acc ++ (key, value)
                       :: map (simplify_entry max_depth current_depth) items).
    { intros key value E. cbn [map] in H. rewrite <- E in H. cbn [fst] in H.
      rewrite dict_set_fresh.
      - rewrite IH.
        + rewrite <- app_assoc. reflexivity.
        + rewrite map_app. cbn [map fst]. rewrite <- app_assoc. exact H.
      - apply NoDup_remove_2 in H. intros Hin. apply H.
        apply in_or_app. left. exact Hin. }
    destruct v as [| |[|e es]]; apply Hstep; reflexivity.
Qed.

Lemma in_app_last (k : str) : In 47%N (k ++ SLASH).
Proof. apply in_or_app. right. left. reflexivity. Qed.

(** Names without slash stay apart when the directories get theirs. *)
Lemma marked_names_apart max_depth current_depth tree :
  NoDup (map fst tree) ->
  Forall (fun kv => ~ In 47%N (fst kv)) tree ->
  NoDup (map (fun kv => fst (simplify_entry max_depth current_depth kv)) tree).
Proof.
  intros Hnd Hns. induction tree as [|[k v] tree IH]; [constructor|].
  cbn [map fst] in Hnd. inversion Hnd as [|? ? Hk Hrest]; subst.
  inversion Hns as [|? ? Hsk Hstree]; subst. cbn [fst] in Hsk.
  cbn [map]. constructor; [|apply IH; assumption].
  intros Hin. apply in_map_iff in Hin. destruct Hin as ([k' v'] & E & Hin').
  assert (Hk' : In k' (map fst tree))
    by (apply in_map_iff; exists (k', v'); split; [reflexivity | exact Hin']).
  assert (Hsk' : ~ In 47%N k').
  { rewrite Forall_forall in Hstree. apply (Hstree (k', v') Hin'). }
  unfold simplify_entry in E. cbn [fst snd] in E.
  assert (Hcases : k' = k \/ k' ++ SLASH = k \/ k' = k ++ SLASH).
  { destruct v as [| |[|e es]]; destruct v' as [| |[|e' es']]; cbn [fst] in E;
      (try (left; exact E)); (try (right; left; exact E));
      (try (right; right; exact E));
      left; apply (app_inv_tail SLASH); exact E. }
  destruct Hcases as [->|[<-| ->]].
  - contradiction.
  - apply Hsk, in_app_last.
  - apply Hsk', in_app_last.
Qed.

Lemma listing_of_entries max_depth current_depth indent tree :
  _format_directory_structure
    (map (simplify_entry max_depth current_depth) tree) indent
  = concat (map (list_entry max_depth current_depth indent) tree).
Proof.
  induction tree as [|[k v] tree IH]; [reflexivity|].
  cbn [map concat]. rewrite <- IH.
  unfold simplify_entry at 1, list_entry. cbn [fst snd].
  destruct v as [| |[|e es]]; rewrite format_cons;
    try (rewrite app_nil_r; reflexivity).
  destruct (_get_simplified_tree (e :: es) max_depth (current_depth + 1));
    reflexivity.
Qed.

(** X21: for a tree whose names are distinct and hold no slash, as the
    names of the entries of a directory are, and a depth below the limit,
    [_get_simplified_tree] keeps every entry, in order: a directory under its
    name with a slash, a file under its name.  So the listing that
    [_format_directory_structure] writes of the result has, for each entry
    in order, its line, followed for a directory that is not empty by the
    listing of that directory one level in. *)
Theorem X21_names_kept_and_listed (tree : list (str * node))
  (max_depth current_depth : Z) :
  NoDup (map fst tree) ->
  Forall (fun kv => ~ In 47%N (fst kv)) tree ->
  (current_depth < max_depth)%Z ->
  _get_simplified_tree tree max_depth current_depth
  = map (simplify_entry max_depth current_depth) tree
  /\ forall indent,
       _format_directory_structure
         (_get_simplified_tree tree max_depth current_depth) indent
       = concat (map (list_entry max_depth current_depth indent) tree).
Proof.
  intros Hnd Hns Hlt.
  assert (E : _get_simplified_tree tree max_depth current_depth
              = map (simplify_entry max_depth current_depth) tree).
  { rewrite simplified_dict.
    destruct (current_depth >=? max_depth)%Z eqn:Ec; [lia|].
    rewrite simplify_items_fresh; [reflexivity|].
    cbn [map app]. apply marked_names_apart; assumption. }
  split; [exact E|]. intros indent. rewrite E. apply listing_of_entries.
Qed.

Lemma X21_names_kept_and_listed_witness :
  _format_directory_structure
    (_get_simplified_tree
       [ (lit "src", NDict [ (lit "a.py", NNone) ]); (lit "docs", NDict []);
         (lit "README.md", NNone) ] 1 0) 0
  = Inputs.text [ "- src/"; "  - ..."; "- docs/"; "- README.md"; "" ]%string.
Proof.
  rewrite (proj2 (X21_names_kept_and_listed
    [ (lit "src", NDict [ (lit "a.py", NNone) ]); (lit "docs", NDict []);
      (lit "README.md", NNone) ] 1 0
    ltac:(repeat constructor; cbn; intuition discriminate)
    ltac:(repeat constructor; cbn; intuition discriminate)
    eq_refl)).
  reflexivity.
Defined.

End TreeFacts.

(** ** End of input *)

Module EndOfInput.
Import ClaudeGenerator.

Section Code.
Import ParseCode CodeLines.
Context {U : Unicode}.

(** With no file in progress, a line of the Files section that is no header
    is passed over. *)
Lemma step_unset st line :
  plain line ->
  in_section (current_section st) s_files = true ->
  is_set (current_file st) = false ->
  step st line = st.
Proof.
  intros [Hh Hf] Hs Hc. apply CodeFacts.not_header_inv in Hh.
  destruct Hh as (H1 & H2 & H3 & H4).
  unfold step, is_file_header in *. cbv zeta.
  rewrite H1, H2, H3, H4, Hs, Hf, Hc. simpl.
  destruct (current_section st) as [[]|]; try discriminate Hs; reflexivity.
Qed.

Lemma run_unset body : forall st,
  Forall plain body ->
  in_section (current_section st) s_files = true ->
  is_set (current_file st) = false ->
  run body st = st.
Proof.
  induction body as [|l body IH]; intros st Hp Hs Hc; [reflexivity|].
  inversion Hp as [|? ? Hl Hp']; subst. simpl.
  rewrite (step_unset st l Hl Hs Hc). apply IH; assumption.
Qed.

(** The files returned for an input that ends with a file header line of
    the Files section and the lines of its body. *)
Lemma last_file st hdr body :
  in_section (current_section st) s_files = true ->
  is_file_header hdr = true ->
  Forall plain body ->
  files (finish (run (hdr :: body) st)) =
  files (save_previous st) ++
  (if Py.truthy (header_path hdr) && Py.truthy (kept body)
   then [ mk_file (header_path hdr) (Py.join_lines (kept body))
                  (_detect_language_from_path (header_path hdr)) ]
   else []).
Proof.
  intros Hs Hh Hb. destruct (Py.truthy (header_path hdr)) eqn:Hp.
  - rewrite (CodeResponse.run_file_block U st hdr body Hs Hh Hp Hb).
    unfold finish. cbn [current_file current_content res]. rewrite Hp.
    cbn [andb]. destruct (Py.truthy (kept body));
      [reflexivity | rewrite app_nil_r; reflexivity].
  - change (run (hdr :: body) st) with (run body (step st hdr)).
    rewrite (CodeFacts.step_file_header st hdr
               (CodeResponse.file_header_not_section hdr Hh) Hs Hh).
    rewrite run_unset; [| exact Hb | exact Hs |].
    + unfold finish. cbn [current_file current_content res]. rewrite Hp.
      cbn [andb]. rewrite app_nil_r. reflexivity.
    + cbn [current_file is_set]. exact Hp.
Qed.

(** What the end of the loop does with the state, whatever the input. *)
Lemma finish_files st :
  files (finish st) =
  files (res st) ++
  match current_file st with
  | Some p =>
      if Py.truthy p && Py.truthy (current_content st)
      then [ mk_file p (Py.join_lines (current_content st))
                     (_detect_language_from_path p) ]
      else []
  | None => []
  end.
Proof.
  unfold finish. destruct (current_file st) as [p|];
    [|rewrite app_nil_r; reflexivity].
  destruct (Py.truthy p && Py.truthy (current_content st));
    [reflexivity | rewrite app_nil_r; reflexivity].
Qed.

End Code.

Section Test.
Import ParseTest TestLines.
Context {U : Unicode}.

(** With no file in progress, a line of the Files section that is no header
    is passed over. *)
Lemma t_step_unset st line :
  plain line ->
  in_section (current_section st) s_files = true ->
  is_set (current_file st) = false ->
  step st line = st.
Proof.
  intros [Hh Hf] Hs Hc. apply TestFacts.t_not_header_inv in Hh.
  destruct Hh as (H1 & H2 & H3 & H4).
  unfold step, is_file_header in *. cbv zeta.
  rewrite H1, H2, H3, H4, Hs, Hf, Hc. simpl.
  destruct (current_section st) as [[]|]; try discriminate Hs; reflexivity.
Qed.

Lemma t_run_unset body : forall st,
  Forall plain body ->
  in_section (current_section st) s_files = true ->
  is_set (current_file st) = false ->
  run body st = st.
Proof.
  induction body as [|l body IH]; intros st Hp Hs Hc; [reflexivity|].
  inversion Hp as [|? ? Hl Hp']; subst. simpl.
  rewrite (t_step_unset st l Hl Hs Hc). apply IH; assumption.
Qed.

(** The files returned for an input that ends with a file header line of
    the Files section and the lines of its body. *)
Lemma t_last_file st hdr body :
  in_section (current_section st) s_files = true ->
  is_file_header hdr = true ->
  Forall plain body ->
  test_files (finish (run (hdr :: body) st)) =
  test_files (save_previous st) ++
  (if Py.truthy (header_path hdr) && Py.truthy (kept body)
   then [ mk_file (header_path hdr) (Py.join_lines (kept body))
                  (_detect_language_from_path (header_path hdr)) ]
   else []).
Proof.
  intros Hs Hh Hb. destruct (Py.truthy (header_path hdr)) eqn:Hp.
  - rewrite (TestBlocks.t_run_file_block U st hdr body Hs Hh Hp Hb).
    unfold finish. cbn [current_file current_content res]. rewrite Hp.
    cbn [andb]. destruct (Py.truthy (kept body));
      [reflexivity | rewrite app_nil_r; reflexivity].
  - change (run (hdr :: body) st) with (run body (step st hdr)).
    rewrite (TestBlocks.t_step_file_header st hdr
               (TestBlocks.t_file_header_not_section hdr Hh) Hs Hh).
    rewrite t_run_unset; [| exact Hb | exact Hs |].
    + unfold finish. cbn [current_file current_content res]. rewrite Hp.
      cbn [andb]. rewrite app_nil_r. reflexivity.
    + cbn [current_file is_set]. exact Hp.
Qed.

(** What the end of the loop does with the state, whatever the input. *)
Lemma t_finish_files st :
  test_files (finish st) =
  test_files (res st) ++
  match current_file st with
  | Some p =>
      if Py.truthy p && Py.truthy (current_content st)
      then [ mk_file p (Py.join_lines (current_content st))
                     (_detect_language_from_path p) ]
      else []
  | None => []
  end.
Proof.
  unfold finish. destruct (current_file st) as [p|];
    [|rewrite app_nil_r; reflexivity].
  destruct (Py.truthy p && Py.truthy (current_content st));
    [reflexivity | rewrite app_nil_r; reflexivity].
Qed.

End Test.

Lemma startswith_split (p : str) : forall s,
  Py.startswith s p = true -> exists rest, s = p ++ rest.
Proof.
  induction p as [|a p IH]; intros s H.
  - exists s. reflexivity.
  - rewrite PyFacts.startswith_cons in H. destruct s as [|b s]; [discriminate|].
    apply andb_true_iff in H. destruct H as [H1 H2].
    apply N.eqb_eq in H1. subst b. destruct (IH s H2) as [rest ->].
    exists rest. reflexivity.
Qed.

(** The path of a header line: the text after the marker with every further
    occurrence of the marker removed, trimmed. *)
Lemma header_path_removes line rest :
  Py.strip line = FILE_MARKER ++ rest ->
  header_path line = Py.strip (Py.remove rest FILE_MARKER).
Proof.
  intros Hl. unfold header_path. rewrite Hl. unfold FILE_MARKER.
  rewrite MarkerFacts.remove_prefix. reflexivity.
Qed.

(** C6, as the specification states it, fails on the path: the header line
    "### File: a### File: b" has " a### File: b" after the marker, and the
    file returned at the end of the input has the path "a b", not that text
    trimmed: [replace] removes every occurrence of the marker. *)
Lemma C6_marker_twice_counterexample :
  let hdr := lit "### File: a### File: b" in
  let s := Inputs.text [ "## Files to Create/Modify";
                         "### File: a### File: b"; "x = 1" ]%string in
  Py.strip hdr = FILE_MARKER ++ lit " a### File: b"
  /\ ParseCode.files (ParseCode._parse_code_response s [])
     = [ mk_file (lit "a b") (lit "x = 1") (lit "text") ]
  /\ ParseTest.test_files
       (ParseTest._parse_test_response
          (Inputs.text [ "## Test Files";
                         "### File: a### File: b"; "x = 1" ]%string))
     = [ mk_file (lit "a b") (lit "x = 1") (lit "text") ]
  /\ lit "a b" <> Py.strip (lit " a### File: b").
Proof.
  cbv zeta. repeat split; try (vm_compute; reflexivity).
  vm_compute. discriminate.
Qed.

(** C6 (amended): at the end of the input a file in progress with a path
    and at least one content line is appended to the files already saved,
    with its lines joined by newlines and the language of its path; a file in
    progress without content line is dropped.  So for an input that ends with
    a file header line read in the Files section and lines that are neither
    section nor file headers, the files returned are the ones saved up to
    that header line and, when the header names a path and a line of the body
    is no fence line, the file of that header with the kept lines of the
    body.  The path is the trimmed header line without any occurrence of the
    marker, trimmed again: the text after the marker, trimmed, only when
    that text does not hold the marker once more.  This for
    [_parse_code_response] and for [_parse_test_response]. *)
Theorem C6_end_of_input (U : Unicode) (s : str)
  (task_data : list (str * str)) :
  let st := ParseCode.run (Py.split_lines s) (ParseCode.init task_data) in
  let tst := ParseTest.run (Py.split_lines s) ParseTest.init in
  ParseCode.files (ParseCode._parse_code_response s task_data) =
    ParseCode.files (ParseCode.res st) ++
    match ParseCode.current_file st with
    | Some p =>
        if Py.truthy p && Py.truthy (ParseCode.current_content st)
        then [ mk_file p (Py.join_lines (ParseCode.current_content st))
                       (_detect_language_from_path p) ]
        else []
    | None => []
    end
  /\ ParseTest.test_files (ParseTest._parse_test_response s) =
       ParseTest.test_files (ParseTest.res tst) ++
       match ParseTest.current_file tst with
       | Some p =>
           if Py.truthy p && Py.truthy (ParseTest.current_content tst)
           then [ mk_file p (Py.join_lines (ParseTest.current_content tst))
                          (_detect_language_from_path p) ]
           else []
       | None => []
       end
  /\ (forall p, ParseCode.current_file st = Some p ->
        exists line, In line (Py.split_lines s) /\ is_file_header line = true
                     /\ p = header_path line)
  /\ (forall p, ParseTest.current_file tst = Some p ->
        exists line, In line (Py.split_lines s) /\ is_file_header line = true
                     /\ p = header_path line)
  /\ (forall line, is_file_header line = true ->
        exists rest,
          Py.strip line = FILE_MARKER ++ rest
          /\ header_path line = Py.strip (Py.remove rest FILE_MARKER)
          /\ (Py.contains rest FILE_MARKER = false ->
              header_path line = Py.strip rest))
  /\ (forall pre hdr body,
        Py.split_lines s = pre ++ hdr :: body ->
        is_file_header hdr = true ->
        ParseCode.in_section
          (ParseCode.current_section
             (ParseCode.run pre (ParseCode.init task_data)))
          ParseCode.s_files = true ->
        Forall CodeLines.plain body ->
        ParseCode.files (ParseCode._parse_code_response s task_data) =
          ParseCode.files
            (ParseCode.save_previous
               (ParseCode.run pre (ParseCode.init task_data))) ++
          (if Py.truthy (header_path hdr) && Py.truthy (kept body)
           then [ mk_file (header_path hdr) (Py.join_lines (kept body))
                          (_detect_language_from_path (header_path hdr)) ]
           else []))
  /\ (forall pre hdr body,
        Py.split_lines s = pre ++ hdr :: body ->
        is_file_header hdr = true ->
        ParseTest.in_section
          (ParseTest.current_section (ParseTest.run pre ParseTest.init))
          ParseTest.s_files = true ->
        Forall TestLines.plain body ->
        ParseTest.test_files (ParseTest._parse_test_response s) =
          ParseTest.test_files
            (ParseTest.save_previous (ParseTest.run pre ParseTest.init)) ++
          (if Py.truthy (header_path hdr) && Py.truthy (kept body)
           then [ mk_file (header_path hdr) (Py.join_lines (kept body))
                          (_detect_language_from_path (header_path hdr)) ]
           else [])).
Proof.
  intros st tst.
  split; [apply finish_files|]. split; [apply t_finish_files|].
  split.
  { intros p Hf. destruct (CodeFacts.run_current_file _ _ _ Hf) as [E|E];
      [discriminate E | exact E]. }
  split.
  { intros p Hf. destruct (TestFacts.t_run_current_file _ _ _ Hf) as [E|E];
      [discriminate E | exact E]. }
  split.
  { intros line Hh. unfold is_file_header in Hh.
    destruct (startswith_split FILE_MARKER _ Hh) as [rest Hr].
    exists rest. split; [exact Hr|].
    split; [apply header_path_removes, Hr|].
    intros Hc. apply MarkerFacts.header_path_after_marker; assumption. }
  split.
  - intros pre hdr body Hl Hh Hs Hb.
    unfold ParseCode._parse_code_response. rewrite Hl, CodeFacts.run_app.
    apply last_file; assumption.
  - intros pre hdr body Hl Hh Hs Hb.
    unfold ParseTest._parse_test_response. rewrite Hl, TestBlocks.t_run_app.
    apply t_last_file; assumption.
Qed.

(** C6 on two inputs: a last file with one content line is appended, a
    last file with none (only its fence) is dropped. *)
Lemma C6_end_of_input_witness :
  ParseCode.files
    (ParseCode._parse_code_response
       (Inputs.text [ "## Files to Create/Modify"; "### File: a.py";
                      "```python"; "x = 1" ]%string) [])
  = [ mk_file (lit "a.py") (lit "x = 1") (lit "python") ]
  /\ ParseTest.test_files
    (ParseTest._parse_test_response
       (Inputs.text [ "## Test Files"; "### File: test_a.py";
                      "```python" ]%string))
  = [].
Proof.
  split.
  - destruct (C6_end_of_input ascii_tables
                (Inputs.text [ "## Files to Create/Modify"; "### File: a.py";
                               "```python"; "x = 1" ]%string) [])
      as (_ & _ & _ & _ & _ & H & _).
    rewrite (H [ lit "## Files to Create/Modify" ] (lit "### File: a.py")
               [ lit "```python"; lit "x = 1" ] eq_refl eq_refl eq_refl).
    + reflexivity.
    + repeat constructor.
  - destruct (C6_end_of_input ascii_tables
                (Inputs.text [ "## Test Files"; "### File: test_a.py";
                               "```python" ]%string) [])
      as (_ & _ & _ & _ & _ & _ & H).
    rewrite (H [ lit "## Test Files" ] (lit "### File: test_a.py")
               [ lit "```python" ] eq_refl eq_refl eq_refl).
    + reflexivity.
    + repeat constructor.
Defined.

End EndOfInput.

(** ** The extractors raise nothing on a string *)

Module UntypedFacts.
Import Exc PyObj Untyped.

Lemma strings_of (l : list str) : strings (map VStr l) = Ok l.
Proof.
  induction l as [|s l IH]; [reflexivity|].
  cbn [map strings]. rewrite IH. reflexivity.
Qed.

Lemma join_with_newline (parts : list str) :
  join_with ClaudeGenerator.NEWLINE parts = Py.join_lines parts.
Proof.
  induction parts as [|p parts IH]; [reflexivity|].
  cbn [join_with Py.join_lines]. destruct parts as [|q parts]; [reflexivity|].
  rewrite IH. reflexivity.
Qed.

Lemma join_lines_value (cc : list str) :
  join ClaudeGenerator.NEWLINE (strings_value cc) = Ok (VStr (Py.join_lines cc)).
Proof.
  unfold join, strings_value. cbn [iterate bind]. rewrite strings_of.
  cbn [bind]. rewrite join_with_newline. reflexivity.
Qed.

Lemma lookup_dict_value (d : list (str * str)) (k default : str) :
  match lookup (map (fun kv => (fst kv, VStr (snd kv))) d) k with
  | Some v => v
  | None => VStr default
  end = VStr (Py.dict_get d k default).
Proof.
  induction d as [|[a b] d IH]; [reflexivity|].
  cbn [map lookup Py.dict_get fst snd]. destruct (Py.str_eqb a k);
    [reflexivity | exact IH].
Qed.

Section Facts.
Context {U : Unicode}.

Lemma detect_value (p : str) :
  _detect_language_from_path (VStr p)
  = Ok (VStr (ClaudeGenerator._detect_language_from_path p)).
Proof.
  unfold _detect_language_from_path, ClaudeGenerator._detect_language_from_path.
  cbn [splitext_ext bind lower_ str_method]. unfold extension_map.
  cbn [get]. rewrite lookup_dict_value. reflexivity.
Qed.

(** *** [_parse_code_response] *)

Import ClaudeGenerator.

Lemma code_append_file (st : ParseCode.state) (p : str) :
  ParseCode.current_file st = Some p ->
  append_file K_FILES (code_locals st)
  = Ok (code_result_value
          (ParseCode.add_file (ParseCode.res st)
             (artifact p (ParseCode.current_content st)))).
Proof.
  intros Hf. destruct st as [[tk fs a n ds] cs cf cc]. cbn in Hf. subst cf.
  unfold append_file, code_locals.
  cbn [result current_file current_content ParseCode.res
       ParseCode.current_file ParseCode.current_content option_value].
  rewrite join_lines_value, detect_value.
  unfold code_result_value, ParseCode.add_file, artifact.
  cbn [ParseCode.task_key ParseCode.files ParseCode.analysis ParseCode.notes
       ParseCode.dependencies].
  rewrite map_app. reflexivity.
Qed.

Lemma code_add_analysis (r : ParseCode.result) (sec cf cc : value)
  (line : str) :
  add_line K_ANALYSIS (mk_locals (code_result_value r) sec cf cc) (VStr line)
  = Ok (code_result_value (ParseCode.add_analysis r (line ++ NEWLINE))).
Proof. destruct r as [tk fs a n ds]. reflexivity. Qed.

Lemma code_add_notes (r : ParseCode.result) (sec cf cc : value)
  (line : str) :
  add_line K_NOTES (mk_locals (code_result_value r) sec cf cc) (VStr line)
  = Ok (code_result_value (ParseCode.add_notes r (line ++ NEWLINE))).
Proof. destruct r as [tk fs a n ds]. reflexivity. Qed.

Lemma code_add_dependency (r : ParseCode.result) (sec cf cc : value)
  (d : str) :
  append_item K_DEPENDENCIES (mk_locals (code_result_value r) sec cf cc)
              (VStr d)
  = Ok (code_result_value (ParseCode.add_dependency r d)).
Proof.
  destruct r as [tk fs a n ds].
  unfold append_item, code_result_value, ParseCode.add_dependency,
    strings_value.
  cbn [result ParseCode.task_key ParseCode.files
       ParseCode.analysis ParseCode.notes ParseCode.dependencies].
  rewrite map_app. reflexivity.
Qed.

Lemma len_strings (cc : list str) :
  len (strings_value cc) = Ok (length cc).
Proof. unfold strings_value. cbn [len]. rewrite length_map. reflexivity. Qed.

Lemma append_strings (cc : list str) :
  append (strings_value cc)
  = Ok (fun x => VList (map VStr cc ++ [x])).
Proof. reflexivity. Qed.

Lemma strings_value_app (cc : list str) (line : str) :
  VList (map VStr cc ++ [VStr line]) = strings_value (cc ++ [line]).
Proof. unfold strings_value. rewrite map_app. reflexivity. Qed.

Lemma truthy_strings (cc : list str) :
  truthy (strings_value cc) = Py.truthy cc.
Proof. destruct cc; reflexivity. Qed.

Lemma truthy_option (cf : option str) :
  truthy (option_value cf) = is_set cf.
Proof. destruct cf; reflexivity. Qed.

Lemma code_section_tests (cs : option ParseCode.section) :
  eq_str (option_value (option_map code_section_value cs)) K_FILES
  = ParseCode.in_section cs ParseCode.s_files
  /\ eq_str (option_value (option_map code_section_value cs)) K_ANALYSIS
     = ParseCode.in_section cs ParseCode.s_analysis
  /\ eq_str (option_value (option_map code_section_value cs)) K_NOTES
     = ParseCode.in_section cs ParseCode.s_notes
  /\ eq_str (option_value (option_map code_section_value cs)) K_DEPENDENCIES
     = ParseCode.in_section cs ParseCode.s_dependencies.
Proof. destruct cs as [[]|]; repeat split; reflexivity. Qed.

(** The lines of a file, for the state of either parser. *)
Lemma file_lines_sim (key : str) (r : value) (in_files : bool)
  (section : value) (cf : option str) (cc : list str) (line : str)
  (saved : value) :
  eq_str section K_FILES = in_files ->
  (forall p, cf = Some p -> Py.truthy p = true ->
     append_file key (mk_locals r section (option_value cf) (strings_value cc))
     = Ok saved) ->
  file_lines key (mk_locals r section (option_value cf) (strings_value cc))
             (VStr line) (VStr (Py.strip line))
  = Ok (if in_files && Py.startswith (Py.strip line) FILE_MARKER then
          Some (mk_locals (if is_set cf then saved else r) section
                          (VStr (header_path line)) (VList []))
        else if in_files && is_set cf then
          if Py.startswith (Py.strip line) FENCE && (length cc =? 0)
          then Some (mk_locals r section (option_value cf) (strings_value cc))
          else if Py.startswith (Py.strip line) FENCE && (0 <? length cc)
          then Some (mk_locals r section (option_value cf) (strings_value cc))
          else Some (mk_locals r section (option_value cf)
                               (strings_value (cc ++ [line])))
        else None).
Proof.
  intros Hs Hsave. unfold file_lines.
  cbn [current_section current_file current_content result].
  rewrite Hs, truthy_option.
  destruct in_files; cbn [andb bind startswith str_method].
  - destruct (Py.startswith (Py.strip line) FILE_MARKER).
    + cbn [replace strip str_method bind]. unfold header_path.
      destruct cf as [p|]; cbn [is_set]; [|reflexivity].
      destruct (Py.truthy p) eqn:Ep; [|reflexivity].
      rewrite (Hsave p eq_refl Ep). reflexivity.
    + destruct (is_set cf); [|reflexivity].
      rewrite len_strings.
      destruct (Py.startswith (Py.strip line) FENCE); cbn [bind andb].
      * destruct (length cc =? 0); [reflexivity|].
        destruct (0 <? length cc); [reflexivity|].
        rewrite append_strings. cbn [bind]. rewrite strings_value_app.
        reflexivity.
      * rewrite append_strings. cbn [bind]. rewrite strings_value_app.
        reflexivity.
  - reflexivity.
Qed.

(** One iteration of the untyped loop is one iteration of the typed one. *)
Lemma code_step_sim (st : ParseCode.state) (line : str) :
  code_step (code_locals st) (VStr line)
  = Ok (code_locals (ParseCode.step st line)).
Proof.
  destruct st as [r cs cf cc].
  unfold code_step, ParseCode.step. cbv zeta.
  cbn [strip startswith str_method bind].
  destruct (Py.startswith (Py.strip line) ParseCode.H_ANALYSIS);
    [reflexivity|].
  destruct (Py.startswith (Py.strip line) ParseCode.H_FILES);
    [reflexivity|].
  destruct (Py.startswith (Py.strip line) ParseCode.H_NOTES);
    [reflexivity|].
  destruct (Py.startswith (Py.strip line) ParseCode.H_DEPENDENCIES);
    [reflexivity|].
  cbn [bind]. unfold code_locals.
  cbn [ParseCode.res ParseCode.current_section ParseCode.current_file
       ParseCode.current_content].
  destruct (code_section_tests cs) as (Hf & Ha & Hn & Hd).
  rewrite (file_lines_sim K_FILES (code_result_value r)
             (ParseCode.in_section cs ParseCode.s_files) _ cf cc line
             (code_result_value
                (ParseCode.add_file r (artifact (match cf with
                                                 | Some p => p
                                                 | None => []
                                                 end) cc)))
             Hf).
  2:{ intros p -> _.
      apply (code_append_file (ParseCode.mk_state r cs (Some p) cc) p eq_refl). }
  cbn [bind current_section].
  destruct (ParseCode.in_section cs ParseCode.s_files
            && Py.startswith (Py.strip line) FILE_MARKER).
  { unfold ParseCode.save_previous. cbn [ParseCode.current_file ParseCode.res
      ParseCode.current_content].
    destruct cf as [p|]; cbn [is_set]; [|reflexivity].
    destruct (Py.truthy p); reflexivity. }
  destruct (ParseCode.in_section cs ParseCode.s_files && is_set cf).
  { destruct (Py.startswith (Py.strip line) FENCE && (length cc =? 0));
      [reflexivity|].
    destruct (Py.startswith (Py.strip line) FENCE && (0 <? length cc));
      reflexivity. }
  rewrite Ha, Hn, Hd.
  destruct cs as [[]|]; cbn [ParseCode.in_section ParseCode.section_eqb].
  - rewrite code_add_analysis. reflexivity.
  - reflexivity.
  - rewrite code_add_notes. reflexivity.
  - unfold is_dependency. cbn [truthy startswith str_method bind].
    destruct (Py.truthy (Py.strip line)); cbn [andb bind]; [|reflexivity].
    destruct (Py.startswith (Py.strip line) HASH); cbn [negb];
      [reflexivity|].
    rewrite code_add_dependency. reflexivity.
  - reflexivity.
Qed.

Lemma code_run_sim (lines : list str) : forall st,
  for_each code_step (map VStr lines) (code_locals st)
  = Ok (code_locals (ParseCode.run lines st)).
Proof.
  induction lines as [|l lines IH]; intros st; [reflexivity|].
  cbn [map for_each]. rewrite code_step_sim. cbn [bind]. apply IH.
Qed.

Lemma code_last_file (st : ParseCode.state) :
  last_file K_FILES (code_locals st)
  = Ok (code_result_value (ParseCode.finish st)).
Proof.
  unfold last_file, ParseCode.finish.
  destruct st as [r cs cf cc].
  cbn [code_locals current_file current_content ParseCode.current_file
       ParseCode.current_content ParseCode.res].
  rewrite truthy_option, truthy_strings.
  destruct cf as [p|]; cbn [is_set andb]; [|reflexivity].
  destruct (Py.truthy p && Py.truthy cc); [|reflexivity].
  apply (code_append_file (ParseCode.mk_state r cs (Some p) cc) p eq_refl).
Qed.

Lemma code_parse (s : str) (task_data : list (str * str)) :
  _parse_code_response (VStr s) (dict_value task_data)
  = Ok (code_result_value (ParseCode._parse_code_response s task_data)).
Proof.
  unfold _parse_code_response, ParseCode._parse_code_response.
  unfold dict_value. cbn [get bind]. rewrite lookup_dict_value.
  cbn [split str_method bind iterate].
  match goal with
  | |- context [for_each code_step _ ?st0] =>
      change st0 with (code_locals (ParseCode.init task_data))
  end.
  rewrite (code_run_sim (Py.split_lines s) (ParseCode.init task_data)).
  cbn [bind]. apply code_last_file.
Qed.

(** *** [_parse_test_response] *)

Lemma test_append_file (st : ParseTest.state) (p : str) :
  ParseTest.current_file st = Some p ->
  append_file K_TEST_FILES (test_locals st)
  = Ok (test_result_value
          (ParseTest.add_file (ParseTest.res st)
             (artifact p (ParseTest.current_content st)))).
Proof.
  intros Hf. destruct st as [[fs a ds n] cs cf cc]. cbn in Hf. subst cf.
  unfold append_file, test_locals.
  cbn [result current_file current_content ParseTest.res
       ParseTest.current_file ParseTest.current_content option_value].
  rewrite join_lines_value, detect_value.
  unfold test_result_value, ParseTest.add_file, artifact.
  cbn [ParseTest.test_files ParseTest.strategy ParseTest.dependencies
       ParseTest.run_instructions].
  rewrite map_app. reflexivity.
Qed.

Lemma test_add_strategy (r : ParseTest.result) (sec cf cc : value)
  (line : str) :
  add_line K_STRATEGY (mk_locals (test_result_value r) sec cf cc) (VStr line)
  = Ok (test_result_value (ParseTest.add_strategy r (line ++ NEWLINE))).
Proof. destruct r as [fs a ds n]. reflexivity. Qed.

Lemma test_add_instructions (r : ParseTest.result) (sec cf cc : value)
  (line : str) :
  add_line K_RUN_INSTRUCTIONS (mk_locals (test_result_value r) sec cf cc)
           (VStr line)
  = Ok (test_result_value (ParseTest.add_instructions r (line ++ NEWLINE))).
Proof. destruct r as [fs a ds n]. reflexivity. Qed.

Lemma test_add_dependency (r : ParseTest.result) (sec cf cc : value)
  (d : str) :
  append_item K_DEPENDENCIES (mk_locals (test_result_value r) sec cf cc)
              (VStr d)
  = Ok (test_result_value (ParseTest.add_dependency r d)).
Proof.
  destruct r as [fs a ds n].
  unfold append_item, test_result_value, ParseTest.add_dependency,
    strings_value.
  cbn [result ParseTest.test_files ParseTest.strategy ParseTest.dependencies
       ParseTest.run_instructions].
  rewrite map_app. reflexivity.
Qed.

Lemma test_section_tests (cs : option ParseTest.section) :
  eq_str (option_value (option_map test_section_value cs)) K_FILES
  = ParseTest.in_section cs ParseTest.s_files
  /\ eq_str (option_value (option_map test_section_value cs)) K_STRATEGY
     = ParseTest.in_section cs ParseTest.s_strategy
  /\ eq_str (option_value (option_map test_section_value cs)) K_DEPENDENCIES
     = ParseTest.in_section cs ParseTest.s_dependencies
  /\ eq_str (option_value (option_map test_section_value cs)) K_INSTRUCTIONS
     = ParseTest.in_section cs ParseTest.s_instructions.
Proof. destruct cs as [[]|]; repeat split; reflexivity. Qed.

Lemma test_step_sim (st : ParseTest.state) (line : str) :
  test_step (test_locals st) (VStr line)
  = Ok (test_locals (ParseTest.step st line)).
Proof.
  destruct st as [r cs cf cc].
  unfold test_step, ParseTest.step. cbv zeta.
  cbn [strip startswith str_method bind].
  destruct (Py.startswith (Py.strip line) ParseTest.H_STRATEGY);
    [reflexivity|].
  destruct (Py.startswith (Py.strip line) ParseTest.H_FILES);
    [reflexivity|].
  destruct (Py.startswith (Py.strip line) ParseTest.H_DEPENDENCIES);
    [reflexivity|].
  destruct (Py.startswith (Py.strip line) ParseTest.H_RUNNING);
    [reflexivity|].
  cbn [bind]. unfold test_locals.
  cbn [ParseTest.res ParseTest.current_section ParseTest.current_file
       ParseTest.current_content].
  destruct (test_section_tests cs) as (Hf & Ha & Hd & Hn).
  rewrite (file_lines_sim K_TEST_FILES (test_result_value r)
             (ParseTest.in_section cs ParseTest.s_files) _ cf cc line
             (test_result_value
                (ParseTest.add_file r (artifact (match cf with
                                                 | Some p => p
                                                 | None => []
                                                 end) cc)))
             Hf).
  2:{ intros p -> _.
      apply (test_append_file (ParseTest.mk_state r cs (Some p) cc) p eq_refl). }
  cbn [bind current_section].
  destruct (ParseTest.in_section cs ParseTest.s_files
            && Py.startswith (Py.strip line) FILE_MARKER).
  { unfold ParseTest.save_previous. cbn [ParseTest.current_file ParseTest.res
      ParseTest.current_content].
    destruct cf as [p|]; cbn [is_set]; [|reflexivity].
    destruct (Py.truthy p); reflexivity. }
  destruct (ParseTest.in_section cs ParseTest.s_files && is_set cf).
  { destruct (Py.startswith (Py.strip line) FENCE && (length cc =? 0));
      [reflexivity|].
    destruct (Py.startswith (Py.strip line) FENCE && (0 <? length cc));
      reflexivity. }
  rewrite Ha, Hd, Hn.
  destruct cs as [[]|]; cbn [ParseTest.in_section ParseTest.section_eqb].
  - rewrite test_add_strategy. reflexivity.
  - reflexivity.
  - unfold is_dependency. cbn [truthy startswith str_method bind].
    destruct (Py.truthy (Py.strip line)); cbn [andb bind]; [|reflexivity].
    destruct (Py.startswith (Py.strip line) HASH); cbn [negb];
      [reflexivity|].
    rewrite test_add_dependency. reflexivity.
  - rewrite test_add_instructions. reflexivity.
  - reflexivity.
Qed.

Lemma test_run_sim (lines : list str) : forall st,
  for_each test_step (map VStr lines) (test_locals st)
  = Ok (test_locals (ParseTest.run lines st)).
Proof.
  induction lines as [|l lines IH]; intros st; [reflexivity|].
  cbn [map for_each]. rewrite test_step_sim. cbn [bind]. apply IH.
Qed.

Lemma test_last_file (st : ParseTest.state) :
  last_file K_TEST_FILES (test_locals st)
  = Ok (test_result_value (ParseTest.finish st)).
Proof.
  unfold last_file, ParseTest.finish.
  destruct st as [r cs cf cc].
  cbn [test_locals current_file current_content ParseTest.current_file
       ParseTest.current_content ParseTest.res].
  rewrite truthy_option, truthy_strings.
  destruct cf as [p|]; cbn [is_set andb]; [|reflexivity].
  destruct (Py.truthy p && Py.truthy cc); [|reflexivity].
  apply (test_append_file (ParseTest.mk_state r cs (Some p) cc) p eq_refl).
Qed.

Lemma test_parse (s : str) :
  _parse_test_response (VStr s)
  = Ok (test_result_value (ParseTest._parse_test_response s)).
Proof.
  unfold _parse_test_response, ParseTest._parse_test_response.
  cbn [split str_method bind iterate].
  match goal with
  | |- context [for_each test_step _ ?st0] =>
      change st0 with (test_locals ParseTest.init)
  end.
  rewrite (test_run_sim (Py.split_lines s) ParseTest.init).
  cbn [bind]. apply test_last_file.
Qed.

(** *** The harvesters *)

Lemma looks_like_item_value (line : str) :
  is_item (VStr line) = Ok (looks_like_item line).
Proof.
  unfold is_item, looks_like_item.
  cbn [startswith_any str_method bind existsb].
  destruct (Py.startswith line DASH); [reflexivity|].
  destruct (Py.startswith line STAR); [reflexivity|].
  destruct (Py.startswith line BULLET); reflexivity.
Qed.

Lemma append_stripped_value (acc : list str) (line : str) :
  append_stripped (strings_value acc) (VStr line)
  = Ok (strings_value (acc ++ [Py.lstrip_chars line STRIP_CHARS])).
Proof.
  unfold append_stripped. rewrite append_strings.
  cbn [bind lstrip str_method]. rewrite strings_value_app. reflexivity.
Qed.

Lemma acceptance_scan_sim (lines : list str) : forall b acc,
  acceptance_scan (map VStr lines) (VBool b) (strings_value acc)
  = Ok (strings_value (ConfluenceClient.scan lines b acc)).
Proof.
  induction lines as [|raw lines IH]; intros b acc; [reflexivity|].
  cbn [map acceptance_scan ConfluenceClient.scan]. cbv zeta.
  cbn [strip lower_ contains str_method bind].
  destruct (Py.contains (lower (Py.strip raw))
                        ConfluenceClient.ACCEPTANCE_CRITERIA); [apply IH|].
  cbn [truthy]. destruct b; [|apply IH].
  cbn [startswith str_method bind].
  destruct (Py.startswith (Py.strip raw) ConfluenceClient.HASH);
    cbn [bind orb]; [reflexivity|].
  destruct (Py.startswith (Py.strip raw) ConfluenceClient.BOLD);
    [reflexivity|].
  rewrite looks_like_item_value. cbn [bind]. unfold looks_like_item.
  destruct ((Py.startswith (Py.strip raw) DASH
             || Py.startswith (Py.strip raw) STAR
             || Py.startswith (Py.strip raw) BULLET)
            || str_isdigit (Py.remove (Py.slice (Py.strip raw) 0 2) DOT));
    [|apply IH].
  rewrite append_stripped_value. cbn [bind]. apply IH.
Qed.

Lemma has_keyword_value (line : str) :
  Untyped.has_keyword (VStr line) = Ok (Pipeline.has_keyword line).
Proof.
  unfold Untyped.has_keyword, Pipeline.has_keyword, Pipeline.KEYWORDS.
  cbn [any_of existsb lower_ contains str_method bind].
  repeat match goal with
         | |- context [Py.contains (lower line) ?k] =>
             destruct (Py.contains (lower line) k); cbn [bind orb];
             [reflexivity|]
         end.
  reflexivity.
Qed.

Lemma any_isalnum (line : str) :
  any_ isalnum_ (map (fun c => VStr [c]) line) = Ok (existsb isalnum line).
Proof.
  induction line as [|c line IH]; [reflexivity|].
  cbn [map any_ isalnum_ str_method bind Py.truthy forallb existsb andb].
  rewrite andb_true_r. destruct (isalnum c); [reflexivity | exact IH].
Qed.

Lemma is_separator_value (line : str) :
  is_separator (VStr line)
  = Ok (Py.truthy line && negb (existsb isalnum line)).
Proof.
  unfold is_separator. cbn [truthy iterate bind].
  destruct (Py.truthy line); [|reflexivity].
  rewrite any_isalnum. reflexivity.
Qed.

Lemma requirements_scan_sim (lines : list str) : forall b acc,
  requirements_scan (map VStr lines) (VBool b) (strings_value acc)
  = Ok (strings_value (Pipeline.scan lines b acc)).
Proof.
  induction lines as [|raw lines IH]; intros b acc; [reflexivity|].
  cbn [map requirements_scan Pipeline.scan]. cbv zeta.
  cbn [strip str_method bind]. rewrite has_keyword_value. cbn [bind].
  destruct (Pipeline.has_keyword (Py.strip raw)); [apply IH|].
  cbn [truthy]. destruct b; [|apply IH].
  rewrite looks_like_item_value. cbn [bind]. unfold looks_like_item.
  destruct ((Py.startswith (Py.strip raw) DASH
             || Py.startswith (Py.strip raw) STAR
             || Py.startswith (Py.strip raw) BULLET)
            || str_isdigit (Py.remove (Py.slice (Py.strip raw) 0 2) DOT)).
  - rewrite append_stripped_value. cbn [bind]. apply IH.
  - rewrite is_separator_value. cbn [bind].
    destruct (Py.truthy (Py.strip raw)
              && negb (existsb isalnum (Py.strip raw)));
      [reflexivity | apply IH].
Qed.

Lemma acceptance_value (s : str) :
  Untyped._extract_acceptance_criteria (VStr s)
  = Ok (strings_value (ConfluenceClient._extract_acceptance_criteria s)).
Proof.
  unfold Untyped._extract_acceptance_criteria,
    ConfluenceClient._extract_acceptance_criteria.
  cbn [split str_method bind iterate].
  apply (acceptance_scan_sim (Py.split_lines s) false []).
Qed.

Lemma requirements_value (s : str) :
  Untyped._extract_requirements_from_content (VStr s)
  = Ok (strings_value (Pipeline._extract_requirements_from_content s)).
Proof.
  unfold Untyped._extract_requirements_from_content,
    Pipeline._extract_requirements_from_content.
  cbn [split str_method bind iterate].
  apply (requirements_scan_sim (Py.split_lines s) false []).
Qed.

End Facts.
End UntypedFacts.

(** ** Malformed structure *)

Module Robustness.
Import ClaudeGenerator Exc PyObj.

(** C7: on every string the four extractors return, and return what the
    typed functions of this file compute: run on untyped values, where a
    missing method, a wrong operand or an absent key would raise, each of
    them goes through every operation without raising (for
    [_parse_code_response] with a dict as task data).  What they return
    shrinks with the structure they find: the parsers return at most one file
    per file header line and no file at all when the Files header is missing;
    the harvesters return at most one item per item line and the empty list
    when no line holds a trigger phrase.  Fences, balanced or not, are never
    counted.  On [None] in place of the string each of them raises
    AttributeError. *)
Theorem C7_extractors_return (U : Unicode) (s : str)
  (task_data : list (str * str)) :
  let lines := Py.split_lines s in
  Untyped._parse_code_response (VStr s) (Untyped.dict_value task_data)
  = Ok (Untyped.code_result_value
          (ParseCode._parse_code_response s task_data))
  /\ Untyped._parse_test_response (VStr s)
     = Ok (Untyped.test_result_value (ParseTest._parse_test_response s))
  /\ Untyped._extract_acceptance_criteria (VStr s)
     = Ok (Untyped.strings_value
             (ConfluenceClient._extract_acceptance_criteria s))
  /\ Untyped._extract_requirements_from_content (VStr s)
     = Ok (Untyped.strings_value
             (Pipeline._extract_requirements_from_content s))
  /\ (length (ParseCode.files (ParseCode._parse_code_response s task_data))
      <= count_file_headers lines
      /\ (Forall (fun l => Py.startswith (Py.strip l) ParseCode.H_FILES = false)
                 lines ->
          ParseCode.files (ParseCode._parse_code_response s task_data) = []))
  /\ (length (ParseTest.test_files (ParseTest._parse_test_response s))
      <= count_file_headers lines
      /\ (Forall (fun l => Py.startswith (Py.strip l) ParseTest.H_FILES = false)
                 lines ->
          ParseTest.test_files (ParseTest._parse_test_response s) = []))
  /\ (length (ConfluenceClient._extract_acceptance_criteria s)
      <= length (filter item_line lines)
      /\ (Forall (fun raw => Py.contains (lower (Py.strip raw))
                               ConfluenceClient.ACCEPTANCE_CRITERIA = false)
                 lines ->
          ConfluenceClient._extract_acceptance_criteria s = []))
  /\ (length (Pipeline._extract_requirements_from_content s)
      <= length (filter item_line lines)
      /\ (Forall (fun raw => Pipeline.has_keyword (Py.strip raw) = false)
                 lines ->
          Pipeline._extract_requirements_from_content s = []))
  /\ Untyped._parse_code_response VNone (Untyped.dict_value task_data)
     = Raise AttributeError
  /\ Untyped._parse_test_response VNone = Raise AttributeError
  /\ Untyped._extract_acceptance_criteria VNone = Raise AttributeError
  /\ Untyped._extract_requirements_from_content VNone = Raise AttributeError.
Proof.
  intros lines.
  split; [apply UntypedFacts.code_parse|].
  split; [apply UntypedFacts.test_parse|].
  split; [apply UntypedFacts.acceptance_value|].
  split; [apply UntypedFacts.requirements_value|].
  split.
  { split.
    + unfold ParseCode._parse_code_response. fold lines.
      pose proof (CodeFacts.finish_files_bound
                    (ParseCode.run lines (ParseCode.init task_data))) as Hf.
      pose proof (CodeFacts.run_files_bound lines (ParseCode.init task_data))
        as Hr.
      change (length (ParseCode.files (ParseCode.res (ParseCode.init task_data))))
        with 0 in Hr.
      change (CodeLines.pending (ParseCode.init task_data)) with 0 in Hr.
      lia.
    + intros H. unfold ParseCode._parse_code_response. fold lines.
      destruct (CodeFacts.run_outside_files lines (ParseCode.init task_data)
                  H eq_refl) as [Hc Hfiles].
      unfold ParseCode.finish. rewrite Hc.
      cbn [ParseCode.current_file ParseCode.init]. rewrite Hfiles.
      reflexivity. }
  split.
  { split.
    + unfold ParseTest._parse_test_response. fold lines.
      pose proof (TestFacts.t_finish_files_bound
                    (ParseTest.run lines ParseTest.init)) as Hf.
      pose proof (TestFacts.t_run_files_bound lines ParseTest.init) as Hr.
      change (length (ParseTest.test_files (ParseTest.res ParseTest.init)))
        with 0 in Hr.
      change (TestLines.pending ParseTest.init) with 0 in Hr.
      lia.
    + intros H. unfold ParseTest._parse_test_response. fold lines.
      destruct (TestFacts.t_run_outside_files lines ParseTest.init
                  H eq_refl) as [Hc Hfiles].
      unfold ParseTest.finish. rewrite Hc.
      cbn [ParseTest.current_file ParseTest.init]. rewrite Hfiles.
      reflexivity. }
  split.
  { split.
    + apply (HarvestFacts.acceptance_scan_length lines false []).
    + intros H. apply (HarvestFacts.acceptance_scan_closed lines [] H). }
  split.
  { split.
    + apply (HarvestFacts.requirements_scan_length lines false []).
    + intros H. apply (HarvestFacts.requirements_scan_closed lines [] H). }
  repeat split.
Qed.

(** C7 on a response with an unclosed fence and no Files header, read by
    the four extractors. *)
Lemma C7_extractors_return_witness :
  let s := Inputs.text [ "### File: a.py"; "```python"; "x = 1"; "- y" ]%string in
  Untyped._parse_code_response (VStr s) (VDict [])
  = Ok (VDict [ (Untyped.K_TASK_KEY, VStr (lit "unknown"));
                (Untyped.K_FILES, VList []);
                (Untyped.K_ANALYSIS, VStr []); (Untyped.K_NOTES, VStr []);
                (Untyped.K_DEPENDENCIES, VList []) ])
  /\ ParseTest.test_files (ParseTest._parse_test_response s) = []
  /\ ConfluenceClient._extract_acceptance_criteria s = []
  /\ Pipeline._extract_requirements_from_content s = [].
Proof.
  cbv zeta.
  destruct (C7_extractors_return ascii_tables
              (Inputs.text [ "### File: a.py"; "```python"; "x = 1"; "- y" ]%string)
              [])
    as (E1 & _ & _ & _ & _ & (_ & H2) & (_ & H3) & (_ & H4) & _).
  split; [etransitivity; [exact E1 | reflexivity]|].
  split; [apply H2; vm_compute; repeat constructor|].
  split; [apply H3; vm_compute; repeat constructor|].
  apply H4; vm_compute; repeat constructor.
Defined.

End Robustness.
